(** * DevPulse insight engine (src/js/ai-insights.js): model and properties

    The engine is the object literal [window.DevPulseAI].  Its methods are
    embedded here as Rocq functions with the names they have in the source.

    Conventions of the embedding.

    - Numbers.  JavaScript numbers are modelled by exact rationals [Q];
      counts and array lengths are [nat] or [Z] and are injected into [Q]
      where the source divides or compares against a decimal literal.  The
      non-finite values the engine can produce ([x / 0], [Math.max()] of
      nothing, arithmetic on a non-number) are kept apart in [jsnum].
      Rounding of IEEE doubles is not modelled.
    - [Math.sqrt] and [Math.log10] are parameters [js_sqrt], [js_log10] of
      the functions that call them: every property below holds for any
      implementation of the two.
    - [Math.random()] is a stream [rnd : nat -> Q]; the monad [M] threads the
      number of draws made so far, so the k-th call returns [rnd k].
    - [Date.now()] is the parameter [now] (milliseconds since the epoch) and
      the local time zone is [tzOffset], the offset in milliseconds of local
      time from UTC at a given instant.  A date field holds the result of
      [new Date] on it: a time value or an invalid date.
    - A thrown [TypeError] (a rejected promise for the [async] entry point)
      is the [Throw] outcome.
    - Strings are byte strings; [toLowerCase] folds ASCII letters and
      [length] counts bytes.
    - An object used as a dictionary is the list of its entries in insertion
      order; the names inherited from [Object.prototype] are treated where a
      lookup can meet them.  The enumeration order of keys that look like
      array indices is not modelled. *)

From Stdlib Require Import ZArith QArith Qminmax Qabs Qround String Ascii List Bool Lia Lqa.
From Stdlib Require Import DecimalString Sorted.
Import ListNotations.

Local Open Scope string_scope.

(** ** JavaScript prelude *)

Module JS.

  (** *** Numbers *)

Inductive jsnum : Type :=
  | Fin (q : Q)
  | PosInf
  | NegInf
  | NaN.

Definition Zq (z : Z) : Q := inject_Z z.
Definition Nq (n : nat) : Q := inject_Z (Z.of_nat n).

Definition Qgtb (a b : Q) : bool := negb (Qle_bool a b).
Definition Qltb (a b : Q) : bool := negb (Qle_bool b a).
Definition Qgeb (a b : Q) : bool := Qle_bool b a.
Definition Qleb (a b : Q) : bool := Qle_bool a b.
Definition Qeqb (a b : Q) : bool := Qeq_bool a b.

  (** [a / b] on finite operands: a zero divisor gives an infinity or NaN. *)
Definition jsdiv (a b : Q) : jsnum :=
    if Qeqb b 0 then
      if Qeqb a 0 then NaN else if Qltb 0 a then PosInf else NegInf
    else Fin (a / b).

  (** [x * q] for a finite factor [q]. *)
Definition jsmul (x : jsnum) (q : Q) : jsnum :=
    match x with
    | Fin a => Fin (a * q)
    | PosInf => if Qltb 0 q then PosInf else if Qltb q 0 then NegInf else NaN
    | NegInf => if Qltb 0 q then NegInf else if Qltb q 0 then PosInf else NaN
    | NaN => NaN
    end.

  (** [a >= x]; every comparison with NaN is false. *)
Definition js_geb (a : Q) (x : jsnum) : bool :=
    match x with
    | Fin b => Qgeb a b
    | PosInf => false
    | NegInf => true
    | NaN => false
    end.

  (** [Math.max(...xs)]: [-Infinity] when [xs] is empty. *)
Definition MathMaxSpread (xs : list Z) : jsnum :=
    match xs with
    | [] => NegInf
    | x :: rest => Fin (Zq (fold_left Z.max rest x))
    end.

  (** [xs.reduce((a, b) => a + b, 0)] on an array of counts. *)
Definition sumZ (xs : list Z) : Z := fold_left Z.add xs 0%Z.
Definition sumQ (xs : list Q) : Q := fold_left Qplus xs 0%Q.

  (** *** Arrays *)

  (** [xs.slice(s, e)] and [xs.slice(s)] for non-negative bounds. *)
Definition slice {A : Type} (s e : nat) (xs : list A) : list A :=
    firstn (e - s) (skipn s xs).
Definition sliceFrom {A : Type} (s : nat) (xs : list A) : list A :=
    skipn s xs.

Definition count {A : Type} (p : A -> bool) (xs : list A) : nat :=
    length (filter p xs).

Section SetOf.
Context {A : Type} (eqb : A -> A -> bool).

Definition inb (x : A) (xs : list A) : bool := existsb (eqb x) xs.

Fixpoint newSetFrom (seen : list A) (xs : list A) : list A :=
      match xs with
      | [] => []
      | x :: rest =>
          if inb x seen then newSetFrom seen rest
          else x :: newSetFrom (x :: seen) rest
      end.

    (** [[...new Set(xs)]]: the distinct elements in order of first
        occurrence; [new Set(xs).size] is its length. *)
Definition newSet (xs : list A) : list A := newSetFrom [] xs.
End SetOf.

  (** *** Strings *)

Definition lowerAscii (c : ascii) : ascii :=
    let n := nat_of_ascii c in
    if (65 <=? n)%nat && (n <=? 90)%nat then ascii_of_nat (n + 32) else c.

Fixpoint toLowerCase (s : string) : string :=
    match s with
    | EmptyString => EmptyString
    | String c rest => String (lowerAscii c) (toLowerCase rest)
    end.

  (** [s.includes(sub)] *)
Fixpoint includes (s sub : string) : bool :=
    if String.prefix sub s then true
    else match s with
         | EmptyString => false
         | String _ rest => includes rest sub
         end.

  (** [xs.includes(x)] on an array of strings *)
Definition arrIncludes (xs : list string) (x : string) : bool :=
    inb String.eqb x xs.

  (** [o || ''] for a string-or-undefined field *)
Definition orEmpty (o : option string) : string :=
    match o with Some s => s | None => "" end.

  (** Truthiness of a string-or-undefined value: [Boolean(o)]. *)
Definition truthyStr (o : option string) : bool :=
    match o with Some s => negb (s =? "") | None => false end.

  (** [xs.filter(Boolean)] on string-or-undefined values *)
Fixpoint filterBoolean (xs : list (option string)) : list string :=
    match xs with
    | [] => []
    | Some s :: rest =>
        if s =? "" then filterBoolean rest else s :: filterBoolean rest
    | None :: rest => filterBoolean rest
    end.

Definition optStrEqb (a b : option string) : bool :=
    match a, b with
    | Some x, Some y => x =? y
    | None, None => true
    | _, _ => false
    end.

  (** [n || 0] for a number-or-undefined field *)
Definition orZero (o : option Z) : Z :=
    match o with Some z => z | None => 0%Z end.

  (** *** Objects *)

  (** The property names every object literal inherits from
      [Object.prototype]: [obj[k]] is a truthy non-number for these even
      when [obj] has no own property [k]. *)
Definition inheritedNames : list string :=
    [ "constructor"; "__defineGetter__"; "__defineSetter__"; "hasOwnProperty";
      "__lookupGetter__"; "__lookupSetter__"; "isPrototypeOf";
      "propertyIsEnumerable"; "toString"; "valueOf"; "__proto__";
      "toLocaleString" ].

Definition isInherited (k : string) : bool := arrIncludes inheritedNames k.

  (** The own keys, in insertion order, of an object [obj = {}] filled by
    [obj[k] = (obj[k] || 0) + 1] for each [k] of [keys]: the assignment to
    [__proto__] of a value that is not an object is ignored. *)
Definition tallyKeys (keys : list string) : list string :=
  filter (fun k => negb (k =? "__proto__")) (newSet String.eqb keys).

(** An object literal evaluates its property definitions in source order,
      and a later definition of a key replaces the value of an earlier one:
      the lookup returns the last binding. *)
Fixpoint objectLiteral {A : Type} (props : list (string * A)) (key : string)
    : option A :=
    match props with
    | [] => None
    | (k, v) :: rest =>
        match objectLiteral rest key with
        | Some later => Some later
        | None => if k =? key then Some v else None
        end
    end.

  (** *** Dates *)

  (** [new Date(x)]: a time value in milliseconds, or an invalid date. *)
Inductive jsdate : Type :=
  | ValidDate (ms : Z)
  | InvalidDate.

  (** [new Date(field)] where the field is a date or [undefined]. *)
Definition newDate (o : option jsdate) : jsdate :=
    match o with Some d => d | None => InvalidDate end.

  (** *** Outcomes and the monad of the engine *)

Inductive outcome (A : Type) : Type :=
  | Ok (a : A)
  | Throw (e : string).
Arguments Ok {A} a.
Arguments Throw {A} e.

Definition omap {A B : Type} (f : A -> B) (o : outcome A) : outcome B :=
    match o with Ok a => Ok (f a) | Throw e => Throw e end.

Definition obind {A B : Type} (o : outcome A) (f : A -> outcome B)
    : outcome B :=
    match o with Ok a => f a | Throw e => Throw e end.

  (** A computation that may call [Math.random()] and may throw: it maps the
      number of draws made before it to its result and the number after. *)
Definition M (A : Type) : Type := nat -> outcome (A * nat).

Definition ret {A : Type} (a : A) : M A := fun k => Ok (a, k).

Definition bind {A B : Type} (m : M A) (f : A -> M B) : M B :=
    fun k => match m k with
             | Ok (a, k') => f a k'
             | Throw e => Throw e
             end.

Definition lift {A : Type} (o : outcome A) : M A :=
    fun k => omap (fun a => (a, k)) o.

  (** [xs.reduce((a, b) => a + b)] with no initial value: a [TypeError] on
      an empty array. *)
Definition reduceSum (xs : list Z) : outcome Z :=
    match xs with
    | [] => Throw "TypeError: Reduce of empty array with no initial value"
    | x :: rest => Ok (fold_left Z.add rest x)
    end.

End JS.

Import JS.

Declare Scope js_scope.
Delimit Scope js_scope with js.
Notation "x <- c ;; k" := (bind c (fun x => k))
  (at level 61, c at next level, right associativity) : js_scope.
Notation "x <~ c ;; k" := (obind c (fun x => k))
  (at level 61, c at next level, right associativity) : js_scope.

(** ** Data model *)

(** *** Input: the record handed to [generateInsights]

    Fields read through [?.], [|| default] or a truthiness test are
    options ([None] is a missing field).  A field used only for its
    truthiness ([fork]) is a boolean.  A date field that is present holds
    the date [new Date] makes of its string, valid or not. *)

Module Org.
Record t : Type := mk { login : option string }.
End Org.

Module Event.
Record t : Type := mk {
    type : string;                  (* [e.type] *)
    created_at : option jsdate;     (* [new Date(e.created_at)] *)
    repo_name : option string;      (* [e.repo?.name] *)
    org : option Org.t;             (* [e.org] *)
    commits : option nat            (* [e.payload?.commits?.length] *)
  }.
End Event.

Module Repo.
Record t : Type := mk {
    name : option string;
    language : option string;
    description : option string;
    fork : bool;
    stargazers_count : option Z;
    created_at : option jsdate;
    updated_at : option jsdate
  }.
End Repo.

Module UserData.
Record t : Type := mk {
    repositories : option (list Repo.t);
    events : option (list Event.t);
    public_repos : option Z;
    followers : option Z
  }.
End UserData.

(** *** Output: the Insights record

    A field that only some return statements of a method build is an
    option: [None] is a key absent from the returned object. *)

Module Scores.
Record t : Type := mk {
    innovation : Q;
    collaboration : Q;
    consistency : Q;
    exploration : Q;
    leadership : Q
  }.
End Scores.

Module PersonalityProfile.
Record t : Type := mk {
    type : string;
    scores : Scores.t;
    description : string;
    strengths : list string;
    growthAreas : list string
  }.
End PersonalityProfile.

Module SessionLength.
Record t : Type := mk { average : string; pattern : string }.
End SessionLength.

Module ProjectJuggling.
Record t : Type := mk {
    uniqueProjects : nat;
    averageEventsPerProject : jsnum;
    multitaskingScore : Q
  }.
End ProjectJuggling.

Module BurnoutRisk.
Record t : Type := mk {
    level : string;
    advice : string;
    score : Q;
    recommendations : option (list string)
  }.
End BurnoutRisk.

Module WorkPatterns.
Record t : Type := mk {
    peakHours : list nat;
    workingStyle : string;
    sessionLength : SessionLength.t;
    multitasking : ProjectJuggling.t;
    consistency : Q;
    burnoutRisk : BurnoutRisk.t
  }.
End WorkPatterns.

Module CommitStyle.
Record t : Type := mk { style : string; pattern : string }.
End CommitStyle.

Module CodingStyle.
Record t : Type := mk {
    languagePreferences : list (string * jsnum);
    projectTypes : list string;
    commitStyle : CommitStyle.t;
    testingApproach : string;
    architectureStyle : list string
  }.
End CodingStyle.

Module NetworkSize.
Record t : Type := mk {
    repositoryNetwork : nat;
    organizationNetwork : nat;
    networkScore : Q
  }.
End NetworkSize.

Module CollaborationStyle.
Record t : Type := mk {
    teamPlayer : Q;
    mentorshipStyle : string;
    communicationStyle : string;
    leadership : string;
    networkSize : NetworkSize.t
  }.
End CollaborationStyle.

Module Recommendation.
Record t : Type := mk {
    type : string;
    title : string;
    description : string;
    confidence : Q;
    icon : string
  }.
End Recommendation.

Module NextTechnology.
Record t : Type := mk {
    primary : string;
    alternatives : list string;
    confidence : Q;
    reasoning : string
  }.
End NextTechnology.

Module ActivityTrend.
Record t : Type := mk {
    trend : string;
    confidence : Q;
    description : string
  }.
End ActivityTrend.

Module CollaborationGrowth.
Record t : Type := mk {
    trend : string;
    confidence : Q;
    suggestion : option string
  }.
End CollaborationGrowth.

Module SkillDevelopment.
Record t : Type := mk {
    learningVelocity : string;
    skillDiversification : string;
    confidence : Q;
    insights : option string;
    recommendations : option (list string)
  }.
End SkillDevelopment.

Module Predictions.
Record t : Type := mk {
    nextTechnology : NextTechnology.t;
    activityTrend : ActivityTrend.t;
    collaborationGrowth : CollaborationGrowth.t;
    skillDevelopment : SkillDevelopment.t
  }.
End Predictions.

Module Risk.
Record t : Type := mk { level : string; advice : string }.
End Risk.

Module RiskAnalysis.
Record t : Type := mk {
    burnoutRisk : BurnoutRisk.t;
    skillStagnation : Risk.t;
    collaborationIsolation : Risk.t
  }.
End RiskAnalysis.

Module Insights.
Record t : Type := mk {
    personalityProfile : PersonalityProfile.t;
    workPatterns : WorkPatterns.t;
    codingStyle : CodingStyle.t;
    collaborationStyle : CollaborationStyle.t;
    recommendations : list Recommendation.t;
    predictions : Predictions.t;
    riskAnalysis : RiskAnalysis.t
  }.
End Insights.

(** The summary built by [analyzeBasicPatterns]. *)
Module BasicPatterns.
Record t : Type := mk {
    languages : list string;
    repoCount : Z;
    followerCount : Z;
    recentActivity : nat
  }.
End BasicPatterns.

(** ** The engine *)

Section Engine.

Variable rnd : nat -> Q.
Variable now : Z.
Variable tzOffset : Z -> Z.
Variable js_sqrt : Q -> Q.
Variable js_log10 : Q -> Q.

Local Open Scope list_scope.
Local Open Scope js_scope.
Local Open Scope Q_scope.

(** [Math.random()] *)
Definition random : M Q := fun k => Ok (rnd k, S k).

(** *** Local time *)

Definition localMs (ms : Z) : Z := (ms + tzOffset ms)%Z.

(** [d.getHours()]; [None] is NaN. *)
Definition getHours (d : jsdate) : option nat :=
  match d with
  | ValidDate ms => Some (Z.to_nat ((localMs ms / 3600000) mod 24))
  | InvalidDate => None
  end.

(** Day of the week of a local day number (1 January 1970 was a Thursday). *)
Definition weekdayOfDayNumber (day : Z) : Z := ((day + 4) mod 7)%Z.

(** [d.getDay()]; [None] is NaN. *)
Definition getDay (d : jsdate) : option nat :=
  match d with
  | ValidDate ms => Some (Z.to_nat (weekdayOfDayNumber (localMs ms / 86400000)))
  | InvalidDate => None
  end.

(** [d.toDateString()] names the local calendar day of [d], and two dates
    have the same string exactly when they fall on the same local day: the
    model keeps the day number.  [None] is the string "Invalid Date". *)
Definition toDateString (d : jsdate) : option Z :=
  match d with
  | ValidDate ms => Some (localMs ms / 86400000)%Z
  | InvalidDate => None
  end.

Definition dayKeyEqb (a b : option Z) : bool :=
  match a, b with
  | Some x, Some y => (x =? y)%Z
  | None, None => true
  | _, _ => false
  end.

(** [new Date(dateString).getDay()] for a key of [groupEventsByDay]. *)
Definition getDayOfDateString (key : option Z) : option nat :=
  match key with
  | Some day => Some (Z.to_nat (weekdayOfDayNumber day))
  | None => None
  end.

(** *** Utility methods *)

Fixpoint pushToGroup (key : option Z) (e : Event.t)
  (groups : list (option Z * list Event.t)) : list (option Z * list Event.t) :=
  match groups with
  | [] => [(key, [e])]
  | (k, es) :: rest =>
      if dayKeyEqb k key then (k, es ++ [e]) :: rest
      else (k, es) :: pushToGroup key e rest
  end.

(** The object built by [groupEventsByDay], as the list of its entries in
    insertion order. *)
Definition groupEventsByDay (events : list Event.t)
  : list (option Z * list Event.t) :=
  fold_left
    (fun groups event =>
       pushToGroup (toDateString (newDate (Event.created_at event))) event groups)
    events [].

Definition typeIs (e : Event.t) (name : string) : bool := Event.type e =? name.

Definition hasOrg (e : Event.t) : bool :=
  match Event.org e with Some _ => true | None => false end.

(** [repos.map(r => r.language).filter(Boolean)] *)
Definition languagesOf (repos : list Repo.t) : list string :=
  filterBoolean (map Repo.language repos).

Definition lowerDescription (r : Repo.t) : string :=
  toLowerCase (orEmpty (Repo.description r)).

Definition lowerName (r : Repo.t) : string :=
  toLowerCase (orEmpty (Repo.name r)).

(** *** Score calculators *)

Definition innovativeKeywords : list string :=
  ["experiment"; "prototype"; "poc"; "demo"; "innovative"; "cutting-edge";
   "ai"; "ml"; "blockchain"].

(** The filter of [recentRepos]: created (or else updated) at most six
    30-day months before [Date.now()]. *)
Definition createdWithinSixMonths (r : Repo.t) : bool :=
  let field := match Repo.created_at r with
               | Some d => Some d
               | None => Repo.updated_at r
               end in
  match newDate field with
  | ValidDate ms => Qleb (Zq (now - ms) / (1000 * 60 * 60 * 24 * 30)) 6
  | InvalidDate => false
  end.

(** The local [forkRatio] of the source is computed and never read; it is
    left out. *)
Definition calculateInnovationScore (repos : list Repo.t) : M Q :=
  if (length repos =? 0)%nat then
    r <- random ;; ret (r * 3 + 4)
  else
    let uniqueLanguages := length (newSet String.eqb (languagesOf repos)) in
    let originalRepos := count (fun r => negb (Repo.fork r)) repos in
    let totalRepos := length repos in
    let experimentalRepos :=
      count (fun r => existsb (fun keyword => includes (lowerDescription r) keyword)
                        innovativeKeywords) repos in
    let recentRepos := count createdWithinSixMonths repos in
    let score := 0 in
    let score := score + Qmin 4 (Nq uniqueLanguages * 0.8) in
    let score := score + Qmin 3 ((Nq originalRepos / Qmax (Nq totalRepos) 1) * 4) in
    let score := score + Qmin 2 (Nq experimentalRepos * 0.5) in
    let score := score + Qmin 1 ((Nq recentRepos / Qmax (Nq totalRepos) 1) * 2) in
    ret (Qmin 10 (Qmax 1 score)).

Definition isCollaborative (e : Event.t) : bool :=
  typeIs e "PullRequestEvent" || typeIs e "IssuesEvent"
  || typeIs e "PullRequestReviewEvent" || typeIs e "IssueCommentEvent".

(** The local [publicEvents] of the source is computed and never read; it
    is left out. *)
Definition calculateCollaborationScore (events : list Event.t) : M Q :=
  if (length events =? 0)%nat then
    r <- random ;; ret (r * 3 + 3)
  else
    let collaborativeEvents := count isCollaborative events in
    let orgEvents := count hasOrg events in
    let watchEvents := count (fun e => typeIs e "WatchEvent") events in
    let forkEvents := count (fun e => typeIs e "ForkEvent") events in
    let n := Qmax (Nq (length events)) 1 in
    let score := 0 in
    let score := score + Qmin 4 ((Nq collaborativeEvents / n) * 10) in
    let score := score + Qmin 2 ((Nq orgEvents / n) * 8) in
    let score := score + Qmin 2 ((Nq watchEvents / n) * 20) in
    let score := score + Qmin 2 ((Nq forkEvents / n) * 15) in
    ret (Qmin 10 (Qmax 1 score)).

(** Weekend test of [calculateConsistencyScore]: [dayOfWeek === 0 ||
    dayOfWeek === 6]; NaN is neither. *)
Definition isWeekendKey (key : option Z) : bool :=
  match getDayOfDateString key with
  | Some d => (d =? 0)%nat || (d =? 6)%nat
  | None => false
  end.

Definition calculateConsistencyScore (events : list Event.t) : M Q :=
  if (length events <? 5)%nat then
    r <- random ;; ret (r * 4 + 3)
  else
    let dailyActivity := groupEventsByDay events in
    let days := map fst dailyActivity in
    if (length days <? 7)%nat then
      r <- random ;; ret (r * 3 + 4)
    else
      let activityCounts := map (fun g => Z.of_nat (length (snd g))) dailyActivity in
      let mean := Zq (sumZ activityCounts) / Nq (length activityCounts) in
      let variance :=
        fold_left (fun sum c => sum + (Zq c - mean) * (Zq c - mean)) activityCounts 0
        / Nq (length activityCounts) in
      let stdDev := js_sqrt variance in
      let coefficientOfVariation := if Qgtb mean 0 then stdDev / mean else 1 in
      let weekendActivity :=
        map (fun g => Z.of_nat (length (snd g)))
            (filter (fun g => isWeekendKey (fst g)) dailyActivity) in
      let weekdayActivity :=
        map (fun g => Z.of_nat (length (snd g)))
            (filter (fun g => negb (isWeekendKey (fst g))) dailyActivity) in
      weekdayMean <-
        (if (0 <? length weekdayActivity)%nat then
           s <- lift (reduceSum weekdayActivity) ;;
           ret (Zq s / Nq (length weekdayActivity))
         else ret 0) ;;
      weekendMean <-
        (if (0 <? length weekendActivity)%nat then
           s <- lift (reduceSum weekendActivity) ;;
           ret (Zq s / Nq (length weekendActivity))
         else ret 0) ;;
      let workLifeBalance :=
        Qabs (weekdayMean - weekendMean) / Qmax (Qmax weekdayMean weekendMean) 1 in
      let score := 10 - coefficientOfVariation * 5 in
      let score := score + Qmin 2 ((1 - workLifeBalance) * 2) in
      ret (Qmin 10 (Qmax 1 score)).

Definition languageCategories : list (string * list string) :=
  [ ("frontend", ["JavaScript"; "TypeScript"; "HTML"; "CSS"; "Vue"; "React"]);
    ("backend", ["Java"; "Python"; "C#"; "PHP"; "Ruby"; "Go"; "Rust"; "Node.js"]);
    ("mobile", ["Swift"; "Kotlin"; "Dart"; "Objective-C"]);
    ("systems", ["C"; "C++"; "Rust"; "Assembly"]);
    ("data", ["Python"; "R"; "Julia"; "MATLAB"; "Scala"]);
    ("functional", ["Haskell"; "Clojure"; "F#"; "Erlang"; "Elixir"]) ].

Definition emergingTech : list string :=
  ["Rust"; "Go"; "TypeScript"; "Dart"; "Julia"; "Zig"; "WebAssembly"].

(** The tags one repository adds to [projectTypes] in
    [calculateExplorationScore]. *)
Definition projectTypeTags (repo : Repo.t) : list string :=
  let name := lowerName repo in
  let desc := lowerDescription repo in
  (if includes name "web" || includes desc "website" then ["web"] else [])
  ++ (if includes name "mobile" || includes desc "android" || includes desc "ios"
      then ["mobile"] else [])
  ++ (if includes name "api" || includes desc "api" then ["api"] else [])
  ++ (if includes name "cli" || includes desc "command" then ["cli"] else [])
  ++ (if includes desc "library" || includes desc "framework" then ["library"] else [])
  ++ (if includes desc "game" then ["game"] else [])
  ++ (if includes desc "ml" || includes desc "ai" then ["ai"] else []).

Definition calculateExplorationScore (repos : list Repo.t) : M Q :=
  if (length repos =? 0)%nat then
    r <- random ;; ret (r * 3 + 4)
  else
    let languages := languagesOf repos in
    let uniqueLanguages := newSet String.eqb languages in
    let categoriesUsed :=
      newSet String.eqb
        (flat_map (fun lang =>
                     map fst (filter (fun c => arrIncludes (snd c) lang)
                                languageCategories))
           uniqueLanguages) in
    let emergingCount := count (arrIncludes emergingTech) uniqueLanguages in
    let projectTypes := newSet String.eqb (flat_map projectTypeTags repos) in
    let score := 0 in
    let score := score + Qmin 3 (Nq (length uniqueLanguages) * 0.5) in
    let score := score + Qmin 3 (Nq (length categoriesUsed) * 0.8) in
    let score := score + Qmin 2 (Nq emergingCount * 0.8) in
    let score := score + Qmin 2 (Nq (length projectTypes) * 0.4) in
    ret (Qmin 10 (Qmax 1 score)).

Definition isMentorship (e : Event.t) : bool :=
  typeIs e "IssueCommentEvent" || typeIs e "PullRequestReviewEvent".

(** The locals [forkedRepos], [documentedRepos], [createEvents],
    [releaseEvents] and [totalForks] of the source are computed and never
    read; they are left out. *)
Definition calculateLeadershipScore (repos : list Repo.t) (events : list Event.t)
  : M Q :=
  if (length repos =? 0)%nat && (length events =? 0)%nat then
    r <- random ;; ret (r * 3 + 2)
  else
    let ownedRepos := count (fun r => negb (Repo.fork r)) repos in
    let totalRepos := if (length repos =? 0)%nat then 1%nat else length repos in
    let ownershipRatio := Nq ownedRepos / Nq totalRepos in
    let starredRepos :=
      count (fun r => (5 <? orZero (Repo.stargazers_count r))%Z) repos in
    let organizationEvents := count hasOrg events in
    let mentorshipEvents := count isMentorship events in
    let totalStars :=
      fold_left (fun sum repo => (sum + orZero (Repo.stargazers_count repo))%Z)
        repos 0%Z in
    let n := Qmax (Nq (length events)) 1 in
    let score := 0 in
    let score := score + Qmin 2 (ownershipRatio * 3) in
    let score := score + Qmin 2 ((Nq starredRepos / Qmax (Nq totalRepos) 1) * 4) in
    let score := score + Qmin 2 (js_log10 (Qmax (Zq totalStars) 1) * 0.8) in
    let score := score + Qmin 2 ((Nq organizationEvents / n) * 10) in
    let score := score + Qmin 2 ((Nq mentorshipEvents / n) * 8) in
    ret (Qmin 10 (Qmax 1 score)).

(** *** Pattern analysis *)

(** [xs[i]++] for an index inside the array. *)
Fixpoint increment (i : nat) (xs : list Z) : list Z :=
  match xs, i with
  | [], _ => []
  | x :: rest, O => (x + 1)%Z :: rest
  | x :: rest, S j => x :: increment j rest
  end.

(** An event whose date is invalid has hour NaN: [hourlyActivity[NaN]++]
    touches no element of the array. *)
Definition analyzeTimeDistribution (events : list Event.t) : list Z :=
  fold_left
    (fun hourlyActivity event =>
       match getHours (newDate (Event.created_at event)) with
       | Some hour => increment hour hourlyActivity
       | None => hourlyActivity
       end)
    events (repeat 0%Z 24).

Definition analyzeWeeklyPattern (events : list Event.t) : list Z :=
  fold_left
    (fun weeklyActivity event =>
       match getDay (newDate (Event.created_at event)) with
       | Some day => increment day weeklyActivity
       | None => weeklyActivity
       end)
    events (repeat 0%Z 7).

(** [xs.map((activity, hour) => ({ hour, activity }))] *)
Definition withIndex (xs : list Z) : list (nat * Z) :=
  combine (seq 0 (length xs)) xs.

Definition identifyPeakHours (hourlyDistribution : list Z) : list nat :=
  let maxActivity := MathMaxSpread hourlyDistribution in
  map fst
    (filter (fun h => js_geb (Zq (snd h)) (jsmul maxActivity 0.8))
       (withIndex hourlyDistribution)).

Definition calculateVariance (array : list Z) : Q :=
  if (length array =? 0)%nat then 0
  else
    let mean := Zq (sumZ array) / Nq (length array) in
    fold_left (fun sum val => sum + (Zq val - mean) * (Zq val - mean)) array 0
    / Nq (length array).

(** [xs[i] || 0] *)
Definition at0 (xs : list Z) (i : nat) : Z := nth i xs 0%Z.

(** The locals [maxActivity] and [peakHours] of the source are computed
    and never read; they are left out. *)
Definition determineWorkingStyle (hourlyDist weeklyDist : list Z) : string :=
  let totalActivity := sumZ hourlyDist in
  if (totalActivity =? 0)%Z then "Getting Started 🌱"
  else
    let morningActivity := sumZ (slice 6 12 hourlyDist) in
    let afternoonActivity := sumZ (slice 12 18 hourlyDist) in
    let eveningActivity := sumZ (slice 18 23 hourlyDist) in
    let nightActivity := sumZ (sliceFrom 23 hourlyDist ++ slice 0 6 hourlyDist) in
    let weekendActivity := (at0 weeklyDist 0 + at0 weeklyDist 6)%Z in
    let weekdayActivity := sumZ (slice 1 6 weeklyDist) in
    let weekendRatio :=
      Zq weekendActivity / Qmax (Zq (weekendActivity + weekdayActivity)) 1 in
    let weekdayVariance := calculateVariance (slice 1 6 weeklyDist) in
    let isConsistent := Qltb weekdayVariance 2 in
    if Qgtb (Zq nightActivity) (Zq totalActivity * 0.4) then
      if isConsistent then "Consistent Night Owl 🦉" else "Irregular Night Coder 🌙"
    else if Qgtb (Zq morningActivity) (Zq totalActivity * 0.4) then
      if isConsistent then "Early Bird Developer 🐦" else "Morning Burst Coder ☀️"
    else if Qgtb weekendRatio 0.4 then
      if (afternoonActivity <? eveningActivity)%Z
      then "Weekend Evening Warrior 💪" else "Weekend Day Hacker 🎯"
    else if Qgtb (Zq eveningActivity) (Zq totalActivity * 0.4) then
      if isConsistent then "After-Hours Developer 🌆" else "Evening Sprint Coder 🏃"
    else if Qgtb (Zq afternoonActivity) (Zq totalActivity * 0.4) then
      if isConsistent then "Afternoon Focused 📈" else "Midday Momentum 🔥"
    else if isConsistent then "Steady All-Day Contributor 🔄"
    else "Flexible Schedule Coder 🎨".

Definition assessBurnoutRisk (events : list Event.t) (weeklyPattern : list Z)
  : M BurnoutRisk.t :=
  if (length events <? 20)%nat then
    r <- random ;;
    ret (BurnoutRisk.mk "Low" "Build consistent coding habits gradually"
           (r * 3 + 1) None)
  else
    let recentEvents := slice 0 (Nat.min 50 (length events)) events in
    let intensity := Nq (length recentEvents) / Nq (Nat.min 30 (length events)) in
    let totalWeekly := sumZ weeklyPattern in
    let weekendWork :=
      if (0 <? totalWeekly)%Z
      then Zq (at0 weeklyPattern 0 + at0 weeklyPattern 6) / Zq totalWeekly
      else 0 in
    let hourlyDist := analyzeTimeDistribution recentEvents in
    let totalHourly := sumZ hourlyDist in
    let lateNightWork :=
      if (0 <? totalHourly)%Z
      then Zq (sumZ (sliceFrom 22 hourlyDist) + sumZ (slice 0 6 hourlyDist))
           / Zq totalHourly
      else 0 in
    let dailyGroups := groupEventsByDay recentEvents in
    let heavyDays := count (fun day => (5 <? length (snd day))%nat) dailyGroups in
    let clusteringScore := Nq heavyDays / Qmax (Nq (length dailyGroups)) 1 in
    let riskScore := 0 in
    let riskScore :=
      if Qgtb intensity 3 then riskScore + 3
      else if Qgtb intensity 2 then riskScore + 2
      else if Qgtb intensity 1.5 then riskScore + 1
      else riskScore in
    let riskScore :=
      if Qgtb weekendWork 0.4 then riskScore + 3
      else if Qgtb weekendWork 0.3 then riskScore + 2
      else if Qgtb weekendWork 0.2 then riskScore + 1
      else riskScore in
    let riskScore :=
      if Qgtb lateNightWork 0.3 then riskScore + 2
      else if Qgtb lateNightWork 0.2 then riskScore + 1
      else riskScore in
    let riskScore :=
      if Qgtb clusteringScore 0.5 then riskScore + 2
      else if Qgtb clusteringScore 0.3 then riskScore + 1
      else riskScore in
    let '(level, advice, recommendations) :=
      if Qgeb riskScore 7 then
        ("High", "Take immediate steps to prevent burnout",
         ["Schedule regular breaks and vacation time";
          "Set boundaries for work hours";
          "Consider delegating or reducing workload";
          "Practice stress management techniques"])
      else if Qgeb riskScore 4 then
        ("Medium", "Monitor work intensity and maintain balance",
         ["Establish consistent work hours";
          "Take weekends off when possible";
          "Ensure adequate sleep schedule";
          "Include non-coding activities in your routine"])
      else if Qgeb riskScore 2 then
        ("Low-Medium", "Good work pattern with minor areas to watch",
         ["Continue current healthy patterns";
          "Be mindful of late-night coding sessions";
          "Maintain work-life separation"])
      else
        ("Low", "Healthy work pattern detected",
         ["Excellent work-life balance";
          "Keep maintaining current habits";
          "Consider sharing your approach with others"]) in
    ret (BurnoutRisk.mk level advice riskScore (Some (slice 0 2 recommendations))).

(** *** Recommendation generators *)

Definition analyzeBasicPatterns (userData : UserData.t) : BasicPatterns.t :=
  BasicPatterns.mk
    (match UserData.repositories userData with
     | Some repos => languagesOf repos
     | None => []
     end)
    (orZero (UserData.public_repos userData))
    (orZero (UserData.followers userData))
    (match UserData.events userData with
     | Some events => length events
     | None => 0%nat
     end).

Definition generateTechRecommendations (insights : BasicPatterns.t)
  : list Recommendation.t :=
  let languages := BasicPatterns.languages insights in
  let repoCount := BasicPatterns.repoCount insights in
  let recentActivity := BasicPatterns.recentActivity insights in
  let recommendations :=
    (if arrIncludes languages "JavaScript" then
       (if negb (arrIncludes languages "TypeScript") then
          [Recommendation.mk "Technology" "Upgrade to TypeScript"
             "Enhance your JavaScript projects with TypeScript for better type safety and developer experience."
             0.9 "📘"]
        else [])
       ++ (if negb (arrIncludes languages "React") && negb (arrIncludes languages "Vue") then
             [Recommendation.mk "Technology" "Learn React or Vue.js"
                "Modern frontend frameworks will boost your web development capabilities."
                0.8 "⚛️"]
           else [])
     else [])
    ++ (if arrIncludes languages "Python" then
          (if (5 <? repoCount)%Z then
             [Recommendation.mk "Technology" "Explore FastAPI"
                "Build high-performance APIs with Python using FastAPI framework."
                0.8 "🚀"]
           else [])
          ++ (if negb (arrIncludes languages "Java") && negb (arrIncludes languages "Go") then
                [Recommendation.mk "Technology" "Try Go Programming"
                   "Go offers excellent performance and simplicity, perfect for backend services."
                   0.7 "🐹"]
              else [])
        else [])
    ++ (if arrIncludes languages "Java" then
          [Recommendation.mk "Technology" "Explore Kotlin"
             "Kotlin provides modern language features while maintaining Java compatibility."
             0.8 "🎯"]
        else [])
    ++ (if (20 <? recentActivity)%nat then
          [Recommendation.mk "Technology" "Container Technologies"
             "Docker and Kubernetes can streamline your deployment process."
             0.9 "🐳"]
        else [])
    ++ (if (10 <? repoCount)%Z then
          [Recommendation.mk "Technology" "CI/CD Automation"
             "GitHub Actions or Jenkins can automate your development workflow."
             0.85 "🔄"]
        else [])
    ++ (if (length languages =? 0)%nat then
          [Recommendation.mk "Technology" "Start with JavaScript"
             "JavaScript is versatile and perfect for both frontend and backend development."
             0.9 "💛"]
        else []) in
  slice 0 3 recommendations.

Definition generateLearningRecommendations (insights : BasicPatterns.t)
  : list Recommendation.t :=
  let languages := BasicPatterns.languages insights in
  let repoCount := BasicPatterns.repoCount insights in
  let followerCount := BasicPatterns.followerCount insights in
  let recommendations :=
    (if (repoCount <? 5)%Z then
       [Recommendation.mk "Learning" "Git & GitHub Mastery"
          "Master version control and collaboration workflows to boost your development skills."
          0.95 "📚";
        Recommendation.mk "Learning" "Algorithm & Data Structures"
          "Build strong programming fundamentals with algorithms and data structures."
          0.9 "🧮"]
     else if (repoCount <? 15)%Z then
       [Recommendation.mk "Learning" "System Design Patterns"
          "Learn scalable architecture patterns for building robust applications."
          0.85 "🏗️";
        Recommendation.mk "Learning" "Testing Best Practices"
          "Unit testing, integration testing, and TDD will improve your code quality."
          0.8 "🧪"]
     else
       [Recommendation.mk "Learning" "Cloud Architecture"
          "AWS, Azure, or GCP certifications can advance your cloud expertise."
          0.8 "☁️";
        Recommendation.mk "Learning" "Technical Leadership"
          "Develop mentoring and team leadership skills for career advancement."
          0.75 "👨‍🏫"])
    ++ (if arrIncludes languages "JavaScript" && arrIncludes languages "Python" then
          [Recommendation.mk "Learning" "Full-Stack Development"
             "Combine your JavaScript and Python skills for end-to-end development."
             0.9 "🔄"]
        else [])
    ++ (if (50 <? followerCount)%Z then
          [Recommendation.mk "Learning" "Developer Advocacy"
             "Your growing network suggests potential in developer relations and advocacy."
             0.7 "📢"]
        else []) in
  slice 0 2 recommendations.

Definition generateProductivityRecommendations (insights : BasicPatterns.t)
  : list Recommendation.t :=
  let recentActivity := BasicPatterns.recentActivity insights in
  let repoCount := BasicPatterns.repoCount insights in
  let recommendations :=
    (if (30 <? recentActivity)%nat then
       [Recommendation.mk "Productivity" "Automate Repetitive Tasks"
          "High activity suggests you could benefit from automation scripts and tools."
          0.9 "🤖";
        Recommendation.mk "Productivity" "Time Management"
          "Consider time-blocking and the Pomodoro Technique for sustained productivity."
          0.8 "⏰"]
     else if (recentActivity <? 10)%nat then
       [Recommendation.mk "Productivity" "Consistent Coding Schedule"
          "Establish a regular coding routine to maintain momentum and skills."
          0.85 "📅"]
     else [])
    ++ (if (20 <? repoCount)%Z then
          [Recommendation.mk "Productivity" "Repository Organization"
             "Organize repositories with clear documentation and naming conventions."
             0.8 "📁"]
        else [])
    ++ [Recommendation.mk "Productivity" "Code Review Practices"
          "Regular code reviews improve quality and knowledge sharing."
          0.75 "👥"] in
  slice 0 2 recommendations.

Definition generateCareerRecommendations (insights : BasicPatterns.t)
  : list Recommendation.t :=
  let repoCount := BasicPatterns.repoCount insights in
  let followerCount := BasicPatterns.followerCount insights in
  let languages := BasicPatterns.languages insights in
  let recommendations :=
    (if (15 <? repoCount)%Z && (30 <? followerCount)%Z then
       [Recommendation.mk "Career" "Technical Leadership Role"
          "Your portfolio and network suggest readiness for senior or lead positions."
          0.85 "🎯"]
     else if (8 <? repoCount)%Z then
       [Recommendation.mk "Career" "Senior Developer Position"
          "Your experience level indicates potential for advancement to senior roles."
          0.8 "⬆️"]
     else [])
    ++ (if (3 <? length languages)%nat then
          [Recommendation.mk "Career" "Full-Stack Development"
             "Your diverse language skills make you well-suited for full-stack roles."
             0.8 "🌐"]
        else [])
    ++ (if (100 <? followerCount)%Z then
          [Recommendation.mk "Career" "Developer Relations"
             "Your strong community presence suggests potential in DevRel roles."
             0.75 "🤝"]
        else [])
    ++ [Recommendation.mk "Career" "Open Source Contribution"
          "Contributing to major projects can significantly boost your professional profile."
          0.9 "🌟"]
    ++ (if arrIncludes languages "Python" || arrIncludes languages "JavaScript" then
          [Recommendation.mk "Career" "Freelance Opportunities"
             "Your skills are in high demand for freelance and contract work."
             0.7 "💼"]
        else []) in
  slice 0 2 recommendations.

Definition generateRecommendations (userData : UserData.t)
  : list Recommendation.t :=
  let insights := analyzeBasicPatterns userData in
  let recommendations := [] in
  let recommendations := recommendations ++ generateTechRecommendations insights in
  let recommendations := recommendations ++ generateLearningRecommendations insights in
  let recommendations := recommendations ++ generateProductivityRecommendations insights in
  let recommendations := recommendations ++ generateCareerRecommendations insights in
  slice 0 8 recommendations.

(** *** Prediction methods *)

(** The own properties of [progressionMap]: language, [primary] and
    [advanced] follow-on technologies. *)
Definition progressionMap : list (string * (list string * list string)) :=
  [ ("JavaScript", (["TypeScript"; "React"; "Vue.js"; "Node.js"],
                    ["Deno"; "WebAssembly"; "GraphQL"; "Next.js"]));
    ("TypeScript", (["React"; "Angular"; "Vue.js"; "Svelte"],
                    ["NestJS"; "Prisma"; "tRPC"; "SolidJS"]));
    ("Python", (["Django"; "FastAPI"; "Flask"; "TensorFlow"],
                ["PyTorch"; "Pandas"; "Celery"; "Airflow"]));
    ("Java", (["Spring Boot"; "Kotlin"; "Maven"; "Gradle"],
              ["Quarkus"; "Micronaut"; "Scala"; "Clojure"]));
    ("C#", ([".NET Core"; "ASP.NET"; "Blazor"; "Unity"],
            ["F#"; "Azure Functions"; "SignalR"; "gRPC"]));
    ("Go", (["Gin"; "Echo"; "Docker"; "Kubernetes"],
            ["gRPC"; "Cobra"; "Viper"; "NATS"]));
    ("Rust", (["Actix"; "Rocket"; "Tokio"; "Serde"],
              ["WebAssembly"; "Tauri"; "Bevy"; "egui"]));
    ("PHP", (["Laravel"; "Symfony"; "Composer"; "PHPUnit"],
             ["ReactPHP"; "Swoole"; "Psalm"; "Rector"])) ].

Definition trendingTech : list string :=
  ["Rust"; "Go"; "TypeScript"; "Svelte"; "Astro"; "Deno";
   "WebAssembly"; "Tauri"; "SolidJS"; "Qwik"; "Fresh"; "Bun"].

(** One iteration of [recentLanguages.forEach] in [predictNextTechnology]:
    the additions to [suggestions].  [progressionMap[lang]] is the own entry
    when there is one; for a name inherited from [Object.prototype] it is a
    truthy value with no [primary] property, and [undefined.filter] throws;
    for any other name it is [undefined] and the body is skipped. *)
Definition progressionStep (languages : list string) (lang : string)
  : outcome (list string) :=
  match objectLiteral progressionMap lang with
  | Some (primaryTechs, advancedTechs) =>
      let primary := filter (fun tech => negb (arrIncludes languages tech)) primaryTechs in
      let advanced := filter (fun tech => negb (arrIncludes languages tech)) advancedTechs in
      Ok (slice 0 2 primary
          ++ (if (3 <=? count (fun l => String.eqb l lang) languages)%nat
              then slice 0 1 advanced else []))
  | None =>
      if isInherited lang
      then Throw "TypeError: Cannot read properties of undefined (reading 'filter')"
      else Ok []
  end.

Fixpoint progressionSuggestions (languages recentLanguages suggestions : list string)
  : outcome (list string) :=
  match recentLanguages with
  | [] => Ok suggestions
  | lang :: rest =>
      added <~ progressionStep languages lang ;;
      progressionSuggestions languages rest (suggestions ++ added)
  end.

Definition getTechRecommendationReasoning (languages : list string)
  (uniqueLanguages : nat) : string :=
  if (5 <=? uniqueLanguages)%nat then "Based on your diverse technology experience"
  else if arrIncludes languages "JavaScript" && arrIncludes languages "Python"
  then "Perfect for full-stack development progression"
  else if arrIncludes languages "JavaScript"
  then "Natural evolution of your JavaScript skills"
  else if arrIncludes languages "Python"
  then "Complements your Python expertise well"
  else "Popular choice for modern development".

(** The local [languageCount] of the source is filled and never read; it is
    left out. *)
Definition predictNextTechnology (repos : list Repo.t) : outcome NextTechnology.t :=
  let languages := languagesOf repos in
  let recentLanguages := languagesOf (slice 0 5 repos) in
  suggestions <~ progressionSuggestions languages recentLanguages [] ;;
  let uniqueLanguages := length (newSet String.eqb languages) in
  let suggestions :=
    if (3 <=? uniqueLanguages)%nat then
      suggestions
      ++ slice 0 2 (filter (fun tech => negb (arrIncludes languages tech)) trendingTech)
    else suggestions in
  let uniqueSuggestions := newSet String.eqb suggestions in
  let confidence :=
    Qmin 0.9 (0.5 + Nq uniqueLanguages * 0.1 + Nq (length repos) * 0.01) in
  Ok (NextTechnology.mk
        (match uniqueSuggestions with
         | first :: _ => if first =? "" then "React" else first
         | [] => "React"
         end)
        (slice 1 4 uniqueSuggestions)
        confidence
        (getTechRecommendationReasoning languages uniqueLanguages)).

Definition predictActivityTrend (events : list Event.t) : ActivityTrend.t :=
  if (length events <? 10)%nat then
    ActivityTrend.mk "Building Momentum 📈" 0.6
      "Start building consistent coding habits"
  else
    let n := length events in
    let recent := slice 0 (n / 3) events in
    let middle := slice (n / 3) (n * 2 / 3) events in
    let older := sliceFrom (n * 2 / 3) events in
    let recentActivity := length recent in
    let middleActivity := length middle in
    let olderActivity := length older in
    let recentToMiddle := Nq recentActivity / Qmax (Nq middleActivity) 1 in
    let middleToOlder := Nq middleActivity / Qmax (Nq olderActivity) 1 in
    let overallTrend := (recentToMiddle + middleToOlder) / 2 in
    let commitEvents := count (fun e => typeIs e "PushEvent") recent in
    let collaborativeEvents :=
      count (fun e => typeIs e "PullRequestEvent" || typeIs e "IssuesEvent") recent in
    let '(trend, description, confidence) :=
      if Qgtb overallTrend 1.3 then
        ("Rapidly Increasing 🚀",
         "Your coding activity is accelerating significantly", 0.9)
      else if Qgtb overallTrend 1.1 then
        ("Steadily Growing 📈",
         "Consistent upward trend in development activity", 0.8)
      else if Qgtb overallTrend 0.9 then
        ("Stable & Consistent 📊",
         "Maintaining steady development rhythm", 0.9)
      else if Qgtb overallTrend 0.7 then
        ("Slightly Decreasing 📉",
         "Minor decline, consider new projects for motivation", 0.8)
      else
        ("Needs Attention 🔄",
         "Activity has decreased, time to reignite your coding passion", 0.7) in
    let description :=
      if (commitEvents <? collaborativeEvents)%nat
      then (description ++ " • Strong collaboration focus")%string
      else if (collaborativeEvents * 2 <? commitEvents)%nat
      then (description ++ " • High development velocity")%string
      else description in
    ActivityTrend.mk trend confidence description.

(** [predictCollaborationGrowth], the definition that comes first in the
    object literal. *)
Definition predictCollaborationGrowth_earlier (events : list Event.t)
  : CollaborationGrowth.t :=
  let collaborativeEvents := filter isCollaborative events in
  if (length collaborativeEvents <? 5)%nat then
    CollaborationGrowth.mk "Start Collaborating 🤝" 0.7
      (Some "Consider contributing to open source projects")
  else
    let half := (length collaborativeEvents / 2)%nat in
    let recent := slice 0 half collaborativeEvents in
    let older := sliceFrom half collaborativeEvents in
    let recentCollab := length recent in
    let olderCollab := length older in
    let growthRatio := Nq recentCollab / Qmax (Nq olderCollab) 1 in
    let uniqueRepos :=
      length (newSet optStrEqb (map Event.repo_name collaborativeEvents)) in
    let uniqueOrgs :=
      length (newSet String.eqb
                (filterBoolean
                   (map (fun e => match Event.org e with
                                  | Some o => Org.login o
                                  | None => None
                                  end)
                      collaborativeEvents))) in
    let '(trend, suggestion, confidence) :=
      if Qgtb growthRatio 1.5 then
        ("Rapidly Expanding Network 🌟",
         "Excellent collaboration growth, consider mentoring others", 0.9)
      else if Qgtb growthRatio 1.2 then
        ("Growing Collaboration 📈",
         "Great progress in community engagement", 0.8)
      else if Qgtb growthRatio 0.8 then
        ("Stable Community Presence 🔄",
         "Consistent engagement, try exploring new communities", 0.8)
      else
        ("Rebuild Connections 🔗",
         "Re-engage with the community through issues and PRs", 0.7) in
    let suggestion :=
      if (3 <? uniqueOrgs)%nat
      then (suggestion ++ " • Strong multi-org presence")%string
      else if (10 <? uniqueRepos)%nat
      then (suggestion ++ " • Good project diversity")%string
      else suggestion in
    CollaborationGrowth.mk trend confidence (Some suggestion).

(** [predictCollaborationGrowth], the definition that comes second. *)
Definition predictCollaborationGrowth_later (events : list Event.t)
  : CollaborationGrowth.t :=
  let recent := slice 0 15 events in
  let older := slice 15 30 events in
  let isCollab := fun e => typeIs e "PullRequestEvent" || typeIs e "IssuesEvent" in
  let recentCollab := count isCollab recent in
  let olderCollab := count isCollab older in
  if Qgtb (Nq recentCollab) (Nq olderCollab * 1.3) then
    CollaborationGrowth.mk "Increasing Collaboration 🤝" 0.8 None
  else if Qltb (Nq recentCollab) (Nq olderCollab * 0.7) then
    CollaborationGrowth.mk "Focusing Inward 🔄" 0.7 None
  else
    CollaborationGrowth.mk "Stable Collaboration 📊" 0.9 None.

Definition learningKeywords : list string :=
  ["tutorial"; "learning"; "practice"; "exercise"; "course"; "bootcamp"; "study"].

Definition experimentalKeywords : list string :=
  ["experiment"; "prototype"; "demo"; "test"; "trial"; "poc"].

Definition getSkillDevelopmentRecommendations (totalLanguages learningProjects : nat)
  : list string :=
  let recommendations :=
    if (totalLanguages <? 3)%nat then
      ["Try a different programming paradigm (functional, object-oriented)"]
    else if (totalLanguages <? 5)%nat then
      ["Explore cloud technologies or DevOps tools"]
    else
      ["Consider specializing in a specific domain (AI, security, etc.)"] in
  if (learningProjects <? 2)%nat
  then recommendations ++ ["Create more learning-focused repositories"]
  else recommendations.

Definition mentionsAny (keywords : list string) (r : Repo.t) : bool :=
  existsb (fun keyword => includes (lowerName r) keyword
                          || includes (lowerDescription r) keyword) keywords.

(** [predictSkillDevelopment], the definition that comes first in the
    object literal. *)
Definition predictSkillDevelopment_earlier (repos : list Repo.t)
  (events : list Event.t) : SkillDevelopment.t :=
  let recentRepos := slice 0 (Nat.min 5 (length repos)) repos in
  let allLanguages := newSet String.eqb (languagesOf repos) in
  let recentLanguages := newSet String.eqb (languagesOf recentRepos) in
  let learningProjects := count (mentionsAny learningKeywords) repos in
  let experimentalProjects := count (mentionsAny experimentalKeywords) repos in
  let totalLanguages := length allLanguages in
  let newLanguages :=
    count (fun lang =>
             negb (existsb (fun r => optStrEqb (Repo.language r) (Some lang))
                     (sliceFrom 5 repos)))
      recentLanguages in
  let '(learningVelocity, insights) :=
    if (3 <=? learningProjects)%nat || (2 <=? experimentalProjects)%nat then
      ("High - Active Learner 🔥", "Strong commitment to continuous learning")
    else if (1 <=? learningProjects)%nat || (2 <=? newLanguages)%nat then
      ("Moderate - Steady Growth 📈", "Consistent skill development pattern")
    else if (1 <=? newLanguages)%nat then
      ("Slow but Steady 🐢", "Gradual expansion of skill set")
    else
      ("Deepening Expertise 🎯", "Focusing on mastering current technologies") in
  let skillDiversification :=
    if (6 <=? totalLanguages)%nat then "Polyglot Developer 🌈"
    else if (4 <=? totalLanguages)%nat then "Well-Rounded 🔄"
    else if (2 <=? totalLanguages)%nat then "Expanding Horizons 📚"
    else "Specialist Focus 🎯" in
  let confidence :=
    Qmin 0.9 (0.6 + Nq (length repos) * 0.02 + Nq totalLanguages * 0.05) in
  SkillDevelopment.mk learningVelocity skillDiversification confidence
    (Some insights)
    (Some (getSkillDevelopmentRecommendations totalLanguages learningProjects)).

(** [r.description?.includes(word)]: [undefined], hence falsy, when the
    description is missing. *)
Definition descriptionIncludes (r : Repo.t) (word : string) : bool :=
  match Repo.description r with
  | Some d => includes d word
  | None => false
  end.

(** [predictSkillDevelopment], the definition that comes second. *)
Definition predictSkillDevelopment_later (repos : list Repo.t)
  (events : list Event.t) : SkillDevelopment.t :=
  let recentRepos := slice 0 5 repos in
  let recentLanguages := newSet String.eqb (languagesOf recentRepos) in
  let experimentalProjects :=
    count (fun r => descriptionIncludes r "learning"
                    || descriptionIncludes r "tutorial"
                    || descriptionIncludes r "experiment")
      recentRepos in
  SkillDevelopment.mk
    (if (2 <? experimentalProjects)%nat then "High"
     else if (0 <? experimentalProjects)%nat then "Moderate" else "Stable")
    (if (2 <? length recentLanguages)%nat then "Expanding" else "Deepening")
    0.7 None None.

(** The definitions of the two keys the engine object defines twice, in
    source order.  [this.predictCollaborationGrowth] and
    [this.predictSkillDevelopment] read the object built from them. *)
Definition collaborationGrowthProperties
  : list (string * (list Event.t -> CollaborationGrowth.t)) :=
  [ ("predictCollaborationGrowth", predictCollaborationGrowth_earlier);
    ("predictCollaborationGrowth", predictCollaborationGrowth_later) ].

Definition skillDevelopmentProperties
  : list (string * (list Repo.t -> list Event.t -> SkillDevelopment.t)) :=
  [ ("predictSkillDevelopment", predictSkillDevelopment_earlier);
    ("predictSkillDevelopment", predictSkillDevelopment_later) ].

(** [this.key] for a method: calling a missing property is a [TypeError]. *)
Definition method {A : Type} (props : list (string * A)) (key : string)
  : outcome A :=
  match objectLiteral props key with
  | Some m => Ok m
  | None => Throw "TypeError: not a function"
  end.

Definition predictCollaborationGrowth (events : list Event.t)
  : outcome CollaborationGrowth.t :=
  m <~ method collaborationGrowthProperties "predictCollaborationGrowth" ;;
  Ok (m events).

Definition predictSkillDevelopment (repos : list Repo.t) (events : list Event.t)
  : outcome SkillDevelopment.t :=
  m <~ method skillDevelopmentProperties "predictSkillDevelopment" ;;
  Ok (m repos events).

(** [x || []] for an array-or-undefined field *)
Definition orEmptyArray {A : Type} (o : option (list A)) : list A :=
  match o with Some xs => xs | None => [] end.

Definition generatePredictions (userData : UserData.t) : outcome Predictions.t :=
  let events := orEmptyArray (UserData.events userData) in
  let repos := orEmptyArray (UserData.repositories userData) in
  nextTechnology <~ predictNextTechnology repos ;;
  let activityTrend := predictActivityTrend events in
  collaborationGrowth <~ predictCollaborationGrowth events ;;
  skillDevelopment <~ predictSkillDevelopment repos events ;;
  Ok (Predictions.mk nextTechnology activityTrend collaborationGrowth skillDevelopment).

(** *** Classification of the personality scores *)

Definition determinePersonalityType (metrics : Scores.t) : string :=
  let innovation := Scores.innovation metrics in
  let collaboration := Scores.collaboration metrics in
  let consistency := Scores.consistency metrics in
  let exploration := Scores.exploration metrics in
  if Qgtb innovation 7 && Qgtb exploration 7 then "Innovator 🚀"
  else if Qgtb collaboration 7 && Qgtb consistency 7 then "Team Player 🤝"
  else if Qgtb consistency 8 then "Reliable Contributor 🎯"
  else if Qgtb exploration 8 then "Technology Explorer 🔍"
  else "Balanced Developer ⚖️".

Definition personalityDescriptions : list (string * string) :=
  [ ("Innovator 🚀",
     "You love experimenting with new technologies and creating original solutions.");
    ("Team Player 🤝",
     "You excel at collaboration and maintain consistent, reliable contributions.");
    ("Reliable Contributor 🎯",
     "You are known for consistent, high-quality work and dependability.");
    ("Technology Explorer 🔍",
     "You enjoy learning diverse technologies and exploring new domains.");
    ("Balanced Developer ⚖️",
     "You maintain a well-rounded approach to development and collaboration.") ].

Definition generatePersonalityDescription (metrics : Scores.t) : string :=
  let type := determinePersonalityType metrics in
  match objectLiteral personalityDescriptions type with
  | Some description => description
  | None => "A skilled developer with unique strengths."
  end.

Definition identifyStrengths (metrics : Scores.t) : list string :=
  let strengths :=
    (if Qgtb (Scores.innovation metrics) 7 then ["Innovation & Creativity"] else [])
    ++ (if Qgtb (Scores.collaboration metrics) 7 then ["Team Collaboration"] else [])
    ++ (if Qgtb (Scores.consistency metrics) 7 then ["Reliable Delivery"] else [])
    ++ (if Qgtb (Scores.exploration metrics) 7 then ["Technology Adaptability"] else [])
    ++ (if Qgtb (Scores.leadership metrics) 7 then ["Technical Leadership"] else []) in
  if (0 <? length strengths)%nat then strengths
  else ["Dedicated Development"; "Problem Solving"].

Definition identifyGrowthAreas (metrics : Scores.t) : list string :=
  let areas :=
    (if Qltb (Scores.innovation metrics) 5 then ["Experiment with new technologies"] else [])
    ++ (if Qltb (Scores.collaboration metrics) 5 then ["Increase community involvement"] else [])
    ++ (if Qltb (Scores.consistency metrics) 5 then ["Develop regular coding habits"] else [])
    ++ (if Qltb (Scores.exploration metrics) 5 then ["Try diverse programming languages"] else [])
    ++ (if Qltb (Scores.leadership metrics) 5 then ["Take ownership of projects"] else []) in
  if (0 <? length areas)%nat then areas
  else ["Continue current excellent practices"].

(** *** The remaining analysis methods *)

(** [events.length || 1] *)
Definition lengthOr1 {A : Type} (xs : list A) : nat :=
  if (length xs =? 0)%nat then 1%nat else length xs.

(** [repoActivity] is filled only under [if (repo)]: with the truthy
    repository names. *)
Definition analyzeProjectJuggling (events : list Event.t) : ProjectJuggling.t :=
  let repoActivity := tallyKeys (filterBoolean (map Event.repo_name events)) in
  let uniqueRepos := length repoActivity in
  let totalEvents := lengthOr1 events in
  ProjectJuggling.mk uniqueRepos
    (jsdiv (Nq totalEvents) (Nq uniqueRepos))
    (Qmin 10 (Nq uniqueRepos / 5 * 10)).

(** The comparator of [dayEvents.sort]: the difference of the two time
    values is negative.  It is NaN, hence not negative, on an invalid date. *)
Definition datedBefore (a b : Event.t) : bool :=
  match newDate (Event.created_at a), newDate (Event.created_at b) with
  | ValidDate ta, ValidDate tb => (ta - tb <? 0)%Z
  | _, _ => false
  end.

Fixpoint insertByDate (e : Event.t) (sorted : list Event.t) : list Event.t :=
  match sorted with
  | [] => [e]
  | y :: rest => if datedBefore e y then e :: y :: rest else y :: insertByDate e rest
  end.

(** [dayEvents.sort((a, b) => new Date(a.created_at) - new Date(b.created_at))]:
    the sort is stable. *)
Definition sortByDate (dayEvents : list Event.t) : list Event.t :=
  fold_left (fun sorted e => insertByDate e sorted) dayEvents [].

(** The gaps in minutes between consecutive events of one day that are
    below four hours; a NaN gap is not. *)
Fixpoint sessionGaps (dayEvents : list Event.t) : list Q :=
  match dayEvents with
  | previous :: (current :: _) as rest =>
      (match newDate (Event.created_at current), newDate (Event.created_at previous) with
       | ValidDate tc, ValidDate tp =>
           let gap := Zq (tc - tp) / (1000 * 60) in
           if Qltb gap 240 then [gap] else []
       | _, _ => []
       end) ++ sessionGaps rest
  | _ => []
  end.

Definition estimateSessionLength (events : list Event.t) : SessionLength.t :=
  if (length events <? 2)%nat then SessionLength.mk "Unknown" "Insufficient data"
  else
    let dailyEvents := groupEventsByDay events in
    let sessionLengths :=
      flat_map (fun day =>
                  if (length (snd day) <? 2)%nat then []
                  else sessionGaps (sortByDate (snd day)))
        dailyEvents in
    if (length sessionLengths =? 0)%nat
    then SessionLength.mk "1-2 hours" "Focused sessions"
    else
      let averageGap := sumQ sessionLengths / Nq (length sessionLengths) in
      if Qltb averageGap 30 then SessionLength.mk "Short bursts" "Frequent check-ins"
      else if Qltb averageGap 120 then SessionLength.mk "1-2 hours" "Focused sessions"
      else SessionLength.mk "2+ hours" "Deep work sessions".

Definition calculateWorkConsistency (weeklyPattern : list Z) : Q :=
  let totalActivity := sumZ weeklyPattern in
  if (totalActivity =? 0)%Z then 5
  else
    let mean := Zq totalActivity / 7 in
    let variance :=
      fold_left (fun sum day => sum + (Zq day - mean) * (Zq day - mean)) weeklyPattern 0
      / 7 in
    let stdDev := js_sqrt variance in
    Qmax 0 (Qmin 10 (10 - (stdDev / mean) * 3)).

(** The entries of the object returned by [calculateDistribution], in
    insertion order.  For a key inherited from [Object.prototype] the tally
    [(acc[item] || 0) + 1] is a string and its frequency is NaN. *)
Definition calculateDistribution (items : list string) : list (string * jsnum) :=
  let total := length items in
  map (fun key =>
         (key,
          if isInherited key then NaN
          else jsdiv (Nq (count (String.eqb key) items)) (Nq total)))
    (tallyKeys items).

Definition analyzeLanguagePreferences (repos : list Repo.t)
  : list (string * jsnum) :=
  calculateDistribution (languagesOf repos).

Definition projectCategories (repo : Repo.t) : list string :=
  let name := lowerName repo in
  let desc := lowerDescription repo in
  (if includes name "api" || includes desc "api" then ["API Development"] else [])
  ++ (if includes name "web" || includes desc "website" then ["Web Development"] else [])
  ++ (if includes name "mobile" || includes desc "android" || includes desc "ios"
      then ["Mobile Development"] else [])
  ++ (if includes name "game" || includes desc "game" then ["Game Development"] else [])
  ++ (if includes name "ml" || includes desc "machine learning" || includes desc "ai"
      then ["Machine Learning"] else [])
  ++ (if includes name "tool" || includes desc "tool" || includes desc "utility"
      then ["Developer Tools"] else [])
  ++ (if includes name "lib" || includes desc "library" then ["Library Development"] else []).

(** An array is truthy, so the [|| ['General Development']] of the source
    never applies. *)
Definition categorizeProjectTypes (repos : list Repo.t) : list string :=
  slice 0 5 (newSet String.eqb (flat_map projectCategories repos)).

(** [e.payload?.commits?.length || 1] *)
Definition commitCount (e : Event.t) : Z :=
  match Event.commits e with
  | Some n => if (n =? 0)%nat then 1%Z else Z.of_nat n
  | None => 1%Z
  end.

Definition analyzeCommitStyle (events : list Event.t) : CommitStyle.t :=
  let pushEvents := filter (fun e => typeIs e "PushEvent") events in
  if (length pushEvents =? 0)%nat
  then CommitStyle.mk "Unknown" "No push events found"
  else
    let commitCounts := map commitCount pushEvents in
    let averageCommitsPerPush := Zq (sumZ commitCounts) / Nq (length commitCounts) in
    if Qltb averageCommitsPerPush 2
    then CommitStyle.mk "Atomic Commits" "Small, focused changes"
    else if Qltb averageCommitsPerPush 5
    then CommitStyle.mk "Moderate Batches" "Balanced approach"
    else CommitStyle.mk "Large Batches" "Comprehensive changes".

Definition analyzeTestingApproach (repos : list Repo.t) : string :=
  let testIndicators :=
    filter (fun repo => includes (lowerName repo) "test"
                        || includes (lowerDescription repo) "test"
                        || includes (lowerDescription repo) "testing") repos in
  let testRatio := Nq (length testIndicators) / Nq (lengthOr1 repos) in
  if Qgtb testRatio 0.3 then "Test-Driven Development"
  else if Qgtb testRatio 0.1 then "Testing-Aware"
  else "Exploratory Development".

Definition architecturePatterns (repo : Repo.t) : list string :=
  let desc := lowerDescription repo in
  (if includes desc "microservice" || includes desc "micro-service"
   then ["Microservices"] else [])
  ++ (if includes desc "monolith" then ["Monolithic"] else [])
  ++ (if includes desc "serverless" || includes desc "lambda" then ["Serverless"] else [])
  ++ (if includes desc "docker" || includes desc "container" then ["Containerized"] else [])
  ++ (if includes desc "mvc" || includes desc "mvp" || includes desc "mvvm"
      then ["MV* Pattern"] else []).

(** As in [categorizeProjectTypes], the [||] fallback never applies. *)
Definition analyzeArchitectureStyle (repos : list Repo.t) : list string :=
  slice 0 3 (newSet String.eqb (flat_map architecturePatterns repos)).

Definition assessTeamPlayerScore (events : list Event.t) : Q :=
  let collaborativeEvents := count isCollaborative events in
  Qmin 10 ((Nq collaborativeEvents / Nq (lengthOr1 events)) * 20).

Definition analyzeMentorshipStyle (events : list Event.t) : string :=
  let helpfulEvents := count isMentorship events in
  if (20 <? helpfulEvents)%nat then "Active Mentor"
  else if (10 <? helpfulEvents)%nat then "Helpful Contributor"
  else if (5 <? helpfulEvents)%nat then "Occasional Helper"
  else "Focus on Own Work".

Definition analyzeCommunicationStyle (events : list Event.t) : string :=
  let communicationEvents :=
    count (fun e => typeIs e "IssueCommentEvent" || typeIs e "PullRequestReviewEvent"
                    || typeIs e "IssuesEvent") events in
  let ratio := Nq communicationEvents / Nq (lengthOr1 events) in
  if Qgtb ratio 0.4 then "Highly Communicative"
  else if Qgtb ratio 0.2 then "Good Communicator"
  else if Qgtb ratio 0.1 then "Moderate Communicator"
  else "Task-Focused".

Definition assessLeadershipTendencies (repos : list Repo.t) (events : list Event.t)
  : string :=
  let ownedRepos := count (fun r => negb (Repo.fork r)) repos in
  let starredRepos :=
    fold_left (fun total repo => (total + orZero (Repo.stargazers_count repo))%Z)
      repos 0%Z in
  let organizationActivity := count hasOrg events in
  let leadership :=
    (Nq ownedRepos * 2 + Zq starredRepos * 0.1 + Nq organizationActivity * 0.5) / 10 in
  if Qgtb leadership 8 then "Strong Leader"
  else if Qgtb leadership 5 then "Emerging Leader"
  else if Qgtb leadership 2 then "Team Contributor"
  else "Individual Contributor".

Definition orgLogin (e : Event.t) : option string :=
  match Event.org e with
  | Some o => Org.login o
  | None => None
  end.

Definition estimateNetworkSize (events : list Event.t) : NetworkSize.t :=
  let uniqueRepos :=
    length (newSet String.eqb (filterBoolean (map Event.repo_name events))) in
  let uniqueOrgs := length (newSet String.eqb (filterBoolean (map orgLogin events))) in
  NetworkSize.mk uniqueRepos uniqueOrgs
    (Qmin 10 (Nq uniqueRepos * 0.2 + Nq uniqueOrgs * 2)).

Definition assessSkillStagnation (repos : list Repo.t) : Risk.t :=
  let languages := languagesOf repos in
  let uniqueLanguages := length (newSet String.eqb languages) in
  let recentLanguages := length (newSet String.eqb (languagesOf (slice 0 5 repos))) in
  if Qltb (Nq recentLanguages) (Nq uniqueLanguages * 0.3) then
    Risk.mk "Medium" "Consider exploring new technologies to maintain growth"
  else
    Risk.mk "Low" "Good variety in technology exploration".

Definition assessCollaborationIsolation (events : list Event.t) : Risk.t :=
  let collaborativeEvents :=
    count (fun e => typeIs e "PullRequestEvent" || typeIs e "IssuesEvent"
                    || typeIs e "PullRequestReviewEvent") events in
  let collaborationRatio := Nq collaborativeEvents / Nq (lengthOr1 events) in
  if Qltb collaborationRatio 0.1 then
    Risk.mk "High" "Consider engaging more with the GitHub community"
  else if Qltb collaborationRatio 0.2 then
    Risk.mk "Medium" "Good collaboration, consider expanding your network"
  else
    Risk.mk "Low" "Excellent community engagement".

(** *** Analysis engine *)

Definition analyzePersonalityProfile (userData : UserData.t)
  : M PersonalityProfile.t :=
  let events := orEmptyArray (UserData.events userData) in
  let repos := orEmptyArray (UserData.repositories userData) in
  innovation <- calculateInnovationScore repos ;;
  collaboration <- calculateCollaborationScore events ;;
  consistency <- calculateConsistencyScore events ;;
  exploration <- calculateExplorationScore repos ;;
  leadership <- calculateLeadershipScore repos events ;;
  let metrics := Scores.mk innovation collaboration consistency exploration leadership in
  ret (PersonalityProfile.mk
         (determinePersonalityType metrics)
         metrics
         (generatePersonalityDescription metrics)
         (identifyStrengths metrics)
         (identifyGrowthAreas metrics)).

Definition analyzeWorkPatterns (userData : UserData.t) : M WorkPatterns.t :=
  let events := orEmptyArray (UserData.events userData) in
  let hourlyDistribution := analyzeTimeDistribution events in
  let weeklyPattern := analyzeWeeklyPattern events in
  let projectJuggling := analyzeProjectJuggling events in
  let peakHours := identifyPeakHours hourlyDistribution in
  let workingStyle := determineWorkingStyle hourlyDistribution weeklyPattern in
  let sessionLength := estimateSessionLength events in
  let consistency := calculateWorkConsistency weeklyPattern in
  burnoutRisk <- assessBurnoutRisk events weeklyPattern ;;
  ret (WorkPatterns.mk peakHours workingStyle sessionLength projectJuggling
         consistency burnoutRisk).

Definition analyzeCodingStyle (userData : UserData.t) : CodingStyle.t :=
  let repos := orEmptyArray (UserData.repositories userData) in
  let events := orEmptyArray (UserData.events userData) in
  CodingStyle.mk
    (analyzeLanguagePreferences repos)
    (categorizeProjectTypes repos)
    (analyzeCommitStyle events)
    (analyzeTestingApproach repos)
    (analyzeArchitectureStyle repos).

Definition analyzeCollaborationStyle (userData : UserData.t) : CollaborationStyle.t :=
  let events := orEmptyArray (UserData.events userData) in
  let repos := orEmptyArray (UserData.repositories userData) in
  CollaborationStyle.mk
    (assessTeamPlayerScore events)
    (analyzeMentorshipStyle events)
    (analyzeCommunicationStyle events)
    (assessLeadershipTendencies repos events)
    (estimateNetworkSize events).

Definition analyzeRisks (userData : UserData.t) : M RiskAnalysis.t :=
  let events := orEmptyArray (UserData.events userData) in
  let repos := orEmptyArray (UserData.repositories userData) in
  burnoutRisk <- assessBurnoutRisk events (analyzeWeeklyPattern events) ;;
  ret (RiskAnalysis.mk burnoutRisk
         (assessSkillStagnation repos)
         (assessCollaborationIsolation events)).

(** The entry point.  The fields of the result are evaluated in the order
    of the object literal; the two [console.log] calls have no effect on
    the result. *)
Definition generateInsights (userData : UserData.t) : M Insights.t :=
  personalityProfile <- analyzePersonalityProfile userData ;;
  workPatterns <- analyzeWorkPatterns userData ;;
  let codingStyle := analyzeCodingStyle userData in
  let collaborationStyle := analyzeCollaborationStyle userData in
  let recommendations := generateRecommendations userData in
  predictions <- lift (generatePredictions userData) ;;
  riskAnalysis <- analyzeRisks userData ;;
  ret (Insights.mk personalityProfile workPatterns codingStyle collaborationStyle
         recommendations predictions riskAnalysis).

End Engine.

(** ** The callers

    The engine is called from app.js, on the record [loadUserData] builds
    from the answers of the API module, and its result is rendered by the
    insights panel ([window.DevPulseAIUI]).  The parts of the three that
    decide what the engine sees and what the panel shows are modelled here;
    building HTML and the DOM is not. *)

(** *** The insights panel *)

(** [`${n}`] for a non-negative integer *)
Definition toString (n : nat) : string := NilZero.string_of_uint (Nat.to_uint n).

(** The local [formatHour] of [formatPeakHours]. *)
Definition formatHour (hour : nat) : string :=
  let ampm := if (12 <=? hour)%nat then "PM" else "AM" in
  let displayHour := if (hour mod 12 =? 0)%nat then 12%nat else (hour mod 12)%nat in
  toString displayHour ++ ampm.

(** [formatPeakHours(peakHours)]; [None] is a missing array.  The spread
    [Math.min(...peakHours)] is taken of four hours or more. *)
Definition formatPeakHours (peakHours : option (list nat)) : string :=
  match peakHours with
  | None => "Various"
  | Some [] => "Various"
  | Some (first :: rest) =>
      let hours := first :: rest in
      if (length hours =? 1)%nat then formatHour first
      else if (length hours <=? 3)%nat then String.concat ", " (map formatHour hours)
      else formatHour (fold_left Nat.min rest first) ++ "-"
           ++ formatHour (fold_left Nat.max rest first)
  end.

(** [Math.round(x)]: the nearest integer, a half rounded up. *)
Definition MathRound (x : Q) : Z := Qfloor (x + 1 / 2).

(** The class and the figure of the confidence badge in
    [renderRecommendation]. *)
Definition confidenceClass (rec : Recommendation.t) : string :=
  if Qgtb (Recommendation.confidence rec) 0.8 then "high"
  else if Qgtb (Recommendation.confidence rec) 0.6 then "medium"
  else "low".

Definition confidencePercent (rec : Recommendation.t) : Z :=
  MathRound (Recommendation.confidence rec * 100).

(** [s.split(sep)] for a separator of one character. *)
Fixpoint stringSplit (sep : ascii) (s : string) : list string :=
  match s with
  | EmptyString => [EmptyString]
  | String c rest =>
      if Ascii.eqb c sep then EmptyString :: stringSplit sep rest
      else match stringSplit sep rest with
           | first :: others => String c first :: others
           | [] => [String c EmptyString]
           end
  end.

(** The icon of the personality card in [createAISection]:
    [type.split(' ')[1] || '🧠']. *)
Definition personalityIcon (type : string) : string :=
  match nth_error (stringSplit " " type) 1 with
  | Some word => if word =? "" then "🧠" else word
  | None => "🧠"
  end.

(** The widths in percent of the five progress bars of
    [renderPersonalityMetrics]: [(scores[key] || 5) / 10 * 100]. *)
Definition barWidths (scores : Scores.t) : list Q :=
  map (fun score => ((if Qeqb score 0 then 5 else score) / 10 * 100)%Q)
    [ Scores.innovation scores; Scores.collaboration scores;
      Scores.consistency scores; Scores.exploration scores;
      Scores.leadership scores ].

(** *** app.js and the API module *)

(** The profile [getUserProfile] returns, with the two fields the engine
    looks for. *)
Module Profile.
Record t : Type := mk {
    public_repos : option Z;
    followers : option Z
  }.
End Profile.

(** app.js, [loadUserData]: the record [currentUserData] that is handed to
    [generateInsights].  The profile is the value of its key [profile]; the
    record has no [public_repos] and no [followers] of its own. *)
Definition currentUserData (profile : Profile.t) (repositories : list Repo.t)
  (events : list Event.t) : UserData.t :=
  UserData.mk (Some repositories) (Some events) None None.

(** An event of the GitHub API, with the fields [getUserEvents] reads and
    the engine uses: [commits] is the length of [payload.commits] when the
    payload has that array. *)
Module ApiEvent.
Record t : Type := mk {
    type : string;
    created_at : option jsdate;
    repo_name : option string;
    commits : option nat
  }.
End ApiEvent.

(** [parseEventPayload(event)], as the engine sees its result through
    [payload?.commits?.length]: the payload built for a PushEvent holds the
    number of commits, and a number has no [length]; the payloads built for
    the five other types it knows have no [commits]; any other payload is
    passed on. *)
Definition parseEventPayload (event : ApiEvent.t) : option nat :=
  let type := ApiEvent.type event in
  if (type =? "PushEvent") || (type =? "PullRequestEvent") || (type =? "IssuesEvent")
     || (type =? "CreateEvent") || (type =? "WatchEvent") || (type =? "ForkEvent")
  then None
  else ApiEvent.commits event.

(** The records [getUserEvents] makes of the events the API answers with
    (outside its mock mode): they have the keys [id], [type], [actor],
    [repo], [payload] and [created_at], and no [org]. *)
Definition getUserEvents (events : list ApiEvent.t) : list Event.t :=
  map (fun event =>
         Event.mk (ApiEvent.type event) (ApiEvent.created_at event)
           (ApiEvent.repo_name event) None (parseEventPayload event))
    events.

(** ** Vocabulary of the properties and sample inputs *)

(** The order Low < Low-Medium < Medium < High of the burnout levels. *)
Definition levelRank (level : string) : option nat :=
  if level =? "Low" then Some 0%nat
  else if level =? "Low-Medium" then Some 1%nat
  else if level =? "Medium" then Some 2%nat
  else if level =? "High" then Some 3%nat
  else None.

(** [a] is a level no lower than [b]. *)
Definition noLowerThan (a b : string) : Prop :=
  match levelRank a, levelRank b with
  | Some x, Some y => (y <= x)%nat
  | _, _ => False
  end.

(** A PushEvent dated within the 24 hours before [now]. *)
Definition isRecentPush (now : Z) (e : Event.t) : bool :=
  (Event.type e =? "PushEvent")
  && match newDate (Event.created_at e) with
     | ValidDate ms => ((now - 86400000 <=? ms) && (ms <=? now))%Z
     | InvalidDate => false
     end.

(** The inputs on which no method draws a placeholder: at least one
    repository, at least 20 events, on at least 7 distinct local days. *)
Definition sufficientData (tzOffset : Z -> Z) (userData : UserData.t) : bool :=
  let repos := orEmptyArray (UserData.repositories userData) in
  let events := orEmptyArray (UserData.events userData) in
  negb (length repos =? 0)%nat
  && (20 <=? length events)%nat
  && (7 <=? length (groupEventsByDay tzOffset events))%nat.

(** [userData] with its missing [repositories] and [events] replaced by
    empty arrays. *)
Definition withEmptyDefaults (userData : UserData.t) : UserData.t :=
  UserData.mk
    (Some (orEmptyArray (UserData.repositories userData)))
    (Some (orEmptyArray (UserData.events userData)))
    (UserData.public_repos userData)
    (UserData.followers userData).

(** No language among the first five repositories is a name inherited
    from [Object.prototype]. *)
Definition plainLanguages (repos : list Repo.t) : bool :=
  forallb (fun lang => negb (isInherited lang)) (languagesOf (slice 0 5 repos)).

Definition plainRecentLanguages (userData : UserData.t) : bool :=
  plainLanguages (orEmptyArray (UserData.repositories userData)).

(** The optional keys of the records [generateInsights] can return are the
    [recommendations] of the two burnout-risk records: the scoring path of
    [assessBurnoutRisk] builds the key and its early return does not.  (The
    keys [suggestion], [insights] and [recommendations] of the predictions
    belong to the overridden definitions only and are never returned.) *)
Definition everyFieldPresent (insights : Insights.t) : bool :=
  match BurnoutRisk.recommendations
          (WorkPatterns.burnoutRisk (Insights.workPatterns insights)),
        BurnoutRisk.recommendations
          (RiskAnalysis.burnoutRisk (Insights.riskAnalysis insights))
  with
  | Some _, Some _ => true
  | _, _ => false
  end.

(** The rules of [determinePersonalityType], as conditions on the scores. *)
Definition innovatorRule (m : Scores.t) : Prop :=
  (7 < Scores.innovation m /\ 7 < Scores.exploration m)%Q.
Definition teamPlayerRule (m : Scores.t) : Prop :=
  (7 < Scores.collaboration m /\ 7 < Scores.consistency m)%Q.
Definition reliableRule (m : Scores.t) : Prop := (8 < Scores.consistency m)%Q.
Definition explorerRule (m : Scores.t) : Prop := (8 < Scores.exploration m)%Q.

(** The two "Weekend" working styles. *)
Definition isWeekendStyle (style : string) : bool :=
  (style =? "Weekend Evening Warrior 💪") || (style =? "Weekend Day Hacker 🎯").

Definition confidenceInUnit (c : Q) : Prop := (0 <= c <= 1)%Q.

Definition recommendationsInUnit (recs : list Recommendation.t) : Prop :=
  Forall (fun r => confidenceInUnit (Recommendation.confidence r)) recs.

(** The computation returns, without throwing, a value that satisfies [P]. *)
Definition yields {A : Type} (P : A -> Prop) (m : M A) (k : nat) : Prop :=
  exists a k', m k = Ok (a, k') /\ P a.

Definition returns {A : Type} (m : M A) (k : nat) : Prop :=
  yields (fun _ => True) m k.

(** The computation returns a score between [lo] and [hi]. *)
Definition scoreWithin (lo hi : Q) (m : M Q) (k : nat) : Prop :=
  yields (fun score => lo <= score <= hi)%Q m k.

(** The computation makes no draw and does not depend on the stream: it is
    [lift o] for one outcome [o], whatever the stream. *)
Definition drawFree {A : Type} (f : (nat -> Q) -> M A) : Prop :=
  exists o : outcome A, forall rnd k, f rnd k = lift o k.

(** The relation [R] holds between the results of two computations, for
    any numbers of earlier draws; when one throws, the other throws the
    same error. *)
Definition agree {A : Type} (R : A -> A -> Prop) (m1 m2 : M A) : Prop :=
  forall k1 k2,
    match m1 k1, m2 k2 with
    | Ok (a1, _), Ok (a2, _) => R a1 a2
    | Throw e1, Throw e2 => e1 = e2
    | _, _ => False
    end.

(** Two scores that no threshold of [determinePersonalityType] tells apart:
    equal, or both at most 7. *)
Definition sameSide (s1 s2 : Q) : Prop :=
  s1 = s2 \/ (s1 <= 7 /\ s2 <= 7)%Q.

(** The classification strings of a result and the titles of its
    recommendations. *)
Definition classification (insights : Insights.t) : list string * list string :=
  ([ PersonalityProfile.type (Insights.personalityProfile insights);
     WorkPatterns.workingStyle (Insights.workPatterns insights);
     BurnoutRisk.level (WorkPatterns.burnoutRisk (Insights.workPatterns insights));
     BurnoutRisk.level (RiskAnalysis.burnoutRisk (Insights.riskAnalysis insights));
     ActivityTrend.trend (Predictions.activityTrend (Insights.predictions insights));
     CollaborationGrowth.trend
       (Predictions.collaborationGrowth (Insights.predictions insights)) ],
   map Recommendation.title (Insights.recommendations insights)).

(** *** Sample inputs *)

Definition sampleRnd : nat -> Q := fun _ => 0.5%Q.

Definition utc : Z -> Z := fun _ => 0%Z.

(** Stand-ins for [Math.sqrt] and [Math.log10] in the examples: the square
    root to six decimals, and the logarithm from the bit length. *)
Definition sqrtApprox (q : Q) : Q :=
  Qmake (Z.sqrt (Qfloor (q * 1000000000000))) 1000000.

Definition log10Approx (q : Q) : Q :=
  (inject_Z (Z.log2 (Qfloor q)) * 0.30103)%Q.

(** Monday 1 January 2024, 00:00 UTC, and one hour and one day in
    milliseconds. *)
Definition monday : Z := 1704067200000.
Definition hour : Z := 3600000.
Definition day : Z := 86400000.

Definition eventAt (type : string) (ms : Z) : Event.t :=
  Event.mk type (Some (ValidDate ms)) (Some "octocat/hello-world") None None.

(** Ten PushEvents, one an hour, from 09:00 to 18:00 on the Monday, seen
    from 20:00 the same day. *)
Definition sampleNow : Z := (monday + 20 * hour)%Z.

Definition tenPushEvents : list Event.t :=
  map (fun i => eventAt "PushEvent" (monday + (9 + Z.of_nat i) * hour)%Z) (seq 0 10).

(** Five events on each day from Monday to Friday, 25 in all. *)
Definition weekdayEvents : list Event.t :=
  map (fun i =>
         eventAt "PushEvent"
           (monday + Z.of_nat (i / 5) * day + (9 + Z.of_nat (i mod 5)) * hour)%Z)
    (seq 0 25).

(** Twelve events twice: pushes on twelve days, and issues in one hour. *)
Definition twelvePushes : list Event.t :=
  map (fun i => eventAt "PushEvent" (monday + Z.of_nat i * day)%Z) (seq 0 12).

Definition twelveIssues : list Event.t :=
  map (fun i => eventAt "IssuesEvent" (monday + Z.of_nat i)%Z) (seq 0 12).

Definition sampleRepo (name language : string) : Repo.t :=
  Repo.mk (Some name) (Some language) (Some "A sample project") false (Some 3%Z)
    (Some (ValidDate monday)) None.

(** A user with three repositories and 21 events on 21 consecutive days. *)
Definition sampleUser : UserData.t :=
  UserData.mk
    (Some [sampleRepo "web-app" "JavaScript"; sampleRepo "api-server" "Python";
           sampleRepo "cli-tool" "Go"])
    (Some (map (fun i => eventAt "PushEvent" (monday + Z.of_nat i * day + 10 * hour)%Z)
             (seq 0 21)))
    (Some 3%Z) (Some 10%Z).

Definition emptyUser : UserData.t := UserData.mk (Some []) (Some []) None None.

(** The demonstration user of app.js ([mockUserData]): six repositories
    and ten events of January 2024, times in UTC. *)
Definition demoRepo (name language : string) (stars : Z) (description : string)
  : Repo.t :=
  Repo.mk (Some name) (Some language) (Some description) false (Some stars)
    None None.

Definition demoEvent (type : string) (dayOfJanuary hh mm : Z) (repo : string)
  : Event.t :=
  Event.mk type
    (Some (ValidDate (monday + (dayOfJanuary - 1) * day + hh * hour + mm * 60000)%Z))
    (Some repo) None None.

Definition demoUser : UserData.t :=
  UserData.mk
    (Some [demoRepo "web-app" "JavaScript" 23 "Modern web application with React";
           demoRepo "ai-chatbot" "Python" 45 "AI-powered chatbot using machine learning";
           demoRepo "mobile-app" "TypeScript" 12 "Cross-platform mobile application";
           demoRepo "data-analysis" "Python" 67 "Data analysis toolkit for researchers";
           demoRepo "game-engine" "C++" 89 "Lightweight 2D game engine";
           demoRepo "api-server" "Node.js" 34 "RESTful API server with authentication"])
    (Some [demoEvent "PushEvent" 15 14 30 "demo-user/web-app";
           demoEvent "IssuesEvent" 14 10 15 "demo-user/ai-chatbot";
           demoEvent "PullRequestEvent" 13 16 45 "demo-user/mobile-app";
           demoEvent "CreateEvent" 12 9 20 "demo-user/data-analysis";
           demoEvent "PushEvent" 11 20 30 "demo-user/game-engine";
           demoEvent "IssueCommentEvent" 10 13 15 "demo-user/api-server";
           demoEvent "PullRequestReviewEvent" 9 11 45 "demo-user/web-app";
           demoEvent "PushEvent" 8 15 20 "demo-user/ai-chatbot";
           demoEvent "ForkEvent" 7 8 30 "demo-user/mobile-app";
           demoEvent "WatchEvent" 6 17 10 "demo-user/data-analysis"])
    (Some 42%Z) (Some 156%Z).

(** A repository whose language is the name of an inherited property. *)
Definition inheritedLanguageUser : UserData.t :=
  UserData.mk (Some [sampleRepo "oddity" "constructor"]) (Some []) None None.

(** *** Vocabulary of the further properties *)

(** An event whose [created_at] makes a valid date. *)
Definition isDated (e : Event.t) : bool :=
  match newDate (Event.created_at e) with
  | ValidDate _ => true
  | InvalidDate => false
  end.

(** The event falls in the local hour [h]; on the local weekday [d]. *)
Definition atHour (tzOffset : Z -> Z) (h : nat) (e : Event.t) : bool :=
  match getHours tzOffset (newDate (Event.created_at e)) with
  | Some hour => (hour =? h)%nat
  | None => false
  end.

Definition onWeekday (tzOffset : Z -> Z) (d : nat) (e : Event.t) : bool :=
  match getDay tzOffset (newDate (Event.created_at e)) with
  | Some day => (day =? d)%nat
  | None => false
  end.

(** The key of an event in [groupEventsByDay], and the events of one key. *)
Definition dayOf (tzOffset : Z -> Z) (e : Event.t) : option Z :=
  toDateString tzOffset (newDate (Event.created_at e)).

Definition onDay (tzOffset : Z -> Z) (key : option Z) (e : Event.t) : bool :=
  dayKeyEqb key (dayOf tzOffset e).

(** The string begins with a decimal digit. *)
Definition startsWithDigit (s : string) : bool :=
  match s with
  | String c _ => (48 <=? nat_of_ascii c)%nat && (nat_of_ascii c <=? 57)%nat
  | EmptyString => false
  end.

(** The level [assessBurnoutRisk] gives to a risk score. *)
Definition burnoutLevelOf (score : Q) : string :=
  if Qgeb score 7 then "High"
  else if Qgeb score 4 then "Medium"
  else if Qgeb score 2 then "Low-Medium"
  else "Low".

(** The strings of a burnout-risk record, without its score. *)
Definition burnoutVerdict (risk : BurnoutRisk.t)
  : string * string * option (list string) :=
  (BurnoutRisk.level risk, BurnoutRisk.advice risk, BurnoutRisk.recommendations risk).

(** The recommendations have the type [type]. *)
Definition allOfType (type : string) (recs : list Recommendation.t) : Prop :=
  Forall (fun rec => Recommendation.type rec = type) recs.

Definition titles (recs : list Recommendation.t) : list string :=
  map Recommendation.title recs.

(** The titles that need a repository or follower count above zero. *)
Definition countedTitles : list string :=
  [ "Explore FastAPI"; "CI/CD Automation"; "System Design Patterns";
    "Testing Best Practices"; "Cloud Architecture"; "Technical Leadership";
    "Developer Advocacy"; "Repository Organization"; "Technical Leadership Role";
    "Senior Developer Position"; "Developer Relations" ].

(** The label and the confidence [predictActivityTrend] gives to a number
    of events. *)
Definition activityTrendOf (n : nat) : string * Q :=
  if (n <? 10)%nat then ("Building Momentum 📈", 0.6%Q)
  else if (n =? 12)%nat || (15 <=? n)%nat then ("Stable & Consistent 📊", 0.9%Q)
  else ("Slightly Decreasing 📉", 0.8%Q).

(** The events the later [predictCollaborationGrowth] counts. *)
Definition opensPullRequestOrIssue (e : Event.t) : bool :=
  typeIs e "PullRequestEvent" || typeIs e "IssuesEvent".


(** A suggestion the user has no repository in, and that is a name. *)
Definition freshSuggestion (languages : list string) (tech : string) : Prop :=
  arrIncludes languages tech = false /\ tech <> "".

(** The strengths that go with the scores that decide a personality type,
    and the growth areas that would contradict them. *)
Definition definingStrengths (type : string) : list string :=
  if type =? "Innovator 🚀"
  then ["Innovation & Creativity"; "Technology Adaptability"]
  else if type =? "Team Player 🤝" then ["Team Collaboration"; "Reliable Delivery"]
  else if type =? "Reliable Contributor 🎯" then ["Reliable Delivery"]
  else if type =? "Technology Explorer 🔍" then ["Technology Adaptability"]
  else [].

Definition contraryGrowthAreas (type : string) : list string :=
  if type =? "Innovator 🚀"
  then ["Experiment with new technologies"; "Try diverse programming languages"]
  else if type =? "Team Player 🤝"
  then ["Increase community involvement"; "Develop regular coding habits"]
  else if type =? "Reliable Contributor 🎯" then ["Develop regular coding habits"]
  else if type =? "Technology Explorer 🔍" then ["Try diverse programming languages"]
  else [].

(** The titles each generator can return, in the order of the source. *)
Definition techTitles : list string :=
  [ "Upgrade to TypeScript"; "Learn React or Vue.js"; "Explore FastAPI";
    "Try Go Programming"; "Explore Kotlin"; "Container Technologies";
    "CI/CD Automation"; "Start with JavaScript" ].

Definition learningTitles : list string :=
  [ "Git & GitHub Mastery"; "Algorithm & Data Structures"; "System Design Patterns";
    "Testing Best Practices"; "Cloud Architecture"; "Technical Leadership" ].

Definition productivityTitles : list string :=
  [ "Automate Repetitive Tasks"; "Time Management"; "Consistent Coding Schedule";
    "Repository Organization"; "Code Review Practices" ].

Definition careerTitles : list string :=
  [ "Technical Leadership Role"; "Senior Developer Position"; "Full-Stack Development";
    "Developer Relations"; "Open Source Contribution"; "Freelance Opportunities" ].

(** No string occurs twice. *)
Fixpoint distinctb (xs : list string) : bool :=
  match xs with
  | [] => true
  | x :: rest => negb (arrIncludes rest x) && distinctb rest
  end.

(** *** Proof tools *)

(** Splits a list built from conditional pieces and checks each
    recommendation's confidence. *)
Ltac in_unit :=
  repeat (apply Forall_app; split);
  repeat match goal with
         | |- context [if ?c then _ else _] => destruct c
         end;
  repeat (apply Forall_app; split);
  repeat constructor; unfold confidenceInUnit; simpl; try lra.

(** Splits a list built from conditional pieces and checks the type of
    each recommendation. *)
Ltac of_type :=
  repeat (apply Forall_app; split);
  repeat match goal with
         | |- context [if ?c then _ else _] => destruct c
         end;
  repeat (apply Forall_app; split);
  repeat constructor.

(** Splits a list built from conditional pieces into its recommendations. *)
Ltac each_recommendation :=
  repeat (apply Forall_app; split);
  repeat match goal with
         | |- context [if ?c then _ else _] => destruct c
         end;
  repeat (apply Forall_app; split);
  repeat first [apply Forall_nil | apply Forall_cons].

(** The badge of one recommendation. *)
Ltac badge :=
  split;
  [ vm_compute; first [left; reflexivity | right; reflexivity]
  | vm_compute; split; discriminate ].

(** Decides every condition of the goal. *)
Ltac case_by_case :=
  repeat match goal with
         | |- context [if ?c then _ else _] => destruct c
         end.

(** * Properties *)

(** ** Comparisons and clamping *)

Lemma Qgtb_true_iff (a b : Q) : Qgtb a b = true <-> (b < a)%Q.
Proof.
  unfold Qgtb. rewrite negb_true_iff, <- not_true_iff_false, Qle_bool_iff.
  split; [apply Qnot_le_lt | apply Qlt_not_le].
Qed.

Lemma Qgtb_false_iff (a b : Q) : Qgtb a b = false <-> (a <= b)%Q.
Proof.
  unfold Qgtb. rewrite negb_false_iff. apply Qle_bool_iff.
Qed.

Lemma Qltb_true_iff (a b : Q) : Qltb a b = true <-> (a < b)%Q.
Proof. apply (Qgtb_true_iff b a). Qed.

Lemma Qltb_false_iff (a b : Q) : Qltb a b = false <-> (b <= a)%Q.
Proof. apply (Qgtb_false_iff b a). Qed.

Lemma clamp_1_10 (score : Q) : (1 <= Qmin 10 (Qmax 1 score) <= 10)%Q.
Proof.
  split.
  - apply Q.min_glb; [lra | apply Q.le_max_l].
  - apply Q.le_min_l.
Qed.

(** ** Personality classification *)

(** C6: the personality type is chosen by the first rule that matches, in
    the order Innovator, Team Player, Reliable Contributor, Technology
    Explorer, with Balanced Developer when none does. *)
Theorem determinePersonalityType_first_match (m : Scores.t) :
  (innovatorRule m -> determinePersonalityType m = "Innovator 🚀")
  /\ (~ innovatorRule m -> teamPlayerRule m ->
      determinePersonalityType m = "Team Player 🤝")
  /\ (~ innovatorRule m -> ~ teamPlayerRule m -> reliableRule m ->
      determinePersonalityType m = "Reliable Contributor 🎯")
  /\ (~ innovatorRule m -> ~ teamPlayerRule m -> ~ reliableRule m ->
      explorerRule m ->
      determinePersonalityType m = "Technology Explorer 🔍")
  /\ (~ innovatorRule m -> ~ teamPlayerRule m -> ~ reliableRule m ->
      ~ explorerRule m ->
      determinePersonalityType m = "Balanced Developer ⚖️").
Proof.
  unfold innovatorRule, teamPlayerRule, reliableRule, explorerRule,
    determinePersonalityType.
  destruct (Qgtb (Scores.innovation m) 7) eqn:Hi;
  destruct (Qgtb (Scores.exploration m) 7) eqn:He;
  destruct (Qgtb (Scores.collaboration m) 7) eqn:Hc;
  destruct (Qgtb (Scores.consistency m) 7) eqn:Hs;
  destruct (Qgtb (Scores.consistency m) 8) eqn:Hs8;
  destruct (Qgtb (Scores.exploration m) 8) eqn:He8;
  cbn [andb];
  repeat match goal with
         | H : Qgtb _ _ = true |- _ => apply Qgtb_true_iff in H
         | H : Qgtb _ _ = false |- _ => apply Qgtb_false_iff in H
         end;
  repeat split; intros;
  repeat match goal with
         | H : _ /\ _ |- _ => destruct H
         end;
  try reflexivity; try lra;
  exfalso;
  repeat match goal with
         | H : ~ (_ /\ _) |- _ => apply H; split; lra
         | H : ~ (_ < _) |- _ => apply H; lra
         end.
Qed.

(** The five branches, each at a record of scores that selects it. *)
Lemma determinePersonalityType_first_match_witness :
  determinePersonalityType (Scores.mk 8 1 1 8 1) = "Innovator 🚀"
  /\ determinePersonalityType (Scores.mk 1 8 7.5 1 1) = "Team Player 🤝"
  /\ determinePersonalityType (Scores.mk 1 1 9 1 1) = "Reliable Contributor 🎯"
  /\ determinePersonalityType (Scores.mk 1 1 1 9 1) = "Technology Explorer 🔍"
  /\ determinePersonalityType (Scores.mk 7 7 7 7 7) = "Balanced Developer ⚖️".
Proof.
  split; [| split; [| split; [| split]]].
  - apply (proj1 (determinePersonalityType_first_match (Scores.mk 8 1 1 8 1))).
    simpl; split; reflexivity.
  - apply (proj1 (proj2 (determinePersonalityType_first_match (Scores.mk 1 8 7.5 1 1)))).
    + simpl; intros [H _]; discriminate H.
    + simpl; split; reflexivity.
  - apply (proj1 (proj2 (proj2
             (determinePersonalityType_first_match (Scores.mk 1 1 9 1 1))))).
    + simpl; intros [H _]; discriminate H.
    + simpl; intros [H _]; discriminate H.
    + reflexivity.
  - apply (proj1 (proj2 (proj2 (proj2
             (determinePersonalityType_first_match (Scores.mk 1 1 1 9 1)))))).
    + simpl; intros [H _]; discriminate H.
    + simpl; intros [H _]; discriminate H.
    + simpl; intros H; discriminate H.
    + reflexivity.
  - apply (proj2 (proj2 (proj2 (proj2
             (determinePersonalityType_first_match (Scores.mk 7 7 7 7 7)))))).
    + simpl; intros [H _]; discriminate H.
    + simpl; intros [H _]; discriminate H.
    + simpl; intros H; discriminate H.
    + simpl; intros H; discriminate H.
Defined.

(** ** Peak hours *)

(** C10: with no events every hourly bucket is 0, the maximum is 0, and
    all 24 hours pass the test [activity >= maxActivity * 0.8]. *)
Theorem identifyPeakHours_no_events (tzOffset : Z -> Z) :
  analyzeTimeDistribution tzOffset [] = repeat 0%Z 24
  /\ MathMaxSpread (analyzeTimeDistribution tzOffset []) = Fin 0
  /\ identifyPeakHours (analyzeTimeDistribution tzOffset []) = seq 0 24.
Proof.
  split; [| split].
  - reflexivity.
  - reflexivity.
  - unfold identifyPeakHours. reflexivity.
Qed.

(** ** Activity trend *)

Lemma length_slice {A : Type} (s e : nat) (xs : list A) :
  length (slice s e xs) = Nat.min (e - s) (length xs - s).
Proof. unfold slice. now rewrite length_firstn, length_skipn. Qed.

Lemma length_sliceFrom {A : Type} (s : nat) (xs : list A) :
  length (sliceFrom s xs) = (length xs - s)%nat.
Proof. apply length_skipn. Qed.

(** The trend label and the confidence as functions of the number of
    events alone. *)
Lemma predictActivityTrend_by_length (events : list Event.t) :
  exists label : nat -> string * Q,
    forall events' : list Event.t,
      length events' = length events ->
      (ActivityTrend.trend (predictActivityTrend events'),
       ActivityTrend.confidence (predictActivityTrend events'))
      = label (length events).
Proof.
  exists (fun n =>
            if (n <? 10)%nat then ("Building Momentum 📈", 0.6%Q)
            else
              let recentActivity := Nat.min (n / 3 - 0) (n - 0) in
              let middleActivity := Nat.min (n * 2 / 3 - n / 3) (n - n / 3) in
              let olderActivity := (n - n * 2 / 3)%nat in
              let overallTrend :=
                ((Nq recentActivity / Qmax (Nq middleActivity) 1
                  + Nq middleActivity / Qmax (Nq olderActivity) 1) / 2)%Q in
              if Qgtb overallTrend 1.3 then ("Rapidly Increasing 🚀", 0.9%Q)
              else if Qgtb overallTrend 1.1 then ("Steadily Growing 📈", 0.8%Q)
              else if Qgtb overallTrend 0.9 then ("Stable & Consistent 📊", 0.9%Q)
              else if Qgtb overallTrend 0.7 then ("Slightly Decreasing 📉", 0.8%Q)
              else ("Needs Attention 🔄", 0.7%Q)).
  intros events' Hlen. unfold predictActivityTrend.
  rewrite !length_slice, !length_sliceFrom, Hlen.
  destruct (length events <? 10)%nat; [reflexivity |].
  cbv zeta.
  repeat match goal with
         | |- context [if Qgtb ?a ?b then _ else _] => destruct (Qgtb a b)
         end; reflexivity.
Qed.

(** C9: two event lists of the same length, at least 10, get the same
    trend label and the same confidence, whatever the events are. *)
Theorem predictActivityTrend_depends_on_length
  (events1 events2 : list Event.t) :
  length events1 = length events2 ->
  (10 <= length events1)%nat ->
  ActivityTrend.trend (predictActivityTrend events1)
  = ActivityTrend.trend (predictActivityTrend events2)
  /\ ActivityTrend.confidence (predictActivityTrend events1)
     = ActivityTrend.confidence (predictActivityTrend events2).
Proof.
  intros Hlen _.
  destruct (predictActivityTrend_by_length events1) as [label Hlabel].
  pose proof (Hlabel events1 eq_refl) as H1.
  pose proof (Hlabel events2 (eq_sym Hlen)) as H2.
  rewrite <- H2 in H1. inversion H1. split; reflexivity.
Qed.

(** The two lists differ in every event and agree in length. *)
Lemma predictActivityTrend_depends_on_length_witness :
  ActivityTrend.trend (predictActivityTrend twelvePushes)
  = ActivityTrend.trend (predictActivityTrend twelveIssues)
  /\ ActivityTrend.confidence (predictActivityTrend twelvePushes)
     = ActivityTrend.confidence (predictActivityTrend twelveIssues).
Proof.
  apply (predictActivityTrend_depends_on_length twelvePushes twelveIssues).
  - reflexivity.
  - vm_compute. lia.
Defined.

(** The description, unlike the label, follows the types of the events. *)
Lemma predictActivityTrend_description_differs :
  ActivityTrend.description (predictActivityTrend twelvePushes)
  <> ActivityTrend.description (predictActivityTrend twelveIssues).
Proof. vm_compute. discriminate. Qed.

(** ** The keys defined twice *)

Lemma earlier_growth_has_suggestion (events : list Event.t) :
  CollaborationGrowth.suggestion (predictCollaborationGrowth_earlier events) <> None.
Proof.
  unfold predictCollaborationGrowth_earlier. cbv zeta.
  repeat match goal with
         | |- context [if ?c then _ else _] => destruct c
         end; discriminate.
Qed.

Lemma later_growth_has_no_suggestion (events : list Event.t) :
  CollaborationGrowth.suggestion (predictCollaborationGrowth_later events) = None.
Proof.
  unfold predictCollaborationGrowth_later. cbv zeta.
  repeat match goal with
         | |- context [if ?c then _ else _] => destruct c
         end; reflexivity.
Qed.

Lemma earlier_skill_has_insights (repos : list Repo.t) (events : list Event.t) :
  SkillDevelopment.insights (predictSkillDevelopment_earlier repos events) <> None.
Proof.
  unfold predictSkillDevelopment_earlier. cbv zeta.
  repeat match goal with
         | |- context [if ?c then _ else _] => destruct c
         end; discriminate.
Qed.

(** C4: each of [predictCollaborationGrowth] and [predictSkillDevelopment]
    has two definitions in the engine object; the property read through
    [this] is the later one, the predictions are built from the later ones
    for every input, and on no input does an earlier definition return what
    the later one returns. *)
Theorem later_definitions_override :
  (forall events,
      predictCollaborationGrowth events = Ok (predictCollaborationGrowth_later events))
  /\ (forall repos events,
         predictSkillDevelopment repos events
         = Ok (predictSkillDevelopment_later repos events))
  /\ (forall userData,
         let events := orEmptyArray (UserData.events userData) in
         let repos := orEmptyArray (UserData.repositories userData) in
         generatePredictions userData
         = obind (predictNextTechnology repos)
             (fun nextTechnology =>
                Ok (Predictions.mk nextTechnology
                      (predictActivityTrend events)
                      (predictCollaborationGrowth_later events)
                      (predictSkillDevelopment_later repos events))))
  /\ (forall events,
         predictCollaborationGrowth_earlier events
         <> predictCollaborationGrowth_later events)
  /\ (forall repos events,
         predictSkillDevelopment_earlier repos events
         <> predictSkillDevelopment_later repos events).
Proof.
  split; [| split; [| split; [| split]]].
  - reflexivity.
  - reflexivity.
  - intros userData. reflexivity.
  - intros events Heq.
    apply (earlier_growth_has_suggestion events).
    rewrite Heq. apply later_growth_has_no_suggestion.
  - intros repos events Heq.
    apply (earlier_skill_has_insights repos events).
    rewrite Heq. reflexivity.
Qed.

(** ** Burnout risk *)

(** C1, as the code has it: a list of fewer than 20 events, hence one of
    exactly 10 PushEvents, is rated "Low" by the early return, with the
    placeholder score and no recommendations; the point ladder is not
    evaluated. *)
Theorem assessBurnoutRisk_below_twenty_events
  (rnd : nat -> Q) (tzOffset : Z -> Z) (events : list Event.t)
  (weeklyPattern : list Z) (k : nat) :
  (length events < 20)%nat ->
  assessBurnoutRisk rnd tzOffset events weeklyPattern k
  = Ok (BurnoutRisk.mk "Low" "Build consistent coding habits gradually"
          (rnd k * 3 + 1)%Q None,
        S k).
Proof.
  intros Hlen. unfold assessBurnoutRisk.
  apply Nat.ltb_lt in Hlen. rewrite Hlen. reflexivity.
Qed.

Lemma assessBurnoutRisk_below_twenty_events_witness :
  assessBurnoutRisk sampleRnd utc tenPushEvents
    (analyzeWeeklyPattern utc tenPushEvents) 0%nat
  = Ok (BurnoutRisk.mk "Low" "Build consistent coding habits gradually"
          (sampleRnd 0%nat * 3 + 1)%Q None,
        1%nat).
Proof.
  apply (assessBurnoutRisk_below_twenty_events sampleRnd utc tenPushEvents).
  vm_compute. lia.
Defined.

(** Ten PushEvents of the last 24 hours are rated "Low", which is lower
    than "Low-Medium". *)
Lemma assessBurnoutRisk_ten_recent_pushes :
  length tenPushEvents = 10%nat
  /\ forallb (isRecentPush sampleNow) tenPushEvents = true
  /\ (exists risk k,
         assessBurnoutRisk sampleRnd utc tenPushEvents
           (analyzeWeeklyPattern utc tenPushEvents) 0%nat = Ok (risk, k)
         /\ BurnoutRisk.level risk = "Low"
         /\ ~ noLowerThan (BurnoutRisk.level risk) "Low-Medium").
Proof.
  split; [reflexivity | split; [reflexivity |]].
  eexists; eexists. split; [reflexivity | split; [reflexivity |]].
  vm_compute. lia.
Qed.

(** ** Working style *)

Lemma zero_ratio_not_above (d : Q) : Qgtb (Zq (0 + 0) / d) 0.4 = false.
Proof.
  apply Qgtb_false_iff. unfold Qdiv. change (Zq (0 + 0)) with 0%Q.
  rewrite Qmult_0_l. lra.
Qed.

(** The weekend labels are returned only on the branch guarded by
    [weekendRatio > 0.4], which a weekly pattern with empty Sunday and
    Saturday buckets does not take. *)
Lemma determineWorkingStyle_without_weekend (hourlyDist weeklyDist : list Z) :
  at0 weeklyDist 0 = 0%Z ->
  at0 weeklyDist 6 = 0%Z ->
  isWeekendStyle (determineWorkingStyle hourlyDist weeklyDist) = false.
Proof.
  intros Hsun Hsat. unfold determineWorkingStyle. cbv zeta.
  rewrite Hsun, Hsat, zero_ratio_not_above.
  repeat match goal with
         | |- context [if ?c then _ else _] => destruct c
         end; reflexivity.
Qed.

(** C7: events spread evenly over Monday to Friday, none on the weekend,
    at least 20 in all, never get a "Weekend" working style. *)
Theorem determineWorkingStyle_uniform_weekdays
  (tzOffset : Z -> Z) (events : list Event.t) :
  let hourlyDist := analyzeTimeDistribution tzOffset events in
  let weeklyDist := analyzeWeeklyPattern tzOffset events in
  at0 weeklyDist 0 = 0%Z ->
  at0 weeklyDist 6 = 0%Z ->
  (forall d, (1 <= d <= 5)%nat -> at0 weeklyDist d = at0 weeklyDist 1) ->
  (20 <= length events)%nat ->
  determineWorkingStyle hourlyDist weeklyDist <> "Weekend Evening Warrior 💪"
  /\ determineWorkingStyle hourlyDist weeklyDist <> "Weekend Day Hacker 🎯".
Proof.
  intros hourlyDist weeklyDist Hsun Hsat _ _.
  pose proof (determineWorkingStyle_without_weekend hourlyDist weeklyDist Hsun Hsat)
    as Hstyle.
  unfold isWeekendStyle in Hstyle. apply orb_false_iff in Hstyle.
  destruct Hstyle as [Hevening Hday].
  split; apply String.eqb_neq; assumption.
Qed.

Lemma determineWorkingStyle_uniform_weekdays_witness :
  determineWorkingStyle (analyzeTimeDistribution utc weekdayEvents)
    (analyzeWeeklyPattern utc weekdayEvents) <> "Weekend Evening Warrior 💪"
  /\ determineWorkingStyle (analyzeTimeDistribution utc weekdayEvents)
       (analyzeWeeklyPattern utc weekdayEvents) <> "Weekend Day Hacker 🎯".
Proof.
  apply (determineWorkingStyle_uniform_weekdays utc weekdayEvents).
  - reflexivity.
  - reflexivity.
  - intros d Hd.
    assert (Hcases : d = 1%nat \/ d = 2%nat \/ d = 3%nat \/ d = 4%nat \/ d = 5%nat)
      by lia.
    destruct Hcases as [-> | [-> | [-> | [-> | ->]]]]; reflexivity.
  - vm_compute. lia.
Defined.

(** ** Next technology *)

(** A language that is no inherited property name adds its suggestions, or
    nothing, and does not throw. *)
Lemma progressionStep_plain (languages : list string) (lang : string) :
  isInherited lang = false ->
  exists added, progressionStep languages lang = Ok added.
Proof.
  intros Hplain. unfold progressionStep.
  destruct (objectLiteral progressionMap lang) as [[primaryTechs advancedTechs] |].
  - eexists. reflexivity.
  - rewrite Hplain. eexists. reflexivity.
Qed.

Lemma progressionSuggestions_plain (languages recentLanguages : list string) :
  forallb (fun lang => negb (isInherited lang)) recentLanguages = true ->
  forall suggestions,
  exists all, progressionSuggestions languages recentLanguages suggestions = Ok all.
Proof.
  induction recentLanguages as [| lang rest IH]; intros Hplain suggestions.
  - exists suggestions. reflexivity.
  - simpl in Hplain. apply andb_true_iff in Hplain. destruct Hplain as [Hlang Hrest].
    apply negb_true_iff in Hlang.
    destruct (progressionStep_plain languages lang Hlang) as [added Hadded].
    simpl. rewrite Hadded. simpl. apply IH. exact Hrest.
Qed.

Lemma predictNextTechnology_plain (repos : list Repo.t) :
  plainLanguages repos = true ->
  exists next, predictNextTechnology repos = Ok next.
Proof.
  intros Hplain. unfold predictNextTechnology. cbv zeta.
  destruct (progressionSuggestions_plain (languagesOf repos) _ Hplain [])
    as [suggestions Hs].
  rewrite Hs. simpl. eexists. reflexivity.
Qed.

(** ** Confidence values *)

Lemma Forall_slice {A : Type} (P : A -> Prop) (s e : nat) (xs : list A) :
  Forall P xs -> Forall P (slice s e xs).
Proof.
  intros H. unfold slice.
  rewrite <- (firstn_skipn s xs) in H. apply Forall_app in H.
  destruct H as [_ H].
  rewrite <- (firstn_skipn (e - s) (skipn s xs)) in H. apply Forall_app in H.
  exact (proj1 H).
Qed.

Lemma generateTechRecommendations_in_unit (insights : BasicPatterns.t) :
  recommendationsInUnit (generateTechRecommendations insights).
Proof.
  unfold generateTechRecommendations, recommendationsInUnit. cbv zeta.
  apply Forall_slice. in_unit.
Qed.

Lemma generateLearningRecommendations_in_unit (insights : BasicPatterns.t) :
  recommendationsInUnit (generateLearningRecommendations insights).
Proof.
  unfold generateLearningRecommendations, recommendationsInUnit. cbv zeta.
  apply Forall_slice. in_unit.
Qed.

Lemma generateProductivityRecommendations_in_unit (insights : BasicPatterns.t) :
  recommendationsInUnit (generateProductivityRecommendations insights).
Proof.
  unfold generateProductivityRecommendations, recommendationsInUnit. cbv zeta.
  apply Forall_slice. in_unit.
Qed.

Lemma generateCareerRecommendations_in_unit (insights : BasicPatterns.t) :
  recommendationsInUnit (generateCareerRecommendations insights).
Proof.
  unfold generateCareerRecommendations, recommendationsInUnit. cbv zeta.
  apply Forall_slice. in_unit.
Qed.

Lemma Nq_nonneg (n : nat) : (0 <= Nq n)%Q.
Proof.
  unfold Nq. change 0%Q with (inject_Z 0). rewrite <- Zle_Qle. lia.
Qed.

(** A confidence [min(cap, base + a * x + b * y)] over two counts. *)
Lemma capped_confidence (cap base x y : Q) (a b : nat) :
  (0 <= base <= cap)%Q -> (cap <= 1)%Q -> (0 <= x)%Q -> (0 <= y)%Q ->
  (base <= Qmin cap (base + Nq a * x + Nq b * y) <= cap)%Q.
Proof.
  intros Hbase Hcap Hx Hy.
  pose proof (Nq_nonneg a) as Ha. pose proof (Nq_nonneg b) as Hb.
  split.
  - apply Q.min_glb; [lra |].
    assert (0 <= Nq a * x)%Q by (apply Qmult_le_0_compat; assumption).
    assert (0 <= Nq b * y)%Q by (apply Qmult_le_0_compat; assumption).
    lra.
  - apply Q.le_min_l.
Qed.

Lemma predictNextTechnology_confidence (repos : list Repo.t) (next : NextTechnology.t) :
  predictNextTechnology repos = Ok next ->
  NextTechnology.confidence next
  = Qmin 0.9 (0.5 + Nq (length (newSet String.eqb (languagesOf repos))) * 0.1
              + Nq (length repos) * 0.01).
Proof.
  unfold predictNextTechnology.
  destruct (progressionSuggestions _ _ _) as [suggestions | e]; simpl.
  - intros H. injection H as <-. reflexivity.
  - discriminate.
Qed.

Lemma predictActivityTrend_in_unit (events : list Event.t) :
  confidenceInUnit (ActivityTrend.confidence (predictActivityTrend events)).
Proof.
  unfold predictActivityTrend, confidenceInUnit. cbv zeta.
  repeat match goal with
         | |- context [if ?c then _ else _] => destruct c
         end; simpl; lra.
Qed.

Lemma predictCollaborationGrowth_earlier_in_unit (events : list Event.t) :
  confidenceInUnit
    (CollaborationGrowth.confidence (predictCollaborationGrowth_earlier events)).
Proof.
  unfold predictCollaborationGrowth_earlier, confidenceInUnit. cbv zeta.
  repeat match goal with
         | |- context [if ?c then _ else _] => destruct c
         end; simpl; lra.
Qed.

Lemma predictCollaborationGrowth_later_in_unit (events : list Event.t) :
  confidenceInUnit
    (CollaborationGrowth.confidence (predictCollaborationGrowth_later events)).
Proof.
  unfold predictCollaborationGrowth_later, confidenceInUnit. cbv zeta.
  repeat match goal with
         | |- context [if ?c then _ else _] => destruct c
         end; simpl; lra.
Qed.

Lemma predictSkillDevelopment_earlier_in_unit (repos : list Repo.t)
  (events : list Event.t) :
  confidenceInUnit
    (SkillDevelopment.confidence (predictSkillDevelopment_earlier repos events)).
Proof.
  unfold predictSkillDevelopment_earlier, confidenceInUnit. cbv zeta.
  match goal with
  | |- context [Qmin 0.9 (0.6 + Nq ?a * 0.02 + Nq ?b * 0.05)] =>
      pose proof (capped_confidence 0.9 0.6 0.02 0.05 a b) as Hc
  end.
  repeat match goal with
         | |- context [if ?c then _ else _] => destruct c
         end; simpl; lra.
Qed.

(** C8: every confidence produced by the four recommendation generators
    and by the prediction methods lies in [0,1]; the confidence of
    [predictNextTechnology] is min(0.9, 0.5 + 0.1 * distinct languages +
    0.01 * repositories), between 0.5 and the cap 0.9, and the method
    returns one whenever no recent language is an inherited property
    name. *)
Theorem confidence_in_unit_interval :
  (forall insights,
      recommendationsInUnit (generateTechRecommendations insights)
      /\ recommendationsInUnit (generateLearningRecommendations insights)
      /\ recommendationsInUnit (generateProductivityRecommendations insights)
      /\ recommendationsInUnit (generateCareerRecommendations insights))
  /\ (forall userData, recommendationsInUnit (generateRecommendations userData))
  /\ (forall repos next,
         predictNextTechnology repos = Ok next ->
         NextTechnology.confidence next
         = Qmin 0.9 (0.5 + Nq (length (newSet String.eqb (languagesOf repos))) * 0.1
                     + Nq (length repos) * 0.01)
         /\ (0.5 <= NextTechnology.confidence next <= 0.9)%Q
         /\ confidenceInUnit (NextTechnology.confidence next))
  /\ (forall repos,
         plainLanguages repos = true ->
         exists next, predictNextTechnology repos = Ok next)
  /\ (forall events,
         confidenceInUnit (ActivityTrend.confidence (predictActivityTrend events)))
  /\ (forall events growth,
         predictCollaborationGrowth events = Ok growth ->
         confidenceInUnit (CollaborationGrowth.confidence growth))
  /\ (forall repos events skill,
         predictSkillDevelopment repos events = Ok skill ->
         confidenceInUnit (SkillDevelopment.confidence skill))
  /\ (forall repos events,
         confidenceInUnit
           (CollaborationGrowth.confidence (predictCollaborationGrowth_earlier events))
         /\ confidenceInUnit
              (SkillDevelopment.confidence
                 (predictSkillDevelopment_earlier repos events))).
Proof.
  split; [| split; [| split; [| split; [| split; [| split; [| split]]]]]].
  - intros insights.
    split; [apply generateTechRecommendations_in_unit |].
    split; [apply generateLearningRecommendations_in_unit |].
    split; [apply generateProductivityRecommendations_in_unit |].
    apply generateCareerRecommendations_in_unit.
  - intros userData. unfold generateRecommendations, recommendationsInUnit.
    cbv zeta. apply Forall_slice.
    repeat (apply Forall_app; split);
      [ constructor
      | apply generateTechRecommendations_in_unit
      | apply generateLearningRecommendations_in_unit
      | apply generateProductivityRecommendations_in_unit
      | apply generateCareerRecommendations_in_unit ].
  - intros repos next Hnext.
    rewrite (predictNextTechnology_confidence repos next Hnext).
    pose proof (capped_confidence 0.9 0.5 0.1 0.01
                  (length (newSet String.eqb (languagesOf repos))) (length repos))
      as Hc.
    unfold confidenceInUnit. split; [reflexivity | lra].
  - apply predictNextTechnology_plain.
  - apply predictActivityTrend_in_unit.
  - intros events growth Hgrowth.
    change (predictCollaborationGrowth events)
      with (Ok (predictCollaborationGrowth_later events)) in Hgrowth.
    injection Hgrowth as <-.
    apply predictCollaborationGrowth_later_in_unit.
  - intros repos events skill Hskill.
    change (predictSkillDevelopment repos events)
      with (Ok (predictSkillDevelopment_later repos events)) in Hskill.
    injection Hskill as <-. unfold confidenceInUnit. simpl. lra.
  - intros repos events. split.
    + apply predictCollaborationGrowth_earlier_in_unit.
    + apply predictSkillDevelopment_earlier_in_unit.
Qed.

Lemma confidence_in_unit_interval_witness :
  exists next,
    predictNextTechnology (orEmptyArray (UserData.repositories sampleUser)) = Ok next
    /\ (0.5 <= NextTechnology.confidence next <= 0.9)%Q.
Proof.
  eexists. split; [reflexivity |].
  apply (proj1 (proj2 (proj2 confidence_in_unit_interval))
           (orEmptyArray (UserData.repositories sampleUser))).
  reflexivity.
Defined.

(** ** Score calculators *)

Section ScoreRange.

Variable rnd : nat -> Q.
Hypothesis rnd_range : forall k, (0 <= rnd k < 1)%Q.
Variable now : Z.
Variable tzOffset : Z -> Z.
Variables js_sqrt js_log10 : Q -> Q.

(** A placeholder [Math.random() * a + b] lies in [b, a + b]. *)
Lemma placeholder_within (a b lo hi : Q) (k : nat) :
  (0 <= a)%Q -> (lo <= b)%Q -> (a + b <= hi)%Q ->
  scoreWithin lo hi (bind (random rnd) (fun r => ret (r * a + b)%Q)) k.
Proof.
  intros Ha Hlo Hhi. exists (rnd k * a + b)%Q, (S k).
  split; [reflexivity |].
  pose proof (rnd_range k) as [H0 H1].
  assert (0 <= rnd k * a)%Q by (apply Qmult_le_0_compat; assumption).
  assert (rnd k * a <= 1 * a)%Q by (apply Qmult_le_compat_r; lra).
  lra.
Qed.

Lemma clamped_within (score : Q) (k : nat) :
  scoreWithin 1 10 (ret (Qmin 10 (Qmax 1 score))) k.
Proof.
  exists (Qmin 10 (Qmax 1 score)), k. split; [reflexivity | apply clamp_1_10].
Qed.

Lemma calculateInnovationScore_within (repos : list Repo.t) (k : nat) :
  scoreWithin 1 10 (calculateInnovationScore rnd now repos) k.
Proof.
  unfold calculateInnovationScore.
  destruct (length repos =? 0)%nat.
  - apply placeholder_within; lra.
  - apply clamped_within.
Qed.

Lemma calculateCollaborationScore_within (events : list Event.t) (k : nat) :
  scoreWithin 1 10 (calculateCollaborationScore rnd events) k.
Proof.
  unfold calculateCollaborationScore.
  destruct (length events =? 0)%nat.
  - apply placeholder_within; lra.
  - apply clamped_within.
Qed.

(** The guarded mean [xs.length ? xs.reduce((a, b) => a + b) / xs.length : 0]
    never reaches the reduction of an empty array. *)
Lemma guarded_mean_returns (xs : list Z) (k : nat) :
  exists mean,
    (if (0 <? length xs)%nat
     then bind (lift (reduceSum xs)) (fun s => ret (Zq s / Nq (length xs))%Q)
     else ret 0%Q) k = Ok (mean, k).
Proof.
  destruct xs as [| x rest]; simpl; eexists; reflexivity.
Qed.

Lemma calculateConsistencyScore_within (events : list Event.t) (k : nat) :
  scoreWithin 1 10 (calculateConsistencyScore rnd tzOffset js_sqrt events) k.
Proof.
  unfold calculateConsistencyScore.
  destruct (length events <? 5)%nat; [apply placeholder_within; lra |].
  cbv zeta.
  destruct (length (map fst (groupEventsByDay tzOffset events)) <? 7)%nat;
    [apply placeholder_within; lra |].
  match goal with
  | |- scoreWithin _ _ (bind (if (0 <? length ?wd)%nat then _ else _)
                          (fun _ => bind (if (0 <? length ?we)%nat then _ else _) _)) _ =>
      destruct (guarded_mean_returns wd k) as [weekdayMean Hwd];
      destruct (guarded_mean_returns we k) as [weekendMean Hwe]
  end.
  unfold scoreWithin, yields, bind at 1. rewrite Hwd.
  unfold bind at 1. rewrite Hwe.
  eexists; eexists. split; [reflexivity | apply clamp_1_10].
Qed.

Lemma calculateExplorationScore_within (repos : list Repo.t) (k : nat) :
  scoreWithin 1 10 (calculateExplorationScore rnd repos) k.
Proof.
  unfold calculateExplorationScore.
  destruct (length repos =? 0)%nat.
  - apply placeholder_within; lra.
  - apply clamped_within.
Qed.

Lemma calculateLeadershipScore_within (repos : list Repo.t) (events : list Event.t)
  (k : nat) :
  scoreWithin 1 10 (calculateLeadershipScore rnd js_log10 repos events) k.
Proof.
  unfold calculateLeadershipScore.
  destruct ((length repos =? 0)%nat && (length events =? 0)%nat).
  - apply placeholder_within; lra.
  - apply clamped_within.
Qed.

(** C3: each of the five score calculators returns, for every input and
    every value of [Math.random()] in [0,1), a score in [1,10]. *)
Theorem score_calculators_within_1_10
  (repos : list Repo.t) (events : list Event.t) (k : nat) :
  scoreWithin 1 10 (calculateInnovationScore rnd now repos) k
  /\ scoreWithin 1 10 (calculateCollaborationScore rnd events) k
  /\ scoreWithin 1 10 (calculateConsistencyScore rnd tzOffset js_sqrt events) k
  /\ scoreWithin 1 10 (calculateExplorationScore rnd repos) k
  /\ scoreWithin 1 10 (calculateLeadershipScore rnd js_log10 repos events) k.
Proof.
  split; [apply calculateInnovationScore_within |].
  split; [apply calculateCollaborationScore_within |].
  split; [apply calculateConsistencyScore_within |].
  split; [apply calculateExplorationScore_within |].
  apply calculateLeadershipScore_within.
Qed.

End ScoreRange.

Lemma sampleRnd_range : forall k, (0 <= sampleRnd k < 1)%Q.
Proof. intros k. unfold sampleRnd. split; [discriminate | reflexivity]. Defined.

(** The calculators on the empty arrays (the placeholder branches) and on
    the sample user (the weighted sums). *)
Lemma score_calculators_within_1_10_witness :
  (scoreWithin 1 10 (calculateInnovationScore sampleRnd sampleNow []) 0
   /\ scoreWithin 1 10 (calculateCollaborationScore sampleRnd []) 0
   /\ scoreWithin 1 10 (calculateConsistencyScore sampleRnd utc sqrtApprox []) 0
   /\ scoreWithin 1 10 (calculateExplorationScore sampleRnd []) 0
   /\ scoreWithin 1 10 (calculateLeadershipScore sampleRnd log10Approx [] []) 0)
  /\ (scoreWithin 1 10
        (calculateInnovationScore sampleRnd sampleNow
           (orEmptyArray (UserData.repositories sampleUser))) 0
      /\ scoreWithin 1 10
           (calculateCollaborationScore sampleRnd
              (orEmptyArray (UserData.events sampleUser))) 0
      /\ scoreWithin 1 10
           (calculateConsistencyScore sampleRnd utc sqrtApprox
              (orEmptyArray (UserData.events sampleUser))) 0
      /\ scoreWithin 1 10
           (calculateExplorationScore sampleRnd
              (orEmptyArray (UserData.repositories sampleUser))) 0
      /\ scoreWithin 1 10
           (calculateLeadershipScore sampleRnd log10Approx
              (orEmptyArray (UserData.repositories sampleUser))
              (orEmptyArray (UserData.events sampleUser))) 0).
Proof.
  split.
  - exact (score_calculators_within_1_10 sampleRnd sampleRnd_range sampleNow utc
             sqrtApprox log10Approx [] [] 0%nat).
  - exact (score_calculators_within_1_10 sampleRnd sampleRnd_range sampleNow utc
             sqrtApprox log10Approx
             (orEmptyArray (UserData.repositories sampleUser))
             (orEmptyArray (UserData.events sampleUser)) 0%nat).
Defined.

(** ** Determinism *)

Lemma drawFree_ret {A : Type} (a : A) : drawFree (fun _ => ret a).
Proof. exists (Ok a). reflexivity. Qed.

Lemma drawFree_lift {A : Type} (o : outcome A) : drawFree (fun _ => lift o).
Proof. exists o. reflexivity. Qed.

Lemma drawFree_bind {A B : Type} (f : (nat -> Q) -> M A)
  (g : A -> (nat -> Q) -> M B) :
  drawFree f -> (forall a, drawFree (g a)) ->
  drawFree (fun rnd => bind (f rnd) (fun a => g a rnd)).
Proof.
  intros [o Ho] Hg. destruct o as [a | e].
  - destruct (Hg a) as [o' Ho']. exists o'. intros rnd k.
    unfold bind. rewrite Ho. simpl. apply Ho'.
  - exists (Throw e). intros rnd k. unfold bind. rewrite Ho. reflexivity.
Qed.

Lemma drawFree_if {A : Type} (c : bool) (f g : (nat -> Q) -> M A) :
  drawFree f -> drawFree g -> drawFree (fun rnd => if c then f rnd else g rnd).
Proof. intros Hf Hg. destruct c; assumption. Qed.

Section DrawFree.

Variable now : Z.
Variable tzOffset : Z -> Z.
Variables js_sqrt js_log10 : Q -> Q.

Lemma calculateInnovationScore_drawFree (repos : list Repo.t) :
  (length repos =? 0)%nat = false ->
  drawFree (fun rnd => calculateInnovationScore rnd now repos).
Proof.
  intros Hrepos. unfold calculateInnovationScore. rewrite Hrepos. apply drawFree_ret.
Qed.

Lemma calculateCollaborationScore_drawFree (events : list Event.t) :
  (length events =? 0)%nat = false ->
  drawFree (fun rnd => calculateCollaborationScore rnd events).
Proof.
  intros Hevents. unfold calculateCollaborationScore. rewrite Hevents.
  apply drawFree_ret.
Qed.

Lemma calculateConsistencyScore_drawFree (events : list Event.t) :
  (length events <? 5)%nat = false ->
  (length (groupEventsByDay tzOffset events) <? 7)%nat = false ->
  drawFree (fun rnd => calculateConsistencyScore rnd tzOffset js_sqrt events).
Proof.
  intros Hevents Hdays. unfold calculateConsistencyScore.
  rewrite Hevents. cbv zeta. rewrite length_map, Hdays.
  apply drawFree_bind;
    [apply drawFree_if;
     [apply drawFree_bind; [apply drawFree_lift | intros; apply drawFree_ret]
     | apply drawFree_ret] |].
  intros weekdayMean.
  apply drawFree_bind;
    [apply drawFree_if;
     [apply drawFree_bind; [apply drawFree_lift | intros; apply drawFree_ret]
     | apply drawFree_ret] |].
  intros weekendMean. apply drawFree_ret.
Qed.

Lemma calculateExplorationScore_drawFree (repos : list Repo.t) :
  (length repos =? 0)%nat = false ->
  drawFree (fun rnd => calculateExplorationScore rnd repos).
Proof.
  intros Hrepos. unfold calculateExplorationScore. rewrite Hrepos. apply drawFree_ret.
Qed.

Lemma calculateLeadershipScore_drawFree (repos : list Repo.t)
  (events : list Event.t) :
  (length repos =? 0)%nat = false ->
  drawFree (fun rnd => calculateLeadershipScore rnd js_log10 repos events).
Proof.
  intros Hrepos. unfold calculateLeadershipScore. rewrite Hrepos. apply drawFree_ret.
Qed.

Lemma assessBurnoutRisk_drawFree (events : list Event.t) (weeklyPattern : list Z) :
  (length events <? 20)%nat = false ->
  drawFree (fun rnd => assessBurnoutRisk rnd tzOffset events weeklyPattern).
Proof.
  intros Hevents. unfold assessBurnoutRisk. rewrite Hevents. cbv zeta.
  match goal with
  | |- context [match ?p with (_, _) => _ end] => destruct p as [[level advice] recs]
  end.
  apply drawFree_ret.
Qed.

Lemma sufficientData_guards (userData : UserData.t) :
  sufficientData tzOffset userData = true ->
  let repos := orEmptyArray (UserData.repositories userData) in
  let events := orEmptyArray (UserData.events userData) in
  (length repos =? 0)%nat = false
  /\ (length events =? 0)%nat = false
  /\ (length events <? 5)%nat = false
  /\ (length events <? 20)%nat = false
  /\ (length (groupEventsByDay tzOffset events) <? 7)%nat = false.
Proof.
  unfold sufficientData. cbv zeta. intros H.
  apply andb_true_iff in H. destruct H as [H Hdays].
  apply andb_true_iff in H. destruct H as [Hrepos Hevents].
  apply negb_true_iff in Hrepos.
  apply Nat.leb_le in Hevents. apply Nat.leb_le in Hdays.
  repeat split; try assumption.
  - apply Nat.eqb_neq. lia.
  - apply Nat.ltb_ge. lia.
  - apply Nat.ltb_ge. lia.
  - apply Nat.ltb_ge. lia.
Qed.

Lemma generateInsights_drawFree (userData : UserData.t) :
  sufficientData tzOffset userData = true ->
  drawFree (fun rnd => generateInsights rnd now tzOffset js_sqrt js_log10 userData).
Proof.
  intros Hdata.
  destruct (sufficientData_guards userData Hdata)
    as (Hrepos & Hevents & Hfive & Htwenty & Hdays).
  unfold generateInsights.
  apply drawFree_bind.
  { unfold analyzePersonalityProfile. cbv zeta.
    apply drawFree_bind; [now apply calculateInnovationScore_drawFree |]. intros ?.
    apply drawFree_bind; [now apply calculateCollaborationScore_drawFree |]. intros ?.
    apply drawFree_bind; [now apply calculateConsistencyScore_drawFree |]. intros ?.
    apply drawFree_bind; [now apply calculateExplorationScore_drawFree |]. intros ?.
    apply drawFree_bind; [now apply calculateLeadershipScore_drawFree |]. intros ?.
    apply drawFree_ret. }
  intros personalityProfile.
  apply drawFree_bind.
  { unfold analyzeWorkPatterns. cbv zeta.
    apply drawFree_bind; [now apply assessBurnoutRisk_drawFree |]. intros ?.
    apply drawFree_ret. }
  intros workPatterns. cbv zeta.
  apply drawFree_bind; [apply drawFree_lift |].
  intros predictions.
  apply drawFree_bind.
  { unfold analyzeRisks. cbv zeta.
    apply drawFree_bind; [now apply assessBurnoutRisk_drawFree |]. intros ?.
    apply drawFree_ret. }
  intros riskAnalysis. apply drawFree_ret.
Qed.

End DrawFree.

(** C5: on an input large enough that no placeholder branch is taken (at
    least one repository and at least 20 events on at least 7 days), two
    runs at the same evaluation time give the same result, whatever
    [Math.random()] would have returned, and neither run draws: classification
    strings, recommendation titles and every other field agree. *)
Theorem generateInsights_deterministic_on_sufficient_data
  (rnd1 rnd2 : nat -> Q) (now : Z) (tzOffset : Z -> Z) (js_sqrt js_log10 : Q -> Q)
  (userData : UserData.t) (k : nat) :
  sufficientData tzOffset userData = true ->
  generateInsights rnd1 now tzOffset js_sqrt js_log10 userData k
  = generateInsights rnd2 now tzOffset js_sqrt js_log10 userData k
  /\ (forall insights k',
         generateInsights rnd1 now tzOffset js_sqrt js_log10 userData k
         = Ok (insights, k') -> k' = k).
Proof.
  intros Hdata.
  destruct (generateInsights_drawFree now tzOffset js_sqrt js_log10 userData Hdata)
    as [o Ho].
  split.
  - rewrite (Ho rnd1 k), (Ho rnd2 k). reflexivity.
  - intros insights k' Hrun. rewrite (Ho rnd1 k) in Hrun.
    destruct o as [a | e]; simpl in Hrun; [| discriminate].
    injection Hrun as _ Hk. symmetry. exact Hk.
Qed.

Lemma generateInsights_deterministic_on_sufficient_data_witness :
  generateInsights sampleRnd sampleNow utc sqrtApprox log10Approx sampleUser 0%nat
  = generateInsights (fun _ => 0%Q) sampleNow utc sqrtApprox log10Approx sampleUser 0%nat
  /\ (forall insights k',
         generateInsights sampleRnd sampleNow utc sqrtApprox log10Approx sampleUser 0%nat
         = Ok (insights, k') -> k' = 0%nat).
Proof.
  apply (generateInsights_deterministic_on_sufficient_data sampleRnd (fun _ => 0%Q)
           sampleNow utc sqrtApprox log10Approx sampleUser 0%nat).
  vm_compute. reflexivity.
Defined.

(** ** Missing fields, empty input and errors *)

Lemma returns_ret {A : Type} (a : A) (k : nat) : returns (ret a) k.
Proof. exists a, k. split; [reflexivity | exact I]. Qed.

Lemma returns_bind {A B : Type} (m : M A) (f : A -> M B) (k : nat) :
  returns m k -> (forall a k', returns (f a) k') -> returns (bind m f) k.
Proof.
  intros (a & k' & Hm & _) Hf. destruct (Hf a k') as (b & k'' & Hb & _).
  exists b, k''. unfold bind. rewrite Hm. split; [exact Hb | exact I].
Qed.

Lemma returns_lift {A : Type} (o : outcome A) (a : A) (k : nat) :
  o = Ok a -> returns (lift o) k.
Proof. intros ->. exists a, k. split; [reflexivity | exact I]. Qed.

Lemma scoreWithin_returns (lo hi : Q) (m : M Q) (k : nat) :
  scoreWithin lo hi m k -> returns m k.
Proof. intros (s & k' & Hm & _). exists s, k'. split; [exact Hm | exact I]. Qed.

Section Returns.

Variable rnd : nat -> Q.
Variable now : Z.
Variable tzOffset : Z -> Z.
Variables js_sqrt js_log10 : Q -> Q.

Lemma placeholder_returns (a b : Q) (k : nat) :
  returns (bind (random rnd) (fun r => ret (r * a + b)%Q)) k.
Proof. exists (rnd k * a + b)%Q, (S k). split; [reflexivity | exact I]. Qed.

Lemma calculateConsistencyScore_returns (events : list Event.t) (k : nat) :
  returns (calculateConsistencyScore rnd tzOffset js_sqrt events) k.
Proof.
  unfold calculateConsistencyScore.
  destruct (length events <? 5)%nat; [apply placeholder_returns |].
  cbv zeta.
  destruct (length (map fst (groupEventsByDay tzOffset events)) <? 7)%nat;
    [apply placeholder_returns |].
  match goal with
  | |- returns (bind (if (0 <? length ?wd)%nat then _ else _)
                  (fun _ => bind (if (0 <? length ?we)%nat then _ else _) _)) _ =>
      destruct (guarded_mean_returns wd k) as [weekdayMean Hwd];
      destruct (guarded_mean_returns we k) as [weekendMean Hwe]
  end.
  unfold returns, yields, bind at 1. rewrite Hwd.
  unfold bind at 1. rewrite Hwe.
  eexists; eexists. split; [reflexivity | exact I].
Qed.

Lemma analyzePersonalityProfile_returns (userData : UserData.t) (k : nat) :
  returns (analyzePersonalityProfile rnd now tzOffset js_sqrt js_log10 userData) k.
Proof.
  unfold analyzePersonalityProfile. cbv zeta.
  apply returns_bind.
  { unfold calculateInnovationScore.
    destruct (_ =? _)%nat; [apply placeholder_returns | apply returns_ret]. }
  intros innovation k1. apply returns_bind.
  { unfold calculateCollaborationScore.
    destruct (_ =? _)%nat; [apply placeholder_returns | apply returns_ret]. }
  intros collaboration k2. apply returns_bind.
  { apply calculateConsistencyScore_returns. }
  intros consistency k3. apply returns_bind.
  { unfold calculateExplorationScore.
    destruct (_ =? _)%nat; [apply placeholder_returns | apply returns_ret]. }
  intros exploration k4. apply returns_bind.
  { unfold calculateLeadershipScore.
    destruct (_ && _); [apply placeholder_returns | apply returns_ret]. }
  intros leadership k5. apply returns_ret.
Qed.

Lemma assessBurnoutRisk_returns (events : list Event.t) (weeklyPattern : list Z)
  (k : nat) :
  returns (assessBurnoutRisk rnd tzOffset events weeklyPattern) k.
Proof.
  unfold assessBurnoutRisk.
  destruct (length events <? 20)%nat.
  - eexists; eexists. split; [reflexivity | exact I].
  - cbv zeta.
    match goal with
    | |- context [match ?p with (_, _) => _ end] => destruct p as [[level advice] recs]
    end.
    apply returns_ret.
Qed.

Lemma generatePredictions_plain (userData : UserData.t) :
  plainRecentLanguages userData = true ->
  exists predictions, generatePredictions userData = Ok predictions.
Proof.
  intros Hplain. unfold generatePredictions. cbv zeta.
  destruct (predictNextTechnology_plain _ Hplain) as [next Hnext].
  rewrite Hnext. simpl. eexists. reflexivity.
Qed.

Lemma generateInsights_returns (userData : UserData.t) (k : nat) :
  plainRecentLanguages userData = true ->
  returns (generateInsights rnd now tzOffset js_sqrt js_log10 userData) k.
Proof.
  intros Hplain. unfold generateInsights.
  apply returns_bind; [apply analyzePersonalityProfile_returns |].
  intros personalityProfile k1.
  apply returns_bind.
  { unfold analyzeWorkPatterns. cbv zeta.
    apply returns_bind; [apply assessBurnoutRisk_returns |].
    intros; apply returns_ret. }
  intros workPatterns k2. cbv zeta.
  destruct (generatePredictions_plain userData Hplain) as [predictions Hp].
  apply returns_bind; [apply (returns_lift _ predictions); exact Hp |].
  intros predictions' k3.
  apply returns_bind.
  { unfold analyzeRisks. cbv zeta.
    apply returns_bind; [apply assessBurnoutRisk_returns |].
    intros; apply returns_ret. }
  intros; apply returns_ret.
Qed.

Lemma generateInsights_defaults (userData : UserData.t) :
  generateInsights rnd now tzOffset js_sqrt js_log10 userData
  = generateInsights rnd now tzOffset js_sqrt js_log10 (withEmptyDefaults userData).
Proof.
  destruct userData as [[repos |] [events |] public_repos followers]; reflexivity.
Qed.

Lemma generateInsights_emptyUser (k : nat) :
  exists insights,
    generateInsights rnd now tzOffset js_sqrt js_log10 emptyUser k
    = Ok (insights, (k + 7)%nat)
    /\ PersonalityProfile.scores (Insights.personalityProfile insights)
       = Scores.mk (rnd k * 3 + 4) (rnd (1 + k)%nat * 3 + 3)
           (rnd (2 + k)%nat * 4 + 3) (rnd (3 + k)%nat * 3 + 4)
           (rnd (4 + k)%nat * 3 + 2)
    /\ WorkPatterns.burnoutRisk (Insights.workPatterns insights)
       = BurnoutRisk.mk "Low" "Build consistent coding habits gradually"
           (rnd (5 + k)%nat * 3 + 1) None
    /\ RiskAnalysis.burnoutRisk (Insights.riskAnalysis insights)
       = BurnoutRisk.mk "Low" "Build consistent coding habits gradually"
           (rnd (6 + k)%nat * 3 + 1) None
    /\ ProjectJuggling.averageEventsPerProject
         (WorkPatterns.multitasking (Insights.workPatterns insights)) = PosInf
    /\ WorkPatterns.peakHours (Insights.workPatterns insights) = seq 0 24
    /\ WorkPatterns.workingStyle (Insights.workPatterns insights)
       = "Getting Started 🌱".
Proof.
  eexists. split.
  - replace (k + 7)%nat with (S (S (S (S (S (S (S k))))))) by lia.
    lazy. reflexivity.
  - repeat split.
Qed.

End Returns.

(** C2, as the code has it: on [{repositories: [], events: []}] the engine
    returns without an error, after seven placeholder draws, a record whose
    five scores are the placeholders and whose two burnout-risk records are
    the low-data ones, with no [recommendations] (every other field is
    there, the average per project being [Infinity]); for every input,
    missing [repositories] and [events] behave as empty arrays; and no
    calculation throws when no language of the first five repositories is
    a property name inherited from [Object.prototype]. *)
Theorem generateInsights_defaults_and_empty_input
  (rnd : nat -> Q) (now : Z) (tzOffset : Z -> Z) (js_sqrt js_log10 : Q -> Q) :
  (forall k,
      exists insights,
        generateInsights rnd now tzOffset js_sqrt js_log10 emptyUser k
        = Ok (insights, (k + 7)%nat)
        /\ PersonalityProfile.scores (Insights.personalityProfile insights)
           = Scores.mk (rnd k * 3 + 4) (rnd (1 + k)%nat * 3 + 3)
               (rnd (2 + k)%nat * 4 + 3) (rnd (3 + k)%nat * 3 + 4)
               (rnd (4 + k)%nat * 3 + 2)
        /\ WorkPatterns.burnoutRisk (Insights.workPatterns insights)
           = BurnoutRisk.mk "Low" "Build consistent coding habits gradually"
               (rnd (5 + k)%nat * 3 + 1) None
        /\ RiskAnalysis.burnoutRisk (Insights.riskAnalysis insights)
           = BurnoutRisk.mk "Low" "Build consistent coding habits gradually"
               (rnd (6 + k)%nat * 3 + 1) None
        /\ ProjectJuggling.averageEventsPerProject
             (WorkPatterns.multitasking (Insights.workPatterns insights)) = PosInf
        /\ WorkPatterns.peakHours (Insights.workPatterns insights) = seq 0 24
        /\ WorkPatterns.workingStyle (Insights.workPatterns insights)
           = "Getting Started 🌱")
  /\ (forall userData,
         generateInsights rnd now tzOffset js_sqrt js_log10 userData
         = generateInsights rnd now tzOffset js_sqrt js_log10
             (withEmptyDefaults userData))
  /\ (forall userData k,
         plainRecentLanguages userData = true ->
         exists insights k',
           generateInsights rnd now tzOffset js_sqrt js_log10 userData k
           = Ok (insights, k')).
Proof.
  split; [| split].
  - intros k. apply generateInsights_emptyUser.
  - apply generateInsights_defaults.
  - intros userData k Hplain.
    destruct (generateInsights_returns rnd now tzOffset js_sqrt js_log10
                userData k Hplain) as (insights & k' & Hrun & _).
    exists insights, k'. exact Hrun.
Qed.

(** The third part at the sample user and at a record with neither field. *)
Lemma generateInsights_defaults_and_empty_input_witness :
  (exists insights k',
      generateInsights sampleRnd sampleNow utc sqrtApprox log10Approx sampleUser 0%nat
      = Ok (insights, k'))
  /\ (exists insights k',
         generateInsights sampleRnd sampleNow utc sqrtApprox log10Approx
           (UserData.mk None None None None) 0%nat
         = Ok (insights, k')).
Proof.
  split.
  - apply (proj2 (proj2 (generateInsights_defaults_and_empty_input sampleRnd sampleNow
                           utc sqrtApprox log10Approx))).
    reflexivity.
  - apply (proj2 (proj2 (generateInsights_defaults_and_empty_input sampleRnd sampleNow
                           utc sqrtApprox log10Approx))).
    reflexivity.
Defined.

(** On the empty input the record is not complete: the burnout-risk
    records have no [recommendations]. *)
Lemma generateInsights_empty_input_incomplete :
  exists insights k',
    generateInsights sampleRnd sampleNow utc sqrtApprox log10Approx emptyUser 0%nat
    = Ok (insights, k')
    /\ everyFieldPresent insights = false.
Proof.
  eexists; eexists. split; [vm_compute; reflexivity | reflexivity].
Qed.

(** A repository whose language is a name inherited from [Object.prototype]
    makes [predictNextTechnology], and with it the engine, throw. *)
Lemma generateInsights_inherited_language_throws
  (rnd : nat -> Q) (now : Z) (tzOffset : Z -> Z) (js_sqrt js_log10 : Q -> Q)
  (k : nat) :
  plainRecentLanguages inheritedLanguageUser = false
  /\ generateInsights rnd now tzOffset js_sqrt js_log10 inheritedLanguageUser k
     = Throw "TypeError: Cannot read properties of undefined (reading 'filter')".
Proof.
  split; [reflexivity |]. lazy. reflexivity.
Qed.

(** ** Classification strings under any two streams *)

Lemma agree_bind {A B : Type} (R : A -> A -> Prop) (S : B -> B -> Prop)
  (m1 m2 : M A) (f1 f2 : A -> M B) :
  agree R m1 m2 ->
  (forall a1 a2, R a1 a2 -> agree S (f1 a1) (f2 a2)) ->
  agree S (bind m1 f1) (bind m2 f2).
Proof.
  intros Hm Hf k1 k2. unfold bind. specialize (Hm k1 k2).
  destruct (m1 k1) as [[a1 k1'] | e1], (m2 k2) as [[a2 k2'] | e2];
    try contradiction.
  - apply Hf. exact Hm.
  - exact Hm.
Qed.

Lemma agree_ret {A : Type} (R : A -> A -> Prop) (a1 a2 : A) :
  R a1 a2 -> agree R (ret a1) (ret a2).
Proof. intros H k1 k2. exact H. Qed.

Lemma agree_lift {A : Type} (o : outcome A) : agree eq (lift o) (lift o).
Proof. intros k1 k2. destruct o; reflexivity. Qed.

(** A computation that makes no draw agrees with itself under any two
    streams. *)
Lemma drawFree_agree {A : Type} (R : A -> A -> Prop) (f : (nat -> Q) -> M A)
  (rnd1 rnd2 : nat -> Q) :
  (forall a, R a a) -> drawFree f -> agree R (f rnd1) (f rnd2).
Proof.
  intros Hrefl [o Ho] k1 k2. rewrite (Ho rnd1 k1), (Ho rnd2 k2).
  destruct o; simpl; [apply Hrefl | reflexivity].
Qed.

Lemma sameSide_refl (s : Q) : sameSide s s.
Proof. left. reflexivity. Qed.

Lemma sameSide_thresholds (s1 s2 : Q) :
  sameSide s1 s2 ->
  Qgtb s1 7 = Qgtb s2 7 /\ Qgtb s1 8 = Qgtb s2 8.
Proof.
  intros [-> | [H1 H2]]; [split; reflexivity |].
  assert (Hfalse : forall s, (s <= 7)%Q -> Qgtb s 7 = false /\ Qgtb s 8 = false).
  { intros s Hs. split; apply Qgtb_false_iff; lra. }
  destruct (Hfalse s1 H1) as [-> ->]. destruct (Hfalse s2 H2) as [-> ->].
  split; reflexivity.
Qed.

Section Classification.

Variables rnd1 rnd2 : nat -> Q.
Hypothesis rnd1_range : forall k, (0 <= rnd1 k < 1)%Q.
Hypothesis rnd2_range : forall k, (0 <= rnd2 k < 1)%Q.
Variable now : Z.
Variable tzOffset : Z -> Z.
Variables js_sqrt js_log10 : Q -> Q.

(** Two placeholders [Math.random() * a + b] with [a + b <= 7] are on the
    same side of the thresholds 7 and 8. *)
Lemma agree_placeholder (a b : Q) :
  (0 <= a)%Q -> (a + b <= 7)%Q ->
  agree sameSide
    (bind (random rnd1) (fun r => ret (r * a + b)%Q))
    (bind (random rnd2) (fun r => ret (r * a + b)%Q)).
Proof.
  intros Ha Hab k1 k2. right.
  pose proof (rnd1_range k1) as [_ H1]. pose proof (rnd2_range k2) as [_ H2].
  assert (rnd1 k1 * a <= 1 * a)%Q by (apply Qmult_le_compat_r; lra).
  assert (rnd2 k2 * a <= 1 * a)%Q by (apply Qmult_le_compat_r; lra).
  split; lra.
Qed.

Lemma calculateInnovationScore_agrees (repos : list Repo.t) :
  agree sameSide (calculateInnovationScore rnd1 now repos)
    (calculateInnovationScore rnd2 now repos).
Proof.
  destruct (length repos =? 0)%nat eqn:Hrepos.
  - unfold calculateInnovationScore. rewrite Hrepos. apply agree_placeholder; lra.
  - apply (drawFree_agree sameSide (fun rnd => calculateInnovationScore rnd now repos));
      [apply sameSide_refl | now apply calculateInnovationScore_drawFree].
Qed.

Lemma calculateCollaborationScore_agrees (events : list Event.t) :
  agree sameSide (calculateCollaborationScore rnd1 events)
    (calculateCollaborationScore rnd2 events).
Proof.
  destruct (length events =? 0)%nat eqn:Hevents.
  - unfold calculateCollaborationScore. rewrite Hevents.
    apply agree_placeholder; lra.
  - apply (drawFree_agree sameSide (fun rnd => calculateCollaborationScore rnd events));
      [apply sameSide_refl | now apply calculateCollaborationScore_drawFree].
Qed.

Lemma calculateConsistencyScore_agrees (events : list Event.t) :
  agree sameSide (calculateConsistencyScore rnd1 tzOffset js_sqrt events)
    (calculateConsistencyScore rnd2 tzOffset js_sqrt events).
Proof.
  destruct (length events <? 5)%nat eqn:Hfive.
  { unfold calculateConsistencyScore. rewrite Hfive. apply agree_placeholder; lra. }
  destruct (length (groupEventsByDay tzOffset events) <? 7)%nat eqn:Hdays.
  { unfold calculateConsistencyScore. rewrite Hfive. cbv zeta.
    rewrite length_map, Hdays. apply agree_placeholder; lra. }
  apply (drawFree_agree sameSide
           (fun rnd => calculateConsistencyScore rnd tzOffset js_sqrt events));
    [apply sameSide_refl | now apply calculateConsistencyScore_drawFree].
Qed.

Lemma calculateExplorationScore_agrees (repos : list Repo.t) :
  agree sameSide (calculateExplorationScore rnd1 repos)
    (calculateExplorationScore rnd2 repos).
Proof.
  destruct (length repos =? 0)%nat eqn:Hrepos.
  - unfold calculateExplorationScore. rewrite Hrepos. apply agree_placeholder; lra.
  - apply (drawFree_agree sameSide (fun rnd => calculateExplorationScore rnd repos));
      [apply sameSide_refl | now apply calculateExplorationScore_drawFree].
Qed.

Lemma calculateLeadershipScore_agrees (repos : list Repo.t) (events : list Event.t) :
  agree (fun _ _ => True) (calculateLeadershipScore rnd1 js_log10 repos events)
    (calculateLeadershipScore rnd2 js_log10 repos events).
Proof.
  intros k1 k2. unfold calculateLeadershipScore.
  destruct (_ && _); exact I.
Qed.

Lemma analyzePersonalityProfile_agrees (userData : UserData.t) :
  agree (fun p1 p2 => PersonalityProfile.type p1 = PersonalityProfile.type p2)
    (analyzePersonalityProfile rnd1 now tzOffset js_sqrt js_log10 userData)
    (analyzePersonalityProfile rnd2 now tzOffset js_sqrt js_log10 userData).
Proof.
  unfold analyzePersonalityProfile. cbv zeta.
  eapply agree_bind; [apply calculateInnovationScore_agrees |].
  intros i1 i2 Hi.
  eapply agree_bind; [apply calculateCollaborationScore_agrees |].
  intros c1 c2 Hc.
  eapply agree_bind; [apply calculateConsistencyScore_agrees |].
  intros s1 s2 Hs.
  eapply agree_bind; [apply calculateExplorationScore_agrees |].
  intros e1 e2 He.
  eapply agree_bind; [apply calculateLeadershipScore_agrees |].
  intros l1 l2 _.
  apply agree_ret. cbn [PersonalityProfile.type].
  unfold determinePersonalityType.
  cbn [Scores.innovation Scores.collaboration Scores.consistency Scores.exploration].
  destruct (sameSide_thresholds _ _ Hi) as [-> _].
  destruct (sameSide_thresholds _ _ Hc) as [-> _].
  destruct (sameSide_thresholds _ _ Hs) as [-> ->].
  destruct (sameSide_thresholds _ _ He) as [-> ->].
  reflexivity.
Qed.

Lemma assessBurnoutRisk_agrees (events : list Event.t) (weeklyPattern : list Z) :
  agree (fun b1 b2 => BurnoutRisk.level b1 = BurnoutRisk.level b2)
    (assessBurnoutRisk rnd1 tzOffset events weeklyPattern)
    (assessBurnoutRisk rnd2 tzOffset events weeklyPattern).
Proof.
  destruct (length events <? 20)%nat eqn:Htwenty.
  - intros k1 k2. unfold assessBurnoutRisk. rewrite Htwenty. reflexivity.
  - apply (drawFree_agree _
             (fun rnd => assessBurnoutRisk rnd tzOffset events weeklyPattern));
      [reflexivity | now apply assessBurnoutRisk_drawFree].
Qed.

Lemma generateInsights_agrees (userData : UserData.t) :
  agree (fun i1 i2 => classification i1 = classification i2)
    (generateInsights rnd1 now tzOffset js_sqrt js_log10 userData)
    (generateInsights rnd2 now tzOffset js_sqrt js_log10 userData).
Proof.
  unfold generateInsights.
  eapply agree_bind; [apply analyzePersonalityProfile_agrees |].
  intros p1 p2 Hp.
  eapply agree_bind.
  { unfold analyzeWorkPatterns. cbv zeta.
    eapply agree_bind; [apply assessBurnoutRisk_agrees |].
    intros b1 b2 Hb. apply (agree_ret
      (fun w1 w2 => WorkPatterns.workingStyle w1 = WorkPatterns.workingStyle w2
                    /\ BurnoutRisk.level (WorkPatterns.burnoutRisk w1)
                       = BurnoutRisk.level (WorkPatterns.burnoutRisk w2))).
    split; [reflexivity | exact Hb]. }
  intros w1 w2 [Hstyle Hlevel]. cbv zeta.
  eapply agree_bind; [apply agree_lift |].
  intros predictions ? <-.
  eapply agree_bind.
  { unfold analyzeRisks. cbv zeta.
    eapply agree_bind; [apply assessBurnoutRisk_agrees |].
    intros b1 b2 Hb. apply (agree_ret
      (fun r1 r2 => BurnoutRisk.level (RiskAnalysis.burnoutRisk r1)
                    = BurnoutRisk.level (RiskAnalysis.burnoutRisk r2))).
    exact Hb. }
  intros r1 r2 Hrisk.
  apply agree_ret. unfold classification. cbn.
  rewrite Hp, Hstyle, Hlevel, Hrisk. reflexivity.
Qed.

(** Two runs on the same input at the same evaluation time return the same
    classification strings (personality type, working style, burnout
    levels, trend labels) and the same recommendation titles, or throw the
    same error, whatever the two runs draw from [Math.random()]: for every
    input, not only for those that take no placeholder branch. *)
Theorem generateInsights_classification_agrees (userData : UserData.t)
  (k1 k2 : nat) :
  omap (fun r => classification (fst r))
    (generateInsights rnd1 now tzOffset js_sqrt js_log10 userData k1)
  = omap (fun r => classification (fst r))
      (generateInsights rnd2 now tzOffset js_sqrt js_log10 userData k2).
Proof.
  pose proof (generateInsights_agrees userData k1 k2) as H.
  destruct (generateInsights rnd1 now tzOffset js_sqrt js_log10 userData k1)
    as [[i1 k1'] | e1],
    (generateInsights rnd2 now tzOffset js_sqrt js_log10 userData k2)
    as [[i2 k2'] | e2]; try contradiction; simpl; congruence.
Qed.

End Classification.

(** The empty input under two different streams: the scores differ, the
    classification does not. *)
Lemma generateInsights_classification_agrees_witness :
  omap (fun r => classification (fst r))
    (generateInsights sampleRnd sampleNow utc sqrtApprox log10Approx emptyUser 0%nat)
  = omap (fun r => classification (fst r))
      (generateInsights (fun _ => 0%Q) sampleNow utc sqrtApprox log10Approx
         emptyUser 0%nat).
Proof.
  apply (generateInsights_classification_agrees sampleRnd (fun _ => 0%Q)
           sampleRnd_range).
  intros k. split; [discriminate | reflexivity].
Defined.

(** ** Size of the recommendation list *)

(** At most eight recommendations are returned. *)
Theorem generateRecommendations_at_most_eight (userData : UserData.t) :
  (length (generateRecommendations userData) <= 8)%nat.
Proof.
  unfold generateRecommendations. cbv zeta. rewrite length_slice. lia.
Qed.


(** ** The demonstration user *)

(** The engine on the demonstration user of app.js, in UTC: two placeholder
    draws (the two burnout-risk records), and the classification and titles
    below. *)
Example generateInsights_demoUser :
  omap (fun r => (classification (fst r), snd r))
    (generateInsights sampleRnd sampleNow utc sqrtApprox log10Approx demoUser 0%nat)
  = Ok (([ "Innovator 🚀"; "Afternoon Focused 📈"; "Low"; "Low";
           "Slightly Decreasing 📉"; "Increasing Collaboration 🤝" ],
         [ "Learn React or Vue.js"; "Explore FastAPI"; "Try Go Programming";
           "Cloud Architecture"; "Technical Leadership";
           "Repository Organization"; "Code Review Practices";
           "Technical Leadership Role" ]),
        2%nat).
Proof. vm_compute. reflexivity. Qed.

Example calculateScores_demoUser :
  omap (fun r => Qeqb (fst r) 7.5)
    (calculateInnovationScore sampleRnd sampleNow
       (orEmptyArray (UserData.repositories demoUser)) 0%nat) = Ok true
  /\ omap (fun r => Qeqb (fst r) 7.5)
       (calculateCollaborationScore sampleRnd
          (orEmptyArray (UserData.events demoUser)) 0%nat) = Ok true
  /\ omap (fun r => Qeqb (fst r) 8.3)
       (calculateExplorationScore sampleRnd
          (orEmptyArray (UserData.repositories demoUser)) 0%nat) = Ok true
  /\ identifyPeakHours
       (analyzeTimeDistribution utc (orEmptyArray (UserData.events demoUser)))
     = [8; 9; 10; 11; 13; 14; 15; 16; 17; 20]%nat.
Proof.
  split; [| split; [| split]]; vm_compute; reflexivity.
Qed.

(** * Further properties

    Properties of the remaining methods and of the callers. *)

(** ** Hourly and weekly distribution *)

Lemma fold_left_Zadd (xs : list Z) (a : Z) :
  fold_left Z.add xs a = (a + sumZ xs)%Z.
Proof.
  unfold sumZ. revert a. induction xs as [| x xs IH]; intros a; simpl.
  - lia.
  - rewrite IH, (IH x). lia.
Qed.

Lemma sumZ_cons (x : Z) (xs : list Z) : sumZ (x :: xs) = (x + sumZ xs)%Z.
Proof. unfold sumZ at 1. simpl. apply fold_left_Zadd. Qed.

Lemma sumZ_app (xs ys : list Z) : sumZ (xs ++ ys) = (sumZ xs + sumZ ys)%Z.
Proof.
  induction xs as [| x xs IH]; [reflexivity |].
  simpl. rewrite !sumZ_cons, IH. lia.
Qed.

Lemma length_increment (i : nat) (xs : list Z) :
  length (increment i xs) = length xs.
Proof.
  revert i. induction xs as [| x xs IH]; intros [| i]; simpl; auto.
Qed.

Lemma sumZ_increment (i : nat) (xs : list Z) :
  (i < length xs)%nat -> sumZ (increment i xs) = (sumZ xs + 1)%Z.
Proof.
  revert i. induction xs as [| x xs IH]; intros [| i] Hi; simpl in *; try lia.
  - rewrite !sumZ_cons. lia.
  - rewrite !sumZ_cons, IH by lia. lia.
Qed.

Lemma increment_tally (c : nat -> Z) (i s n : nat) :
  increment i (map c (seq s n))
  = map (fun h => if (h =? s + i)%nat then (c h + 1)%Z else c h) (seq s n).
Proof.
  revert i s. induction n as [| n IH]; intros i s; [destruct i; reflexivity |].
  simpl. destruct i as [| i].
  - rewrite Nat.add_0_r, Nat.eqb_refl. cbn [increment]. f_equal.
    apply map_ext_in. intros h Hh. apply in_seq in Hh.
    destruct (Nat.eqb_spec h s); [lia | reflexivity].
  - destruct (Nat.eqb_spec s (s + S i)); [lia |]. cbn [increment]. f_equal.
    rewrite IH. apply map_ext. intros h.
    replace (S s + i)%nat with (s + S i)%nat by lia. reflexivity.
Qed.

(** A tally by [xs[key]++] over [n] buckets counts, in bucket [h], the
    elements whose key is [h]. *)
Lemma tally_fold {A : Type} (key : A -> option nat) (n : nat) (xs : list A)
  (c : nat -> Z) :
  fold_left (fun acc x => match key x with
                          | Some i => increment i acc
                          | None => acc
                          end) xs (map c (seq 0 n))
  = map (fun h =>
           (c h + Z.of_nat (count (fun x => match key x with
                                            | Some i => (i =? h)%nat
                                            | None => false
                                            end) xs))%Z)
      (seq 0 n).
Proof.
  revert c. induction xs as [| x xs IH]; intros c.
  - simpl. apply map_ext. intros h. unfold count. simpl. lia.
  - simpl. destruct (key x) as [i |] eqn:Hkey.
    + rewrite increment_tally, IH. apply map_ext. intros h.
      unfold count. simpl. rewrite Hkey. rewrite (Nat.eqb_sym h i).
      destruct (i =? h)%nat; simpl; lia.
    + rewrite IH. apply map_ext. intros h. unfold count. simpl. rewrite Hkey.
      reflexivity.
Qed.

Lemma tally_sum {A : Type} (key : A -> option nat) (n : nat) (xs : list A) :
  (forall x i, key x = Some i -> (i < n)%nat) ->
  forall acc, length acc = n ->
  sumZ (fold_left (fun acc x => match key x with
                                | Some i => increment i acc
                                | None => acc
                                end) xs acc)
  = (sumZ acc
     + Z.of_nat (count (fun x => match key x with
                                 | Some _ => true
                                 | None => false
                                 end) xs))%Z.
Proof.
  intros Hkey. induction xs as [| x xs IH]; intros acc Hacc.
  - unfold count. simpl. lia.
  - simpl. unfold count. simpl. destruct (key x) as [i |] eqn:Hx.
    + rewrite IH by (now rewrite length_increment).
      rewrite sumZ_increment by (rewrite Hacc; eapply Hkey; eassumption).
      unfold count. simpl. lia.
    + now rewrite IH.
Qed.

Lemma getHours_below (tzOffset : Z -> Z) (d : jsdate) (h : nat) :
  getHours tzOffset d = Some h -> (h < 24)%nat.
Proof.
  destruct d as [ms |]; [| discriminate]. simpl. intros [= <-].
  pose proof (Z.mod_pos_bound (localMs tzOffset ms / 3600000) 24 ltac:(lia)). lia.
Qed.

Lemma getDay_below (tzOffset : Z -> Z) (d : jsdate) (w : nat) :
  getDay tzOffset d = Some w -> (w < 7)%nat.
Proof.
  destruct d as [ms |]; [| discriminate]. simpl. intros [= <-].
  unfold weekdayOfDayNumber.
  pose proof (Z.mod_pos_bound (localMs tzOffset ms / 86400000 + 4) 7 ltac:(lia)). lia.
Qed.

Lemma analyzeTimeDistribution_buckets (tzOffset : Z -> Z) (events : list Event.t) :
  analyzeTimeDistribution tzOffset events
  = map (fun h => Z.of_nat (count (atHour tzOffset h) events)) (seq 0 24).
Proof.
  unfold analyzeTimeDistribution.
  change (repeat 0%Z 24) with (map (fun _ : nat => 0%Z) (seq 0 24)).
  rewrite (tally_fold (fun e => getHours tzOffset (newDate (Event.created_at e)))).
  apply map_ext. intros h. reflexivity.
Qed.

Lemma analyzeWeeklyPattern_buckets (tzOffset : Z -> Z) (events : list Event.t) :
  analyzeWeeklyPattern tzOffset events
  = map (fun d => Z.of_nat (count (onWeekday tzOffset d) events)) (seq 0 7).
Proof.
  unfold analyzeWeeklyPattern.
  change (repeat 0%Z 7) with (map (fun _ : nat => 0%Z) (seq 0 7)).
  rewrite (tally_fold (fun e => getDay tzOffset (newDate (Event.created_at e)))).
  apply map_ext. intros h. reflexivity.
Qed.

Lemma sumZ_analyzeTimeDistribution (tzOffset : Z -> Z) (events : list Event.t) :
  sumZ (analyzeTimeDistribution tzOffset events) = Z.of_nat (count isDated events).
Proof.
  unfold analyzeTimeDistribution.
  rewrite (tally_sum (fun e => getHours tzOffset (newDate (Event.created_at e))) 24).
  - change (sumZ (repeat 0%Z 24)) with 0%Z. simpl. f_equal. unfold count. f_equal.
    apply filter_ext. intros e. unfold isDated.
    destruct (newDate (Event.created_at e)); reflexivity.
  - intros e i. apply getHours_below.
  - reflexivity.
Qed.

Lemma sumZ_analyzeWeeklyPattern (tzOffset : Z -> Z) (events : list Event.t) :
  sumZ (analyzeWeeklyPattern tzOffset events) = Z.of_nat (count isDated events).
Proof.
  unfold analyzeWeeklyPattern.
  rewrite (tally_sum (fun e => getDay tzOffset (newDate (Event.created_at e))) 7).
  - change (sumZ (repeat 0%Z 7)) with 0%Z. simpl. f_equal. unfold count. f_equal.
    apply filter_ext. intros e. unfold isDated.
    destruct (newDate (Event.created_at e)); reflexivity.
  - intros e i. apply getDay_below.
  - reflexivity.
Qed.

(** The hourly and the weekly distribution are tallies: bucket [h] holds
    the number of events dated in the local hour [h] (on the local weekday
    [h]), so each dated event is counted once in each array and an event
    without a valid date in neither. *)
Theorem analyzeTimeDistribution_tally (tzOffset : Z -> Z) (events : list Event.t) :
  analyzeTimeDistribution tzOffset events
  = map (fun h => Z.of_nat (count (atHour tzOffset h) events)) (seq 0 24)
  /\ analyzeWeeklyPattern tzOffset events
     = map (fun d => Z.of_nat (count (onWeekday tzOffset d) events)) (seq 0 7)
  /\ sumZ (analyzeTimeDistribution tzOffset events) = Z.of_nat (count isDated events)
  /\ sumZ (analyzeWeeklyPattern tzOffset events) = Z.of_nat (count isDated events).
Proof.
  split; [apply analyzeTimeDistribution_buckets |].
  split; [apply analyzeWeeklyPattern_buckets |].
  split; [apply sumZ_analyzeTimeDistribution | apply sumZ_analyzeWeeklyPattern].
Qed.

(** ** Sets and the grouping by day *)

Section NewSetFacts.

Context {A : Type} (eqb : A -> A -> bool).
Hypothesis eqb_eq : forall x y, eqb x y = true <-> x = y.

Lemma inb_In (x : A) (xs : list A) : inb eqb x xs = true <-> In x xs.
Proof.
  unfold inb. rewrite existsb_exists. split.
  - intros (y & Hy & Hxy). apply eqb_eq in Hxy. now subst.
  - intros Hx. exists x. split; [exact Hx | now apply eqb_eq].
Qed.

Lemma inb_false (x : A) (xs : list A) : inb eqb x xs = false <-> ~ In x xs.
Proof. rewrite <- inb_In. destruct (inb eqb x xs); split; congruence. Qed.

Lemma In_newSetFrom (x : A) (seen xs : list A) :
  In x (newSetFrom eqb seen xs) <-> In x xs /\ ~ In x seen.
Proof.
  revert seen. induction xs as [| y xs IH]; intros seen; simpl.
  - tauto.
  - destruct (inb eqb y seen) eqn:Hy.
    + apply inb_In in Hy. rewrite IH. split.
      * tauto.
      * intros [[-> | Hx] Hn]; [contradiction | tauto].
    + apply inb_false in Hy. simpl. rewrite IH. simpl. split.
      * intros [-> | [Hx Hn]]; tauto.
      * intros [[-> | Hx] Hn]; [tauto |].
        destruct (inb eqb x [y]) eqn:Hxy.
        -- apply inb_In in Hxy. destruct Hxy as [-> | []]. tauto.
        -- apply inb_false in Hxy. simpl in Hxy. right. tauto.
Qed.

Lemma In_newSet (x : A) (xs : list A) : In x (newSet eqb xs) <-> In x xs.
Proof. unfold newSet. rewrite In_newSetFrom. simpl. tauto. Qed.

Lemma NoDup_newSetFrom (seen xs : list A) : NoDup (newSetFrom eqb seen xs).
Proof.
  revert seen. induction xs as [| y xs IH]; intros seen; simpl.
  - constructor.
  - destruct (inb eqb y seen); [apply IH |].
    constructor; [| apply IH].
    rewrite In_newSetFrom. simpl. tauto.
Qed.

Lemma NoDup_newSet (xs : list A) : NoDup (newSet eqb xs).
Proof. apply NoDup_newSetFrom. Qed.

Lemma length_newSetFrom (seen xs : list A) :
  (length (newSetFrom eqb seen xs) <= length xs)%nat.
Proof.
  revert seen. induction xs as [| y xs IH]; intros seen; simpl; [lia |].
  destruct (inb eqb y seen); simpl.
  - specialize (IH seen). lia.
  - specialize (IH (y :: seen)). lia.
Qed.

Lemma length_newSet (xs : list A) : (length (newSet eqb xs) <= length xs)%nat.
Proof. apply length_newSetFrom. Qed.

Lemma newSetFrom_snoc (seen xs : list A) (x : A) :
  newSetFrom eqb seen (xs ++ [x])
  = (newSetFrom eqb seen xs
     ++ (if inb eqb x seen || inb eqb x xs then [] else [x]))%list.
Proof.
  revert seen. induction xs as [| y xs IH]; intros seen; simpl.
  - rewrite orb_false_r. destruct (inb eqb x seen); reflexivity.
  - destruct (inb eqb y seen) eqn:Hy.
    + rewrite IH. f_equal.
      destruct (inb eqb x seen) eqn:Hx; [reflexivity |]. simpl.
      destruct (eqb x y) eqn:Hxy; [| reflexivity].
      apply eqb_eq in Hxy. subst. congruence.
    + rewrite IH. simpl. f_equal. f_equal.
      destruct (eqb x y), (inb eqb x seen), (existsb (eqb x) xs); reflexivity.
Qed.

Lemma newSet_snoc (xs : list A) (x : A) :
  newSet eqb (xs ++ [x]) = (newSet eqb xs ++ (if inb eqb x xs then [] else [x]))%list.
Proof. unfold newSet. now rewrite newSetFrom_snoc. Qed.

(** Over distinct keys, the tallies add up to the number of elements that
    have one of the keys. *)
Lemma tallies_of_NoDup (ks xs : list A) :
  NoDup ks ->
  list_sum (map (fun k => count (eqb k) xs) ks) = count (fun x => inb eqb x ks) xs.
Proof.
  intros Hks. induction xs as [| x xs IH].
  - unfold count. simpl. induction ks; simpl; [reflexivity |].
    apply IHks. now inversion Hks.
  - assert (Hstep : forall ks', NoDup ks' ->
              list_sum (map (fun k => count (eqb k) (x :: xs)) ks')
              = ((if inb eqb x ks' then 1 else 0)
                 + list_sum (map (fun k => count (eqb k) xs) ks'))%nat).
    { clear IH Hks. intros ks' Hnd.
      induction Hnd as [| k ks' Hk Hnd IH]; [reflexivity |].
      simpl. rewrite IH. unfold count at 1. simpl.
      destruct (eqb k x) eqn:Hkx.
      - apply eqb_eq in Hkx. subst k.
        assert (eqb x x = true) as -> by now apply eqb_eq.
        apply inb_false in Hk. rewrite Hk. simpl.
        unfold count. lia.
      - assert (eqb x k = false) as ->.
        { destruct (eqb x k) eqn:H; [| reflexivity].
          apply eqb_eq in H. subst. assert (eqb k k = true) by now apply eqb_eq.
          congruence. }
        simpl. unfold count. lia. }
    rewrite Hstep by exact Hks. rewrite IH. unfold count. simpl.
    destruct (inb eqb x ks); simpl; lia.
Qed.

Lemma tallies_of_newSet (xs : list A) :
  list_sum (map (fun k => count (eqb k) xs) (newSet eqb xs)) = length xs.
Proof.
  rewrite tallies_of_NoDup by apply NoDup_newSet.
  unfold count. f_equal.
  rewrite forallb_filter_id; [reflexivity |].
  apply forallb_forall. intros x Hx. apply inb_In. now apply In_newSet.
Qed.

End NewSetFacts.

Lemma dayKeyEqb_eq (a b : option Z) : dayKeyEqb a b = true <-> a = b.
Proof.
  destruct a as [x |], b as [y |]; simpl; try (split; congruence).
  rewrite Z.eqb_eq. split; congruence.
Qed.

Lemma dayKeyEqb_sym (a b : option Z) : dayKeyEqb a b = dayKeyEqb b a.
Proof.
  destruct a as [x |], b as [y |]; simpl; try reflexivity. apply Z.eqb_sym.
Qed.

Lemma pushToGroup_spec (key : option Z) (e : Event.t) (ks : list (option Z))
  (f : option Z -> list Event.t) :
  NoDup ks ->
  pushToGroup key e (map (fun k => (k, f k)) ks)
  = (map (fun k => (k, if dayKeyEqb k key then (f k ++ [e])%list else f k)) ks
     ++ (if inb dayKeyEqb key ks then [] else [(key, [e])]))%list.
Proof.
  intros Hnd. induction Hnd as [| k ks Hk Hnd IH]; [reflexivity |].
  simpl. rewrite (dayKeyEqb_sym key k).
  destruct (dayKeyEqb k key) eqn:Hkk.
  - simpl. rewrite app_nil_r. f_equal.
    apply dayKeyEqb_eq in Hkk. subst k.
    apply map_ext_in. intros k' Hk'.
    destruct (dayKeyEqb k' key) eqn:H; [| reflexivity].
    apply dayKeyEqb_eq in H. subst. contradiction.
  - simpl. rewrite IH. reflexivity.
Qed.

Lemma filter_onDay_absent (tzOffset : Z -> Z) (key : option Z) (events : list Event.t) :
  ~ In key (map (dayOf tzOffset) events) ->
  filter (onDay tzOffset key) events = [].
Proof.
  induction events as [| x xs IH]; [reflexivity |].
  simpl. intros Hin.
  change (onDay tzOffset key x) with (dayKeyEqb key (dayOf tzOffset x)).
  destruct (dayKeyEqb key (dayOf tzOffset x)) eqn:H.
  - apply dayKeyEqb_eq in H. exfalso. apply Hin. left. now symmetry.
  - apply IH. tauto.
Qed.

Lemma groupEventsByDay_groups (tzOffset : Z -> Z) (events : list Event.t) :
  groupEventsByDay tzOffset events
  = map (fun key => (key, filter (onDay tzOffset key) events))
      (newSet dayKeyEqb (map (dayOf tzOffset) events)).
Proof.
  induction events as [| e events IH] using rev_ind; [reflexivity |].
  unfold groupEventsByDay in *. rewrite fold_left_app. simpl. rewrite IH.
  fold (dayOf tzOffset e).
  rewrite (pushToGroup_spec _ _ _ (fun key => filter (onDay tzOffset key) events))
    by apply (NoDup_newSet _ dayKeyEqb_eq).
  rewrite map_app. simpl. rewrite (newSet_snoc _ dayKeyEqb_eq), map_app.
  f_equal.
  - apply map_ext. intros k. rewrite filter_app. simpl.
    change (onDay tzOffset k e) with (dayKeyEqb k (dayOf tzOffset e)).
    destruct (dayKeyEqb k (dayOf tzOffset e)); [reflexivity | now rewrite app_nil_r].
  - destruct (inb dayKeyEqb (dayOf tzOffset e) (map (dayOf tzOffset) events)) eqn:Hin.
    + apply (inb_In _ dayKeyEqb_eq) in Hin.
      apply (In_newSet _ dayKeyEqb_eq) in Hin.
      apply (inb_In _ dayKeyEqb_eq) in Hin. rewrite Hin. reflexivity.
    + assert (Hnew : inb dayKeyEqb (dayOf tzOffset e)
                       (newSet dayKeyEqb (map (dayOf tzOffset) events)) = false).
      { apply (inb_false _ dayKeyEqb_eq). rewrite (In_newSet _ dayKeyEqb_eq).
        now apply (inb_false _ dayKeyEqb_eq). }
      rewrite Hnew. simpl. rewrite filter_app. simpl.
      change (onDay tzOffset (dayOf tzOffset e) e)
        with (dayKeyEqb (dayOf tzOffset e) (dayOf tzOffset e)).
      assert (dayKeyEqb (dayOf tzOffset e) (dayOf tzOffset e) = true) as ->
        by now apply dayKeyEqb_eq.
      rewrite filter_onDay_absent by now apply (inb_false _ dayKeyEqb_eq).
      reflexivity.
Qed.

(** [groupEventsByDay] partitions the events by local calendar day: one
    group for each day that has an event, in the order in which the days
    first occur; the group of a day holds the events of that day, in their
    original order; the events without a valid date form one more group.
    So the keys are distinct, no group is empty and the sizes of the groups
    add up to the number of events. *)
Theorem groupEventsByDay_partition (tzOffset : Z -> Z) (events : list Event.t) :
  groupEventsByDay tzOffset events
  = map (fun key => (key, filter (onDay tzOffset key) events))
      (newSet dayKeyEqb (map (dayOf tzOffset) events))
  /\ NoDup (map fst (groupEventsByDay tzOffset events))
  /\ Forall (fun group => (1 <= length (snd group))%nat)
       (groupEventsByDay tzOffset events)
  /\ list_sum (map (fun group => length (snd group)) (groupEventsByDay tzOffset events))
     = length events.
Proof.
  split; [apply groupEventsByDay_groups |].
  rewrite groupEventsByDay_groups. split; [| split].
  - rewrite map_map. simpl. rewrite map_id. apply (NoDup_newSet _ dayKeyEqb_eq).
  - apply Forall_map. apply Forall_forall. intros key Hkey. simpl.
    apply (proj1 (In_newSet _ dayKeyEqb_eq _ _)) in Hkey. apply in_map_iff in Hkey.
    destruct Hkey as (e & He & Hin).
    assert (Hf : In e (filter (onDay tzOffset key) events)).
    { apply filter_In. split; [exact Hin |]. unfold onDay. apply dayKeyEqb_eq.
      now symmetry. }
    destruct (filter (onDay tzOffset key) events); [contradiction | simpl; lia].
  - rewrite map_map. simpl.
    rewrite <- (length_map (dayOf tzOffset) events).
    rewrite <- (tallies_of_newSet dayKeyEqb dayKeyEqb_eq (map (dayOf tzOffset) events)).
    f_equal. apply map_ext. intros key. unfold count.
    clear. induction events as [| e events IH]; [reflexivity |].
    simpl. change (onDay tzOffset key e) with (dayKeyEqb key (dayOf tzOffset e)).
    destruct (dayKeyEqb key (dayOf tzOffset e)); simpl; congruence.
Qed.

(** ** Peak hours and working style *)

Lemma fold_left_Zmax_spec (xs : list Z) (x : Z) :
  In (fold_left Z.max xs x) (x :: xs)
  /\ Forall (fun y => (y <= fold_left Z.max xs x)%Z) (x :: xs).
Proof.
  revert x. induction xs as [| y xs IH]; intros x.
  - simpl. split; [now left | constructor; [lia | constructor]].
  - simpl fold_left. destruct (IH (Z.max x y)) as [Hin Hall]. split.
    + destruct Hin as [Hin | Hin]; [| right; right; exact Hin].
      rewrite <- Hin.
      destruct (Z.max_spec x y) as [[_ H] | [_ H]]; rewrite H.
      * right. left. reflexivity.
      * left. reflexivity.
    + inversion Hall as [| m ms Hm Hms]; subst.
      constructor; [lia | constructor; [lia | exact Hms]].
Qed.

Lemma In_withIndex (xs : list Z) (s h : nat) (v : Z) :
  In (h, v) (combine (seq s (length xs)) xs)
  <-> (s <= h < s + length xs)%nat /\ nth (h - s) xs 0%Z = v.
Proof.
  revert s. induction xs as [| x xs IH]; intros s; simpl.
  - split; [tauto | lia].
  - rewrite IH. split.
    + intros [[= <- <-] | [Hh Hv]].
      * rewrite Nat.sub_diag. split; [lia | reflexivity].
      * replace (h - s)%nat with (S (h - S s)) by lia. split; [lia | exact Hv].
    + intros [Hh Hv]. destruct (Nat.eq_dec h s) as [-> | Hne].
      * left. rewrite Nat.sub_diag in Hv. now subst.
      * right. replace (h - s)%nat with (S (h - S s)) in Hv by lia.
        split; [lia | exact Hv].
Qed.

(** The peak hours of a non-empty distribution: the indices whose count
    reaches 80% of the largest count. *)
Lemma In_identifyPeakHours (x : Z) (xs : list Z) (h : nat) :
  In h (identifyPeakHours (x :: xs))
  <-> (h < length (x :: xs))%nat
      /\ (Zq (fold_left Z.max xs x) * 0.8 <= Zq (nth h (x :: xs) 0%Z))%Q.
Proof.
  unfold identifyPeakHours, withIndex.
  set (dist := x :: xs). change (MathMaxSpread dist) with (Fin (Zq (fold_left Z.max xs x))).
  rewrite in_map_iff. split.
  - intros ([h' v] & Hfst & Hin). simpl in Hfst. subst h'.
    apply filter_In in Hin. destruct Hin as [Hin Hge].
    apply In_withIndex in Hin. rewrite Nat.sub_0_r in Hin. destruct Hin as [Hh Hv].
    split; [lia |]. subst v. simpl in Hge. unfold Qgeb in Hge.
    now apply Qle_bool_iff in Hge.
  - intros [Hh Hge]. exists (h, nth h dist 0%Z). split; [reflexivity |].
    apply filter_In. split.
    + apply In_withIndex. rewrite Nat.sub_0_r. split; [lia | reflexivity].
    + simpl. unfold Qgeb. now apply Qle_bool_iff.
Qed.

Lemma count_atHour_late (tzOffset : Z -> Z) (events : list Event.t) (h : nat) :
  (24 <= h)%nat -> count (atHour tzOffset h) events = 0%nat.
Proof.
  intros Hh. unfold count. induction events as [| e events IH]; [reflexivity |].
  simpl. unfold atHour at 1.
  destruct (getHours tzOffset (newDate (Event.created_at e))) as [hour |] eqn:Hhour;
    [| exact IH].
  apply getHours_below in Hhour.
  destruct (Nat.eqb_spec hour h); [lia | exact IH].
Qed.

Lemma identifyPeakHours_reached (tzOffset : Z -> Z) (events : list Event.t) :
  exists busiest : nat,
    (busiest < 24)%nat
    /\ (forall h, count (atHour tzOffset h) events
                  <= count (atHour tzOffset busiest) events)%nat
    /\ In busiest (identifyPeakHours (analyzeTimeDistribution tzOffset events))
    /\ forall h,
         In h (identifyPeakHours (analyzeTimeDistribution tzOffset events))
         <-> (h < 24)%nat
             /\ (Nq (count (atHour tzOffset busiest) events) * 0.8
                 <= Nq (count (atHour tzOffset h) events))%Q.
Proof.
  rewrite analyzeTimeDistribution_buckets.
  set (c := fun h => Z.of_nat (count (atHour tzOffset h) events)).
  assert (Hnth : forall h, (h < 24)%nat -> nth h (map c (seq 0 24)) 0%Z = c h).
  { intros h Hh. rewrite (nth_indep _ 0%Z (c 0%nat)) by (rewrite length_map, length_seq; lia).
    rewrite map_nth, seq_nth by lia. reflexivity. }
  change (map c (seq 0 24)) with (c 0%nat :: map c (seq 1 23)) in *.
  destruct (fold_left_Zmax_spec (map c (seq 1 23)) (c 0%nat)) as [Hin Hall].
  set (m := fold_left Z.max (map c (seq 1 23)) (c 0%nat)) in *.
  change (c 0%nat :: map c (seq 1 23)) with (map c (seq 0 24)) in Hin, Hall.
  apply in_map_iff in Hin. destruct Hin as (busiest & Hm & Hb). apply in_seq in Hb.
  exists busiest.
  assert (Hmax : forall h, (c h <= c busiest)%Z).
  { intros h. rewrite Hm. destruct (Nat.lt_ge_cases h 24) as [Hh | Hh].
    - rewrite Forall_forall in Hall. apply Hall. apply in_map. apply in_seq. lia.
    - unfold c at 1. rewrite count_atHour_late by exact Hh.
      rewrite <- Hm. unfold c. lia. }
  assert (Hpeak : forall h,
             In h (identifyPeakHours (c 0%nat :: map c (seq 1 23)))
             <-> (h < 24)%nat /\ (Zq (c busiest) * 0.8 <= Zq (c h))%Q).
  { intros h. rewrite In_identifyPeakHours. fold m. rewrite Hm.
    change (length (c 0%nat :: map c (seq 1 23))) with 24%nat.
    split; intros [Hh Hge]; (split; [exact Hh |]).
    - rewrite <- Hnth by exact Hh. exact Hge.
    - change (c 0%nat :: map c (seq 1 23)) with (map c (seq 0 24)).
      rewrite Hnth by exact Hh. exact Hge. }
  split; [lia |]. split; [| split].
  - intros h. specialize (Hmax h). unfold c in Hmax. lia.
  - apply Hpeak. split; [lia |].
    assert (0 <= Zq (c busiest))%Q.
    { unfold Zq. change 0%Q with (inject_Z 0). rewrite <- Zle_Qle. unfold c. lia. }
    lra.
  - exact Hpeak.
Qed.

Lemma withIndex_sorted (p : nat * Z -> bool) (xs : list Z) (s : nat) :
  StronglySorted lt (map fst (filter p (combine (seq s (length xs)) xs)))
  /\ Forall (fun h => (s <= h)%nat) (map fst (filter p (combine (seq s (length xs)) xs))).
Proof.
  revert s. induction xs as [| x xs IH]; intros s; simpl.
  - split; constructor.
  - destruct (IH (S s)) as [Hsorted Hlow].
    assert (Hlow' : Forall (fun h => (s <= h)%nat)
                      (map fst (filter p (combine (seq (S s) (length xs)) xs)))).
    { eapply Forall_impl; [| exact Hlow]. simpl. intros h Hh. lia. }
    destruct (p (s, x)); simpl.
    + split.
      * constructor; [exact Hsorted |].
        eapply Forall_impl; [| exact Hlow]. simpl. intros h Hh. lia.
      * constructor; [lia | exact Hlow'].
    + split; assumption.
Qed.

(** The peak hours are listed in increasing order and are the hours whose
    number of events reaches 80% of the number of the busiest hour.  The
    busiest hour is one of them: the list is never empty. *)
Theorem identifyPeakHours_busiest (tzOffset : Z -> Z) (events : list Event.t) :
  StronglySorted lt (identifyPeakHours (analyzeTimeDistribution tzOffset events))
  /\ exists busiest : nat,
       (busiest < 24)%nat
       /\ (forall h, count (atHour tzOffset h) events
                     <= count (atHour tzOffset busiest) events)%nat
       /\ In busiest (identifyPeakHours (analyzeTimeDistribution tzOffset events))
       /\ forall h,
            In h (identifyPeakHours (analyzeTimeDistribution tzOffset events))
            <-> (h < 24)%nat
                /\ (Nq (count (atHour tzOffset busiest) events) * 0.8
                    <= Nq (count (atHour tzOffset h) events))%Q.
Proof.
  split; [| apply identifyPeakHours_reached].
  unfold identifyPeakHours, withIndex. apply withIndex_sorted.
Qed.

Lemma startsWithDigit_formatHour (h : nat) : startsWithDigit (formatHour h) = true.
Proof.
  unfold formatHour. cbv zeta.
  assert (Hd : forall n, (1 <= n <= 12)%nat -> forall suffix,
             startsWithDigit (toString n ++ suffix) = true).
  { intros n Hn suffix.
    do 13 (destruct n as [| n]; [try lia; reflexivity |]). lia. }
  destruct (Nat.eqb_spec (h mod 12) 0) as [H0 | H0].
  - apply Hd. lia.
  - apply Hd. pose proof (Nat.mod_upper_bound h 12). lia.
Qed.

Lemma startsWithDigit_append (s t : string) :
  startsWithDigit s = true -> startsWithDigit (s ++ t) = true.
Proof. destruct s; [discriminate | intros H; exact H]. Qed.

Lemma startsWithDigit_not_various (s : string) :
  startsWithDigit s = true -> (s =? "Various") = false.
Proof.
  destruct s as [| c s]; [reflexivity |]. simpl. intros H.
  destruct (Ascii.eqb_spec c "V"); [| reflexivity]. subst. discriminate.
Qed.

Lemma formatPeakHours_some (first : nat) (rest : list nat) :
  startsWithDigit (formatPeakHours (Some (first :: rest))) = true.
Proof.
  unfold formatPeakHours. cbv zeta.
  destruct (length (first :: rest) =? 1)%nat; [apply startsWithDigit_formatHour |].
  destruct (length (first :: rest) <=? 3)%nat.
  - simpl map. simpl String.concat. destruct (map formatHour rest).
    + apply startsWithDigit_formatHour.
    + apply startsWithDigit_append, startsWithDigit_formatHour.
  - apply startsWithDigit_append, startsWithDigit_formatHour.
Qed.

Lemma identifyPeakHours_undated (tzOffset : Z -> Z) (events : list Event.t) :
  count isDated events = 0%nat ->
  analyzeTimeDistribution tzOffset events = repeat 0%Z 24.
Proof.
  intros Hnone. unfold analyzeTimeDistribution.
  induction events as [| e events IH]; [reflexivity |].
  unfold count in Hnone. simpl in Hnone. simpl. unfold isDated in Hnone at 1.
  destruct (newDate (Event.created_at e)); [discriminate |].
  simpl. apply IH. exact Hnone.
Qed.

(** The peak-hours label of the panel for the hours the engine computes is
    a time or a range of times, never the fallback "Various": for a user
    without dated events it reads "12AM-11PM". *)
Theorem formatPeakHours_of_engine (tzOffset : Z -> Z) (events : list Event.t) :
  startsWithDigit
    (formatPeakHours (Some (identifyPeakHours (analyzeTimeDistribution tzOffset events))))
  = true
  /\ (formatPeakHours (Some (identifyPeakHours (analyzeTimeDistribution tzOffset events)))
      =? "Various") = false
  /\ (count isDated events = 0%nat ->
      formatPeakHours (Some (identifyPeakHours (analyzeTimeDistribution tzOffset events)))
      = "12AM-11PM").
Proof.
  assert (Hdigit : startsWithDigit
            (formatPeakHours
               (Some (identifyPeakHours (analyzeTimeDistribution tzOffset events))))
          = true).
  { destruct (identifyPeakHours_reached tzOffset events) as (busiest & _ & _ & Hin & _).
    destruct (identifyPeakHours (analyzeTimeDistribution tzOffset events))
      as [| first rest]; [contradiction | apply formatPeakHours_some]. }
  split; [exact Hdigit |]. split; [now apply startsWithDigit_not_various |].
  intros Hnone. rewrite identifyPeakHours_undated by exact Hnone. reflexivity.
Qed.

Lemma formatPeakHours_of_engine_witness :
  formatPeakHours (Some (identifyPeakHours (analyzeTimeDistribution utc [])))
  = "12AM-11PM".
Proof.
  apply (proj2 (proj2 (formatPeakHours_of_engine utc []))). reflexivity.
Defined.

(** The working style is "Getting Started" exactly when no event has a
    valid date. *)
Theorem determineWorkingStyle_getting_started (tzOffset : Z -> Z)
  (events : list Event.t) (weeklyDist : list Z) :
  determineWorkingStyle (analyzeTimeDistribution tzOffset events) weeklyDist
  = "Getting Started 🌱"
  <-> count isDated events = 0%nat.
Proof.
  unfold determineWorkingStyle. rewrite sumZ_analyzeTimeDistribution. cbv zeta.
  destruct (Z.eqb_spec (Z.of_nat (count isDated events)) 0) as [H0 | H0].
  - split; [lia | reflexivity].
  - split; [| lia]. intros H. exfalso. revert H.
    repeat match goal with
           | |- context [if ?c then _ else _] => destruct c
           end; discriminate.
Qed.

(** ** The scored burnout risk *)

Lemma Nq_le (a b : nat) : (a <= b)%nat -> (Nq a <= Nq b)%Q.
Proof. intros H. unfold Nq. rewrite <- Zle_Qle. lia. Qed.

Lemma Nq_pos (a : nat) : (0 < a)%nat -> (0 < Nq a)%Q.
Proof.
  intros H. unfold Nq. change 0%Q with (inject_Z 0). rewrite <- Zlt_Qlt. lia.
Qed.


Lemma Nq_mult (a b : nat) : (Nq (a * b) == Nq a * Nq b)%Q.
Proof. unfold Nq. rewrite Nat2Z.inj_mul, inject_Z_mult. reflexivity. Qed.

Lemma ratio_nonneg (a b : nat) : (0 <= Nq a / Nq b)%Q.
Proof.
  unfold Qdiv. apply Qmult_le_0_compat; [apply Nq_nonneg |].
  apply Qinv_le_0_compat, Nq_nonneg.
Qed.

Lemma ratio_le (a b : nat) (c : Q) :
  (0 < b)%nat -> (Nq a <= c * Nq b)%Q -> (Nq a / Nq b <= c)%Q.
Proof. intros Hb H. apply Qle_shift_div_r; [now apply Nq_pos | exact H]. Qed.

Lemma ratio_ge (a b : nat) (c : Q) :
  (0 < b)%nat -> (c * Nq b <= Nq a)%Q -> (c <= Nq a / Nq b)%Q.
Proof. intros Hb H. apply Qle_shift_div_l; [now apply Nq_pos | exact H]. Qed.

Lemma ratio_ge_inv (a b : nat) (c : Q) :
  (0 < b)%nat -> (c <= Nq a / Nq b)%Q -> (c * Nq b <= Nq a)%Q.
Proof.
  intros Hb H. pose proof (Nq_pos b Hb) as Hpos.
  apply (Qmult_le_compat_r _ _ (Nq b)) in H; [| lra].
  unfold Qdiv in H. rewrite <- Qmult_assoc, (Qmult_comm (/ Nq b)), Qmult_inv_r in H by lra.
  lra.
Qed.

(** The events-per-day figure of [assessBurnoutRisk]: at most 5/3, and
    above 1.5 only from 46 events on. *)
Lemma intensity_bound (n : nat) :
  (20 <= n)%nat ->
  (Nq (Nat.min 50 n) / Nq (Nat.min 30 n) <= 2)%Q
  /\ ((n <= 45)%nat -> (Nq (Nat.min 50 n) / Nq (Nat.min 30 n) <= 1.5)%Q).
Proof.
  intros Hn. split.
  - apply ratio_le; [lia |].
    assert (H : (Nat.min 50 n <= 2 * Nat.min 30 n)%nat) by lia.
    apply Nq_le in H. rewrite Nq_mult in H. exact H.
  - intros Hsmall. apply ratio_le; [lia |].
    assert (H : (2 * Nat.min 50 n <= 3 * Nat.min 30 n)%nat) by lia.
    apply Nq_le in H. rewrite !Nq_mult in H.
    change (Nq 2) with 2%Q in H. change (Nq 3) with 3%Q in H. lra.
Qed.

(** On 20 events or more the burnout risk is scored without a draw: the
    score is a whole number of points from 0 to 8 (the intensity of the
    most recent 50 events over 30 days never exceeds 5/3, so its two upper
    rungs add nothing, and it adds its one point only from 46 events on),
    the level is the one of the score, and two recommendations are given. *)
Theorem assessBurnoutRisk_scored (rnd : nat -> Q) (tzOffset : Z -> Z)
  (events : list Event.t) (weeklyPattern : list Z) (k : nat) :
  (20 <= length events)%nat ->
  exists risk first second,
    assessBurnoutRisk rnd tzOffset events weeklyPattern k = Ok (risk, k)
    /\ (0 <= BurnoutRisk.score risk <= 8)%Q
    /\ ((length events <= 45)%nat -> (BurnoutRisk.score risk <= 7)%Q)
    /\ (exists points : nat, BurnoutRisk.score risk == Nq points)%Q
    /\ BurnoutRisk.level risk = burnoutLevelOf (BurnoutRisk.score risk)
    /\ BurnoutRisk.recommendations risk = Some [first; second].
Proof.
  intros Hn. unfold assessBurnoutRisk.
  destruct (Nat.ltb_spec (length events) 20) as [Hlt | _]; [lia |].
  cbv zeta. rewrite length_slice.
  replace (Nat.min (Nat.min 50 (length events) - 0) (length events - 0))
    with (Nat.min 50 (length events)) by lia.
  destruct (intensity_bound (length events) Hn) as [Htwo Hsmall].
  set (intensity := (Nq (Nat.min 50 (length events))
                     / Nq (Nat.min 30 (length events)))%Q) in *.
  rewrite (proj2 (Qgtb_false_iff intensity 3)) by lra.
  rewrite (proj2 (Qgtb_false_iff intensity 2)) by exact Htwo.
  destruct (Qgtb intensity 1.5) eqn:Hint.
  - apply Qgtb_true_iff in Hint.
    assert (Hmany : (45 < length events)%nat).
    { destruct (Nat.lt_ge_cases 45 (length events)) as [H | H]; [exact H |].
      specialize (Hsmall H). lra. }
    repeat match goal with
           | |- context [if Qgtb ?a ?b then _ else _] => destruct (Qgtb a b)
           end;
      (eexists; eexists; eexists; split; [reflexivity |];
       cbn [BurnoutRisk.score BurnoutRisk.level BurnoutRisk.recommendations];
       split; [split; vm_compute; discriminate |];
       split; [intros; lia |];
       split; [| split; reflexivity]);
      first [ exists 1%nat; reflexivity | exists 2%nat; reflexivity
            | exists 3%nat; reflexivity | exists 4%nat; reflexivity
            | exists 5%nat; reflexivity | exists 6%nat; reflexivity
            | exists 7%nat; reflexivity | exists 8%nat; reflexivity ].
  - repeat match goal with
           | |- context [if Qgtb ?a ?b then _ else _] => destruct (Qgtb a b)
           end;
      (eexists; eexists; eexists; split; [reflexivity |];
       cbn [BurnoutRisk.score BurnoutRisk.level BurnoutRisk.recommendations];
       split; [split; vm_compute; discriminate |];
       split; [intros _; vm_compute; discriminate |];
       split; [| split; reflexivity]);
      first [ exists 0%nat; reflexivity | exists 1%nat; reflexivity
            | exists 2%nat; reflexivity
            | exists 3%nat; reflexivity | exists 4%nat; reflexivity
            | exists 5%nat; reflexivity | exists 6%nat; reflexivity
            | exists 7%nat; reflexivity ].
Qed.

(** 25 events on five weekdays. *)
Lemma assessBurnoutRisk_scored_witness :
  exists risk first second,
    assessBurnoutRisk sampleRnd utc weekdayEvents (analyzeWeeklyPattern utc weekdayEvents)
      0%nat = Ok (risk, 0%nat)
    /\ (0 <= BurnoutRisk.score risk <= 8)%Q
    /\ ((length weekdayEvents <= 45)%nat -> (BurnoutRisk.score risk <= 7)%Q)
    /\ (exists points : nat, BurnoutRisk.score risk == Nq points)%Q
    /\ BurnoutRisk.level risk = burnoutLevelOf (BurnoutRisk.score risk)
    /\ BurnoutRisk.recommendations risk = Some [first; second].
Proof.
  apply (assessBurnoutRisk_scored sampleRnd utc weekdayEvents).
  vm_compute. lia.
Defined.

(** ** Gauges of the work-pattern and collaboration records *)

Lemma string_eqb_eq (x y : string) : String.eqb x y = true <-> x = y.
Proof. apply String.eqb_eq. Qed.

Lemma lengthOr1_pos {A : Type} (xs : list A) : (0 < lengthOr1 xs)%nat.
Proof.
  unfold lengthOr1. destruct (Nat.eqb_spec (length xs) 0); lia.
Qed.

Lemma length_le_lengthOr1 {A : Type} (xs : list A) : (length xs <= lengthOr1 xs)%nat.
Proof.
  unfold lengthOr1. destruct (Nat.eqb_spec (length xs) 0); lia.
Qed.

Lemma length_filterBoolean (xs : list (option string)) :
  (length (filterBoolean xs) <= length xs)%nat.
Proof.
  induction xs as [| [s |] xs IH]; simpl; [lia | | lia].
  destruct (s =? ""); simpl; lia.
Qed.


Lemma count_monotone {A : Type} (p q : A -> bool) (xs : list A) :
  (forall x, p x = true -> q x = true) -> (count p xs <= count q xs)%nat.
Proof.
  intros Hpq. unfold count. induction xs as [| x xs IH]; simpl; [lia |].
  destruct (p x) eqn:Hp.
  - rewrite (Hpq x Hp). simpl. lia.
  - destruct (q x); simpl; lia.
Qed.

Lemma within_min_10 (x : Q) : (0 <= x)%Q -> (0 <= Qmin 10 x <= 10)%Q.
Proof.
  intros Hx. split; [apply Q.min_glb; lra | apply Q.le_min_l].
Qed.

(** The four gauges of the work-pattern and collaboration records stay
    between 0 and 10, whatever the events and whatever [Math.sqrt] returns. *)
Theorem gauges_within_0_10 (js_sqrt : Q -> Q) (events : list Event.t)
  (weeklyPattern : list Z) :
  (0 <= calculateWorkConsistency js_sqrt weeklyPattern <= 10)%Q
  /\ (0 <= assessTeamPlayerScore events <= 10)%Q
  /\ (0 <= ProjectJuggling.multitaskingScore (analyzeProjectJuggling events) <= 10)%Q
  /\ (0 <= NetworkSize.networkScore (estimateNetworkSize events) <= 10)%Q.
Proof.
  split; [| split; [| split]].
  - unfold calculateWorkConsistency. cbv zeta.
    destruct (sumZ weeklyPattern =? 0)%Z; [lra |].
    split; [apply Q.le_max_l |].
    apply Q.max_lub; [lra | apply Q.le_min_l].
  - unfold assessTeamPlayerScore. cbv zeta. apply within_min_10.
    apply Qmult_le_0_compat; [apply ratio_nonneg | lra].
  - unfold analyzeProjectJuggling. cbv zeta. cbn [ProjectJuggling.multitaskingScore].
    apply within_min_10.
    match goal with
    | |- (0 <= Nq ?a / 5 * 10)%Q => pose proof (Nq_nonneg a)
    end.
    apply Qmult_le_0_compat; [apply Qle_shift_div_l; lra | lra].
  - unfold estimateNetworkSize. cbv zeta. cbn [NetworkSize.networkScore].
    apply within_min_10.
    match goal with
    | |- (0 <= Nq ?a * _ + Nq ?b * _)%Q =>
        pose proof (Nq_nonneg a); pose proof (Nq_nonneg b)
    end.
    lra.
Qed.

Lemma length_tallyKeys (keys : list string) :
  (length (tallyKeys keys) <= length keys)%nat.
Proof.
  unfold tallyKeys.
  pose proof (filter_length_le (fun k => negb (k =? "__proto__")) (newSet String.eqb keys)).
  pose proof (length_newSet String.eqb keys). lia.
Qed.

(** The average number of events per project is [Infinity] when no event
    names a repository (it is never NaN, the number of events being taken
    as 1 when there is none), and otherwise a number that is at least 1. *)
Theorem analyzeProjectJuggling_average (events : list Event.t) :
  match ProjectJuggling.averageEventsPerProject (analyzeProjectJuggling events) with
  | PosInf => ProjectJuggling.uniqueProjects (analyzeProjectJuggling events) = 0%nat
  | Fin average =>
      (1 <= ProjectJuggling.uniqueProjects (analyzeProjectJuggling events))%nat
      /\ (1 <= average)%Q
  | NegInf => False
  | NaN => False
  end.
Proof.
  unfold analyzeProjectJuggling. cbv zeta.
  cbn [ProjectJuggling.averageEventsPerProject ProjectJuggling.uniqueProjects].
  set (projects := length (tallyKeys (filterBoolean (map Event.repo_name events)))).
  assert (Hle : (projects <= lengthOr1 events)%nat).
  { unfold projects.
    pose proof (length_tallyKeys (filterBoolean (map Event.repo_name events))).
    pose proof (length_filterBoolean (map Event.repo_name events)).
    rewrite length_map in *. pose proof (length_le_lengthOr1 events). lia. }
  pose proof (lengthOr1_pos events) as Hpos.
  unfold jsdiv.
  destruct (Qeqb (Nq projects) 0) eqn:Hzero.
  - apply Qeq_bool_iff in Hzero.
    assert (Hp : projects = 0%nat).
    { destruct projects; [reflexivity |].
      pose proof (Nq_pos (S projects) ltac:(lia)). lra. }
    assert (Hevents : Qeqb (Nq (lengthOr1 events)) 0 = false).
    { apply not_true_iff_false. intros H. apply Qeq_bool_iff in H.
      pose proof (Nq_pos _ Hpos). lra. }
    rewrite Hevents.
    rewrite (proj2 (Qltb_true_iff 0 (Nq (lengthOr1 events)))) by now apply Nq_pos.
    exact Hp.
  - assert (Hp : (0 < projects)%nat).
    { destruct projects; [discriminate | lia]. }
    split; [lia |]. apply ratio_ge; [exact Hp |]. apply Nq_le in Hle. lra.
Qed.

(** Two readings of the same events agree.  When the isolation risk is
    "Low" the team-player score is at least 4, and when it is "Medium" at
    least 2: the score counts every event the risk counts. *)
Theorem isolation_and_team_player (events : list Event.t) :
  (Risk.level (assessCollaborationIsolation events) = "Low" ->
   (4 <= assessTeamPlayerScore events)%Q)
  /\ (Risk.level (assessCollaborationIsolation events) = "Medium" ->
      (2 <= assessTeamPlayerScore events)%Q).
Proof.
  unfold assessCollaborationIsolation, assessTeamPlayerScore. cbv zeta.
  set (counted := count (fun e => typeIs e "PullRequestEvent" || typeIs e "IssuesEvent"
                                  || typeIs e "PullRequestReviewEvent") events).
  set (collaborative := count isCollaborative events).
  assert (Hle : (counted <= collaborative)%nat).
  { apply count_monotone. intros e. unfold isCollaborative.
    destruct (typeIs e "PullRequestEvent"), (typeIs e "IssuesEvent"),
      (typeIs e "PullRequestReviewEvent"); simpl; intros H;
      try reflexivity; discriminate. }
  apply Nq_le in Hle.
  pose proof (lengthOr1_pos events) as Hpos.
  assert (Hscore : forall c, (c <= Nq counted / Nq (lengthOr1 events))%Q ->
            (c * 20 <= Nq collaborative / Nq (lengthOr1 events) * 20)%Q).
  { intros c Hc. apply ratio_ge_inv in Hc; [| exact Hpos].
    assert (c <= Nq collaborative / Nq (lengthOr1 events))%Q
      by (apply ratio_ge; [exact Hpos | lra]).
    lra. }
  destruct (Qltb (Nq counted / Nq (lengthOr1 events)) 0.1) eqn:Hhigh;
    [split; discriminate |].
  destruct (Qltb (Nq counted / Nq (lengthOr1 events)) 0.2) eqn:Hmedium.
  - split; [discriminate |]. intros _.
    apply Qltb_false_iff in Hhigh. specialize (Hscore _ Hhigh).
    apply Q.min_glb; lra.
  - split; [| discriminate]. intros _.
    apply Qltb_false_iff in Hmedium. specialize (Hscore _ Hmedium).
    apply Q.min_glb; lra.
Qed.

(** Twelve IssuesEvents: the risk is "Low" and the score 10. *)
Lemma isolation_and_team_player_witness :
  (4 <= assessTeamPlayerScore twelveIssues)%Q.
Proof.
  apply (proj1 (isolation_and_team_player twelveIssues)). reflexivity.
Defined.

(** ** The recommendation list *)

Lemma generateTechRecommendations_shape (insights : BasicPatterns.t) :
  allOfType "Technology" (generateTechRecommendations insights)
  /\ (length (generateTechRecommendations insights) <= 3)%nat.
Proof.
  unfold generateTechRecommendations, allOfType. cbv zeta. split.
  - apply Forall_slice. of_type.
  - rewrite length_slice. lia.
Qed.

Lemma generateLearningRecommendations_shape (insights : BasicPatterns.t) :
  allOfType "Learning" (generateLearningRecommendations insights)
  /\ length (generateLearningRecommendations insights) = 2%nat.
Proof.
  unfold generateLearningRecommendations, allOfType. cbv zeta. split.
  - apply Forall_slice. of_type.
  - rewrite length_slice, !length_app.
    destruct (BasicPatterns.repoCount insights <? 5)%Z;
      [| destruct (BasicPatterns.repoCount insights <? 15)%Z]; simpl; lia.
Qed.

Lemma generateProductivityRecommendations_shape (insights : BasicPatterns.t) :
  allOfType "Productivity" (generateProductivityRecommendations insights)
  /\ (1 <= length (generateProductivityRecommendations insights) <= 2)%nat.
Proof.
  unfold generateProductivityRecommendations, allOfType. cbv zeta. split.
  - apply Forall_slice. of_type.
  - rewrite length_slice, !length_app. cbn [length]. lia.
Qed.

Lemma generateCareerRecommendations_shape (insights : BasicPatterns.t) :
  allOfType "Career" (generateCareerRecommendations insights)
  /\ (1 <= length (generateCareerRecommendations insights) <= 2)%nat.
Proof.
  unfold generateCareerRecommendations, allOfType. cbv zeta. split.
  - apply Forall_slice. of_type.
  - rewrite length_slice, !length_app. cbn [length]. lia.
Qed.

Lemma Forall_firstn {A : Type} (P : A -> Prop) (n : nat) (xs : list A) :
  Forall P xs -> Forall P (firstn n xs).
Proof.
  intros H. rewrite <- (firstn_skipn n xs) in H. apply Forall_app in H. tauto.
Qed.

(** The limit of eight cuts the career recommendations only. *)
Lemma generateRecommendations_cut (userData : UserData.t) :
  generateRecommendations userData
  = (generateTechRecommendations (analyzeBasicPatterns userData)
     ++ generateLearningRecommendations (analyzeBasicPatterns userData)
     ++ generateProductivityRecommendations (analyzeBasicPatterns userData)
     ++ firstn (8 - length (generateTechRecommendations (analyzeBasicPatterns userData))
                - length (generateLearningRecommendations (analyzeBasicPatterns userData))
                - length (generateProductivityRecommendations
                            (analyzeBasicPatterns userData)))
          (generateCareerRecommendations (analyzeBasicPatterns userData)))%list.
Proof.
  set (insights := analyzeBasicPatterns userData).
  destruct (generateTechRecommendations_shape insights) as [_ Hlt].
  destruct (generateLearningRecommendations_shape insights) as [_ Hll].
  destruct (generateProductivityRecommendations_shape insights) as [_ Hlp].
  unfold generateRecommendations, slice. cbv zeta. fold insights.
  rewrite skipn_O, Nat.sub_0_r. cbn [app].
  rewrite <- !app_assoc.
  rewrite firstn_app, (firstn_all2 (generateTechRecommendations insights)) by lia.
  f_equal.
  rewrite firstn_app, (firstn_all2 (generateLearningRecommendations insights)) by lia.
  f_equal.
  rewrite firstn_app, (firstn_all2 (generateProductivityRecommendations insights)) by lia.
  reflexivity.
Qed.

(** The list of recommendations runs through the four categories in the
    order Technology, Learning, Productivity, Career: at most three of the
    first, always two of the second, one or two of each of the last two, and
    from four to eight in all.  Only a second Career recommendation is ever
    cut by the limit of eight. *)
Theorem generateRecommendations_by_category (userData : UserData.t) :
  exists tech learning productivity career : list Recommendation.t,
    generateRecommendations userData
    = (tech ++ learning ++ productivity ++ career)%list
    /\ tech = generateTechRecommendations (analyzeBasicPatterns userData)
    /\ learning = generateLearningRecommendations (analyzeBasicPatterns userData)
    /\ productivity = generateProductivityRecommendations (analyzeBasicPatterns userData)
    /\ allOfType "Technology" tech /\ (length tech <= 3)%nat
    /\ allOfType "Learning" learning /\ length learning = 2%nat
    /\ allOfType "Productivity" productivity /\ (1 <= length productivity <= 2)%nat
    /\ allOfType "Career" career /\ (1 <= length career <= 2)%nat
    /\ (4 <= length (generateRecommendations userData) <= 8)%nat.
Proof.
  rewrite generateRecommendations_cut.
  set (insights := analyzeBasicPatterns userData).
  destruct (generateTechRecommendations_shape insights) as [Ht Hlt].
  destruct (generateLearningRecommendations_shape insights) as [Hl Hll].
  destruct (generateProductivityRecommendations_shape insights) as [Hp Hlp].
  destruct (generateCareerRecommendations_shape insights) as [Hc Hlc].
  set (tech := generateTechRecommendations insights) in *.
  set (learning := generateLearningRecommendations insights) in *.
  set (productivity := generateProductivityRecommendations insights) in *.
  set (career := generateCareerRecommendations insights) in *.
  exists tech, learning, productivity,
    (firstn (8 - length tech - length learning - length productivity) career).
  assert (Hlen : length (firstn (8 - length tech - length learning - length productivity)
                          career)
                 = Nat.min (8 - length tech - length learning - length productivity)
                     (length career)) by apply length_firstn.
  split; [reflexivity |].
  repeat (split; [first [reflexivity | assumption | lia] |]).
  split; [apply Forall_firstn; exact Hc |].
  split; [lia |].
  rewrite !length_app. lia.
Qed.

(** The two learning recommendations are the pair of the experience tier:
    they follow from the repository count alone.  The two further ones the
    method builds, "Full-Stack Development" and "Developer Advocacy", come
    third or later and are never returned. *)
Theorem generateLearningRecommendations_by_tier (insights1 insights2 : BasicPatterns.t) :
  BasicPatterns.repoCount insights1 = BasicPatterns.repoCount insights2 ->
  generateLearningRecommendations insights1 = generateLearningRecommendations insights2
  /\ existsb (fun title => (title =? "Full-Stack Development")
                           || (title =? "Developer Advocacy"))
       (titles (generateLearningRecommendations insights1)) = false.
Proof.
  intros Hcount. unfold generateLearningRecommendations. cbv zeta. rewrite Hcount.
  destruct (BasicPatterns.repoCount insights2 <? 5)%Z;
    [| destruct (BasicPatterns.repoCount insights2 <? 15)%Z];
    split; reflexivity.
Qed.

(** A JavaScript and Python developer with 100 followers, and a developer
    with no language and no follower, both with three repositories. *)
Lemma generateLearningRecommendations_by_tier_witness :
  generateLearningRecommendations (BasicPatterns.mk ["JavaScript"; "Python"] 3 100 5)
  = generateLearningRecommendations (BasicPatterns.mk [] 3 0 0)
  /\ existsb (fun title => (title =? "Full-Stack Development")
                           || (title =? "Developer Advocacy"))
       (titles (generateLearningRecommendations
                  (BasicPatterns.mk ["JavaScript"; "Python"] 3 100 5))) = false.
Proof.
  apply (generateLearningRecommendations_by_tier
           (BasicPatterns.mk ["JavaScript"; "Python"] 3 100 5)
           (BasicPatterns.mk [] 3 0 0)).
  reflexivity.
Defined.

(** A user of JavaScript who has no TypeScript repository gets "Upgrade to
    TypeScript" as the first recommendation, at confidence 0.9. *)
Theorem generateRecommendations_typescript_first (userData : UserData.t) :
  arrIncludes (BasicPatterns.languages (analyzeBasicPatterns userData)) "JavaScript" = true ->
  arrIncludes (BasicPatterns.languages (analyzeBasicPatterns userData)) "TypeScript" = false ->
  exists first rest,
    generateRecommendations userData = first :: rest
    /\ Recommendation.title first = "Upgrade to TypeScript"
    /\ Recommendation.type first = "Technology"
    /\ Recommendation.confidence first = 0.9%Q.
Proof.
  intros Hjs Hts. unfold generateRecommendations. cbv zeta.
  unfold generateTechRecommendations at 1. cbv zeta. rewrite Hjs, Hts.
  eexists; eexists. split; [reflexivity |]. repeat split.
Qed.

Lemma generateRecommendations_typescript_first_witness :
  exists first rest,
    generateRecommendations sampleUser = first :: rest
    /\ Recommendation.title first = "Upgrade to TypeScript"
    /\ Recommendation.type first = "Technology"
    /\ Recommendation.confidence first = 0.9%Q.
Proof.
  apply (generateRecommendations_typescript_first sampleUser); reflexivity.
Defined.

(** ** Recommendations and events as the callers make them *)

Lemma Forall_generateRecommendations (P : Recommendation.t -> Prop)
  (userData : UserData.t) :
  Forall P (generateTechRecommendations (analyzeBasicPatterns userData)) ->
  Forall P (generateLearningRecommendations (analyzeBasicPatterns userData)) ->
  Forall P (generateProductivityRecommendations (analyzeBasicPatterns userData)) ->
  Forall P (generateCareerRecommendations (analyzeBasicPatterns userData)) ->
  Forall P (generateRecommendations userData).
Proof.
  intros Ht Hl Hp Hc. unfold generateRecommendations. cbv zeta.
  apply Forall_slice. repeat (apply Forall_app; split); try assumption. constructor.
Qed.

(** Every recommendation the engine builds is shown by the panel with a
    badge of class "high" or "medium", never "low", and a figure from 70%
    to 95%: no confidence of a recommendation is 0.6 or less. *)
Theorem renderRecommendation_badges (userData : UserData.t) :
  Forall (fun rec =>
            (confidenceClass rec = "high" \/ confidenceClass rec = "medium")
            /\ (70 <= confidencePercent rec <= 95)%Z)
    (generateRecommendations userData).
Proof.
  apply Forall_generateRecommendations.
  - unfold generateTechRecommendations. cbv zeta. apply Forall_slice.
    each_recommendation; badge.
  - unfold generateLearningRecommendations. cbv zeta. apply Forall_slice.
    each_recommendation; badge.
  - unfold generateProductivityRecommendations. cbv zeta. apply Forall_slice.
    each_recommendation; badge.
  - unfold generateCareerRecommendations. cbv zeta. apply Forall_slice.
    each_recommendation; badge.
Qed.

(** A user no repository of whom has a language is told to start with
    JavaScript. *)
Theorem generateRecommendations_no_language (userData : UserData.t) :
  BasicPatterns.languages (analyzeBasicPatterns userData) = [] ->
  In "Start with JavaScript" (titles (generateRecommendations userData)).
Proof.
  intros Hnone. unfold generateRecommendations. cbv zeta.
  unfold generateTechRecommendations at 1. cbv zeta. rewrite Hnone.
  destruct (20 <? BasicPatterns.recentActivity (analyzeBasicPatterns userData))%nat,
    (10 <? BasicPatterns.repoCount (analyzeBasicPatterns userData))%Z;
    simpl; tauto.
Qed.

Lemma generateRecommendations_no_language_witness :
  In "Start with JavaScript" (titles (generateRecommendations emptyUser)).
Proof.
  apply (generateRecommendations_no_language emptyUser). reflexivity.
Defined.

(** Through app.js the engine never sees the repository and follower
    counts of the profile: whatever they are, the two learning
    recommendations are those of a beginner, and none of the eleven
    recommendations that need a count above zero is made. *)
Theorem generateRecommendations_of_currentUserData (profile : Profile.t)
  (repositories : list Repo.t) (events : list Event.t) :
  BasicPatterns.repoCount
    (analyzeBasicPatterns (currentUserData profile repositories events)) = 0%Z
  /\ BasicPatterns.followerCount
       (analyzeBasicPatterns (currentUserData profile repositories events)) = 0%Z
  /\ titles (generateLearningRecommendations
               (analyzeBasicPatterns (currentUserData profile repositories events)))
     = ["Git & GitHub Mastery"; "Algorithm & Data Structures"]
  /\ In "Git & GitHub Mastery"
       (titles (generateRecommendations (currentUserData profile repositories events)))
  /\ Forall (fun rec => arrIncludes countedTitles (Recommendation.title rec) = false)
       (generateRecommendations (currentUserData profile repositories events)).
Proof.
  split; [reflexivity |]. split; [reflexivity |]. split; [reflexivity |]. split.
  - rewrite generateRecommendations_cut. unfold titles. rewrite !map_app.
    apply in_or_app. right. apply in_or_app. left. simpl. tauto.
  - apply Forall_generateRecommendations.
    + unfold generateTechRecommendations. cbv zeta. apply Forall_slice.
      change (BasicPatterns.repoCount
                (analyzeBasicPatterns (currentUserData profile repositories events)))
        with 0%Z.
      change (5 <? 0)%Z with false. change (10 <? 0)%Z with false.
      each_recommendation; reflexivity.
    + unfold generateLearningRecommendations. cbv zeta. apply Forall_slice.
      change (BasicPatterns.repoCount
                (analyzeBasicPatterns (currentUserData profile repositories events)))
        with 0%Z.
      change (BasicPatterns.followerCount
                (analyzeBasicPatterns (currentUserData profile repositories events)))
        with 0%Z.
      change (0 <? 5)%Z with true. change (50 <? 0)%Z with false.
      each_recommendation; reflexivity.
    + unfold generateProductivityRecommendations. cbv zeta. apply Forall_slice.
      change (BasicPatterns.repoCount
                (analyzeBasicPatterns (currentUserData profile repositories events)))
        with 0%Z.
      change (20 <? 0)%Z with false.
      each_recommendation; reflexivity.
    + unfold generateCareerRecommendations. cbv zeta. apply Forall_slice.
      change (BasicPatterns.repoCount
                (analyzeBasicPatterns (currentUserData profile repositories events)))
        with 0%Z.
      change (BasicPatterns.followerCount
                (analyzeBasicPatterns (currentUserData profile repositories events)))
        with 0%Z.
      change (15 <? 0)%Z with false. change (8 <? 0)%Z with false.
      change (100 <? 0)%Z with false. change (false && (30 <? 0)%Z) with false.
      each_recommendation; reflexivity.
Qed.

Lemma commitCount_getUserEvents (events : list ApiEvent.t) :
  Forall (fun e => commitCount e = 1%Z)
    (filter (fun e => typeIs e "PushEvent") (getUserEvents events)).
Proof.
  apply Forall_forall. intros e He. apply filter_In in He. destruct He as [He Hpush].
  unfold getUserEvents in He. apply in_map_iff in He. destruct He as (raw & <- & _).
  unfold typeIs in Hpush. cbn [Event.type] in Hpush.
  unfold commitCount, parseEventPayload. cbn [Event.commits]. cbv zeta.
  rewrite Hpush. reflexivity.
Qed.

Lemma sumZ_ones (xs : list Z) :
  Forall (fun x => x = 1%Z) xs -> sumZ xs = Z.of_nat (length xs).
Proof.
  induction 1 as [| x xs Hx _ IH]; [reflexivity |].
  rewrite sumZ_cons, IH, Hx. simpl length. lia.
Qed.

(** Through the API module the engine never sees the commits of a push or
    an organization: every push counts as one commit, so the commit style is
    "Atomic Commits" as soon as there is a PushEvent (and "Unknown" when
    there is none), and no event counts as organization activity. *)
Theorem analyzeCommitStyle_of_getUserEvents (events : list ApiEvent.t) :
  CommitStyle.style (analyzeCommitStyle (getUserEvents events))
  = (if existsb (fun event => ApiEvent.type event =? "PushEvent") events
     then "Atomic Commits" else "Unknown")
  /\ count hasOrg (getUserEvents events) = 0%nat
  /\ NetworkSize.organizationNetwork (estimateNetworkSize (getUserEvents events)) = 0%nat.
Proof.
  split; [| split].
  - unfold analyzeCommitStyle. cbv zeta.
    pose proof (commitCount_getUserEvents events) as Hone.
    set (pushEvents := filter (fun e => typeIs e "PushEvent") (getUserEvents events)) in *.
    assert (Hany : existsb (fun event => ApiEvent.type event =? "PushEvent") events
                   = negb (length pushEvents =? 0)%nat).
    { unfold pushEvents, getUserEvents. clear Hone pushEvents.
      induction events as [| raw events IH]; [reflexivity |].
      simpl. unfold typeIs at 1. cbn [Event.type].
      destruct (ApiEvent.type raw =? "PushEvent"); [reflexivity | exact IH]. }
    rewrite Hany.
    destruct (Nat.eqb_spec (length pushEvents) 0) as [H0 | H0]; [reflexivity |].
    simpl negb. cbv iota.
    rewrite sumZ_ones by (apply Forall_map; exact Hone).
    rewrite !length_map.
    assert (Hmean : (Zq (Z.of_nat (length pushEvents)) / Nq (length pushEvents) == 1)%Q).
    { change (Zq (Z.of_nat (length pushEvents))) with (Nq (length pushEvents)).
      pose proof (Nq_pos (length pushEvents) ltac:(lia)).
      apply Qmult_inv_r. lra. }
    rewrite (proj2 (Qltb_true_iff _ 2)) by (rewrite Hmean; lra).
    reflexivity.
  - unfold count, getUserEvents. induction events as [| raw events IH]; [reflexivity |].
    simpl. exact IH.
  - unfold estimateNetworkSize. cbv zeta. cbn [NetworkSize.organizationNetwork].
    replace (filterBoolean (map orgLogin (getUserEvents events))) with (@nil string);
      [reflexivity |].
    unfold getUserEvents. induction events as [| raw events IH]; [reflexivity |].
    simpl. exact IH.
Qed.

(** ** The activity trend by the number of events *)

Lemma Nq_lt (a b : nat) : (a < b)%nat -> (Nq a < Nq b)%Q.
Proof. intros H. unfold Nq. rewrite <- Zlt_Qlt. lia. Qed.

Lemma Qmax_Nq_1 (b : nat) : (1 <= b)%nat -> Qmax (Nq b) 1 = Nq b.
Proof.
  intros Hb. unfold Qmax, GenericMinMax.gmax.
  destruct (Nq b ?= 1)%Q eqn:Hcmp; try reflexivity.
  apply Qlt_alt in Hcmp. apply Nq_le in Hb. change (Nq 1) with 1%Q in Hb. lra.
Qed.

Lemma thirds (n : nat) :
  (15 <= n)%nat ->
  (5 <= Nat.min (n / 3 - 0) (n - 0)
   /\ Nat.min (n / 3 - 0) (n - 0) <= Nat.min (n * 2 / 3 - n / 3) (n - n / 3)
   /\ Nat.min (n * 2 / 3 - n / 3) (n - n / 3) <= n - n * 2 / 3
   /\ (Nat.min (n / 3 - 0) (n - 0) = Nat.min (n * 2 / 3 - n / 3) (n - n / 3)
       \/ Nat.min (n * 2 / 3 - n / 3) (n - n / 3) = n - n * 2 / 3)
   /\ 4 * (n - n * 2 / 3) < 5 * Nat.min (n / 3 - 0) (n - 0))%nat.
Proof.
  intros H.
  pose proof (Nat.div_mod_eq n 3). pose proof (Nat.mod_upper_bound n 3 ltac:(lia)).
  pose proof (Nat.div_mod_eq (n * 2) 3).
  pose proof (Nat.mod_upper_bound (n * 2) 3 ltac:(lia)).
  lia.
Qed.

(** With 15 events or more the three thirds differ by at most one event,
    and the mean of the two ratios lies above 0.9 and is at most 1. *)
Lemma overallTrend_stable (a b c : nat) :
  (5 <= a)%nat -> (a <= b)%nat -> (b <= c)%nat -> (a = b \/ b = c) ->
  (4 * c < 5 * a)%nat ->
  (0.9 < (Nq a / Qmax (Nq b) 1 + Nq b / Qmax (Nq c) 1) / 2 <= 1)%Q.
Proof.
  intros Ha Hab Hbc Heq Hclose.
  rewrite !Qmax_Nq_1 by lia.
  assert (H1 : (Nq a / Nq b <= 1)%Q)
    by (apply ratio_le; [lia |]; apply Nq_le in Hab; lra).
  assert (H2 : (Nq b / Nq c <= 1)%Q)
    by (apply ratio_le; [lia |]; apply Nq_le in Hbc; lra).
  assert (Hac : (0.8 * Nq c < Nq a)%Q).
  { apply Nq_lt in Hclose. rewrite !Nq_mult in Hclose.
    change (Nq 4) with 4%Q in Hclose. change (Nq 5) with 5%Q in Hclose. lra. }
  assert (H3 : (1.8 < Nq a / Nq b + Nq b / Nq c)%Q).
  { destruct Heq as [<- | <-].
    - assert (1 <= Nq a / Nq a)%Q by (apply ratio_ge; [lia | lra]).
      assert (0.8 < Nq a / Nq c)%Q
        by (apply Qlt_shift_div_l; [apply Nq_pos; lia | lra]).
      lra.
    - assert (1 <= Nq b / Nq b)%Q by (apply ratio_ge; [lia | lra]).
      assert (0.8 < Nq a / Nq b)%Q
        by (apply Qlt_shift_div_l; [apply Nq_pos; lia | lra]).
      lra. }
  split.
  - apply Qlt_shift_div_l; lra.
  - apply Qle_shift_div_r; lra.
Qed.

(** The activity trend follows from the number of events alone, and takes
    three values: "Building Momentum" below 10 events, "Slightly
    Decreasing" at 10, 11, 13 and 14, and "Stable & Consistent" at 12 and
    from 15 on.  The three thirds of the list differ in size by at most one
    event, so the labels "Rapidly Increasing", "Steadily Growing" and "Needs
    Attention" are never given. *)
Theorem predictActivityTrend_by_count (events : list Event.t) :
  (ActivityTrend.trend (predictActivityTrend events),
   ActivityTrend.confidence (predictActivityTrend events))
  = activityTrendOf (length events).
Proof.
  unfold predictActivityTrend, activityTrendOf.
  rewrite !length_slice, !length_sliceFrom.
  destruct (Nat.ltb_spec (length events) 10) as [Hlt | Hge]; [reflexivity |].
  cbv zeta.
  destruct (Nat.leb_spec 15 (length events)) as [Hmany | Hfew].
  - rewrite orb_true_r.
    destruct (thirds (length events) Hmany) as (Ha & Hab & Hbc & Heq & Hclose).
    destruct (overallTrend_stable _ _ _ Ha Hab Hbc Heq Hclose) as [Hlow Hhigh].
    rewrite (proj2 (Qgtb_false_iff _ 1.3)) by lra.
    rewrite (proj2 (Qgtb_false_iff _ 1.1)) by lra.
    rewrite (proj2 (Qgtb_true_iff _ 0.9)) by exact Hlow.
    reflexivity.
  - rewrite orb_false_r.
    assert (Hn : (length events = 10 \/ length events = 11 \/ length events = 12
                  \/ length events = 13 \/ length events = 14)%nat) by lia.
    destruct Hn as [-> | [-> | [-> | [-> | ->]]]]; reflexivity.
Qed.

(** ** Suggested technologies *)

Lemma objectLiteral_In {A : Type} (props : list (string * A)) (key : string) (v : A) :
  objectLiteral props key = Some v -> In (key, v) props.
Proof.
  induction props as [| [k w] props IH]; simpl; [discriminate |].
  destruct (objectLiteral props key) as [later |].
  - intros [= <-]. right. now apply IH.
  - destruct (String.eqb_spec k key) as [-> |]; [| discriminate].
    intros [= <-]. now left.
Qed.

Lemma Forall_filter_fresh (languages techs : list string) :
  Forall (fun tech => tech <> "") techs ->
  Forall (freshSuggestion languages)
    (filter (fun tech => negb (arrIncludes languages tech)) techs).
Proof.
  intros Hnames. apply Forall_forall. intros tech Hin.
  apply filter_In in Hin. destruct Hin as [Hin Hnew].
  rewrite Forall_forall in Hnames. split; [| now apply Hnames].
  now apply negb_true_iff in Hnew.
Qed.

Lemma progressionMap_names :
  Forall (fun entry => Forall (fun tech => tech <> "") (fst (snd entry))
                       /\ Forall (fun tech => tech <> "") (snd (snd entry)))
    progressionMap.
Proof. repeat constructor; discriminate. Qed.

Lemma trendingTech_names : Forall (fun tech => tech <> "") trendingTech.
Proof. repeat constructor; discriminate. Qed.

Lemma progressionStep_fresh (languages : list string) (lang : string)
  (added : list string) :
  progressionStep languages lang = Ok added ->
  Forall (freshSuggestion languages) added.
Proof.
  unfold progressionStep.
  destruct (objectLiteral progressionMap lang) as [[primaryTechs advancedTechs] |] eqn:Hmap.
  - intros [= <-]. apply objectLiteral_In in Hmap.
    pose proof progressionMap_names as Hnames. rewrite Forall_forall in Hnames.
    destruct (Hnames _ Hmap) as [Hp Ha]. simpl in Hp, Ha.
    apply Forall_app. split.
    + apply Forall_slice. now apply Forall_filter_fresh.
    + match goal with
      | |- context [if ?c then _ else _] => destruct c
      end; [| constructor].
      apply Forall_slice. now apply Forall_filter_fresh.
  - destruct (isInherited lang); [discriminate |]. intros [= <-]. constructor.
Qed.

Lemma progressionSuggestions_fresh (languages recentLanguages : list string) :
  forall suggestions all,
    Forall (freshSuggestion languages) suggestions ->
    progressionSuggestions languages recentLanguages suggestions = Ok all ->
    Forall (freshSuggestion languages) all.
Proof.
  induction recentLanguages as [| lang rest IH]; intros suggestions all Hs; simpl.
  - intros [= <-]. exact Hs.
  - destruct (progressionStep languages lang) as [added |] eqn:Hstep; [| discriminate].
    simpl. apply IH. apply Forall_app. split; [exact Hs |].
    now apply (progressionStep_fresh languages lang).
Qed.

Lemma NoDup_firstn {A : Type} (n : nat) (xs : list A) : NoDup xs -> NoDup (firstn n xs).
Proof.
  intros H. rewrite <- (firstn_skipn n xs) in H. now apply NoDup_app_remove_r in H.
Qed.

(** What [predictNextTechnology] suggests, when it returns.  The primary
    suggestion and its alternatives are pairwise different, there are at
    most three alternatives, and none of them is a language of the user's
    repositories.  The primary suggestion is one of those languages only
    when nothing is left to suggest: it is then the fallback "React", with
    no alternative. *)
Theorem predictNextTechnology_suggestions (repos : list Repo.t)
  (next : NextTechnology.t) :
  predictNextTechnology repos = Ok next ->
  NoDup (NextTechnology.primary next :: NextTechnology.alternatives next)
  /\ (length (NextTechnology.alternatives next) <= 3)%nat
  /\ Forall (freshSuggestion (languagesOf repos)) (NextTechnology.alternatives next)
  /\ (arrIncludes (languagesOf repos) (NextTechnology.primary next) = true ->
      NextTechnology.primary next = "React" /\ NextTechnology.alternatives next = []).
Proof.
  unfold predictNextTechnology. cbv zeta.
  destruct (progressionSuggestions (languagesOf repos) (languagesOf (slice 0 5 repos)) [])
    as [suggestions |] eqn:Hs; [| discriminate].
  cbn [obind].
  apply progressionSuggestions_fresh in Hs; [| constructor].
  set (all := if (3 <=? length (newSet String.eqb (languagesOf repos)))%nat
              then (suggestions
                    ++ slice 0 2 (filter (fun tech => negb (arrIncludes (languagesOf repos) tech))
                                    trendingTech))%list
              else suggestions).
  assert (Hall : Forall (freshSuggestion (languagesOf repos)) all).
  { unfold all.
    match goal with
    | |- context [if ?c then _ else _] => destruct c
    end; [| exact Hs].
    apply Forall_app. split; [exact Hs |].
    apply Forall_slice, Forall_filter_fresh, trendingTech_names. }
  assert (Hunique : Forall (freshSuggestion (languagesOf repos)) (newSet String.eqb all)).
  { rewrite Forall_forall in *. intros tech Hin. apply Hall.
    now apply (In_newSet String.eqb string_eqb_eq). }
  pose proof (NoDup_newSet String.eqb string_eqb_eq all) as Hnd.
  set (unique := newSet String.eqb all) in *. clearbody unique. clear all Hall.
  match goal with
  | |- Ok (NextTechnology.mk _ _ ?c ?r) = _ -> _ =>
      generalize c; generalize r; intros reasoning confidence
  end.
  intros [= <-]. cbn [NextTechnology.primary NextTechnology.alternatives].
  destruct unique as [| first rest].
  - change (slice 1 4 (@nil string)) with (@nil string).
    split; [constructor; [simpl; tauto | constructor] |].
    split; [simpl; lia |]. split; [constructor |]. intros _. split; reflexivity.
  - inversion Hunique as [| ? ? [Hnew Hname] Hrest]; subst.
    destruct (String.eqb_spec first "") as [Hempty | _]; [contradiction |].
    unfold slice. cbn [skipn]. change (4 - 1)%nat with 3%nat.
    inversion Hnd as [| ? ? Hfirst Hnd']; subst.
    split; [| split; [| split]].
    + constructor; [| now apply NoDup_firstn].
      intros Hin. apply Hfirst.
      rewrite <- (firstn_skipn 3 rest). apply in_or_app. now left.
    + rewrite length_firstn. lia.
    + now apply Forall_firstn.
    + intros Hused. congruence.
Qed.

Lemma predictNextTechnology_suggestions_witness :
  NoDup ["TypeScript"; "React"; "Django"; "FastAPI"]
  /\ (length ["React"; "Django"; "FastAPI"] <= 3)%nat
  /\ Forall (freshSuggestion ["JavaScript"; "Python"; "Go"]) ["React"; "Django"; "FastAPI"]
  /\ (arrIncludes ["JavaScript"; "Python"; "Go"] "TypeScript" = true ->
      "TypeScript" = "React" /\ ["React"; "Django"; "FastAPI"] = @nil string).
Proof.
  apply (predictNextTechnology_suggestions
           (orEmptyArray (UserData.repositories sampleUser))
           (NextTechnology.mk "TypeScript" ["React"; "Django"; "FastAPI"]
              (Qmin 0.9 (0.5 + Nq 3 * 0.1 + Nq 3 * 0.01))
              "Perfect for full-stack development progression")).
  reflexivity.
Defined.

(** *** Languages named like inherited properties *)





(** *** Collaboration growth *)

Lemma slice_firstn {A : Type} (s e n : nat) (xs : list A) :
  (e <= n)%nat -> slice s e (firstn n xs) = slice s e xs.
Proof.
  intros He. unfold slice.
  rewrite skipn_firstn_comm, firstn_firstn. f_equal. lia.
Qed.

(** The collaboration trend the engine returns reads the 30 most recent
    events and nothing else.  Without a pull request or an issue among them
    it is "Stable Collaboration" at confidence 0.9, and with 15 events or
    fewer it is never "Focusing Inward". *)
Theorem predictCollaborationGrowth_recent_events (events : list Event.t) :
  predictCollaborationGrowth events = predictCollaborationGrowth (firstn 30 events)
  /\ (count opensPullRequestOrIssue (firstn 30 events) = 0%nat ->
      predictCollaborationGrowth events
      = Ok (CollaborationGrowth.mk "Stable Collaboration 📊" 0.9 None))
  /\ ((length events <= 15)%nat ->
      exists growth,
        predictCollaborationGrowth events = Ok growth
        /\ (CollaborationGrowth.trend growth = "Increasing Collaboration 🤝"
            \/ CollaborationGrowth.trend growth = "Stable Collaboration 📊")).
Proof.
  change (predictCollaborationGrowth events)
    with (Ok (predictCollaborationGrowth_later events)).
  change (predictCollaborationGrowth (firstn 30 events))
    with (Ok (predictCollaborationGrowth_later (firstn 30 events))).
  unfold predictCollaborationGrowth_later. cbv zeta.
  fold opensPullRequestOrIssue.
  split; [| split].
  - rewrite !slice_firstn by lia. reflexivity.
  - intros Hnone.
    assert (Hcount : forall s e, (e <= 30)%nat ->
              count opensPullRequestOrIssue (slice s e events) = 0%nat).
    { intros s e He. rewrite <- (slice_firstn s e 30) by exact He.
      unfold count in *. apply length_zero_iff_nil in Hnone.
      apply length_zero_iff_nil.
      assert (Hall : Forall (fun x => opensPullRequestOrIssue x = false) (firstn 30 events)).
      { apply Forall_forall. intros x Hx.
        destruct (opensPullRequestOrIssue x) eqn:Hx'; [| reflexivity].
        assert (In x (filter opensPullRequestOrIssue (firstn 30 events)))
          by (apply filter_In; tauto).
        rewrite Hnone in H. contradiction. }
      apply (Forall_slice _ s e) in Hall.
      induction Hall as [| x xs Hx _ IH]; [reflexivity |].
      simpl. now rewrite Hx. }
    rewrite !Hcount by lia. reflexivity.
  - intros Hfew.
    assert (Hold : slice 15 30 events = []).
    { unfold slice. apply length_zero_iff_nil.
      rewrite length_firstn, length_skipn. lia. }
    rewrite Hold. change (count opensPullRequestOrIssue []) with 0%nat.
    destruct (Qgtb _ _); [eexists; split; [reflexivity | now left] |].
    rewrite (proj2 (Qltb_false_iff _ _)).
    + eexists; split; [reflexivity | now right].
    + change (Nq 0 * 0.7)%Q with (0 * 0.7)%Q.
      pose proof (Nq_nonneg (count opensPullRequestOrIssue (slice 0 15 events))). lra.
Qed.

(** Twelve PushEvents. *)
Lemma predictCollaborationGrowth_recent_events_witness :
  predictCollaborationGrowth twelvePushes
  = Ok (CollaborationGrowth.mk "Stable Collaboration 📊" 0.9 None).
Proof.
  apply (proj1 (proj2 (predictCollaborationGrowth_recent_events twelvePushes))).
  reflexivity.
Defined.

(** ** Distributions, the personality card and the risks *)

(** *** Distributions *)





(** *** The personality card *)

(** The card is always filled.  The description is the one written for the
    type, never the fallback text; each of the two lists has from one to
    five entries; and the icon the panel takes from the type name is the
    emoji only for the Innovator: for the four other types it is the second
    word of the name, and it is never the fallback icon. *)
Theorem personality_card_filled (metrics : Scores.t) :
  objectLiteral personalityDescriptions (determinePersonalityType metrics)
  = Some (generatePersonalityDescription metrics)
  /\ (1 <= length (identifyStrengths metrics) <= 5)%nat
  /\ (1 <= length (identifyGrowthAreas metrics) <= 5)%nat
  /\ In (determinePersonalityType metrics, personalityIcon (determinePersonalityType metrics))
       [ ("Innovator 🚀", "🚀"); ("Team Player 🤝", "Player");
         ("Reliable Contributor 🎯", "Contributor");
         ("Technology Explorer 🔍", "Explorer");
         ("Balanced Developer ⚖️", "Developer") ].
Proof.
  split; [| split; [| split]].
  - unfold generatePersonalityDescription, determinePersonalityType. cbv zeta.
    repeat match goal with
           | |- context [if ?c then _ else _] => destruct c
           end; reflexivity.
  - unfold identifyStrengths. cbv zeta.
    repeat match goal with
           | |- context [if Qgtb ?a ?b then _ else _] => destruct (Qgtb a b)
           end; simpl; lia.
  - unfold identifyGrowthAreas. cbv zeta.
    repeat match goal with
           | |- context [if Qltb ?a ?b then _ else _] => destruct (Qltb a b)
           end; simpl; lia.
  - unfold determinePersonalityType. cbv zeta.
    repeat match goal with
           | |- context [if ?c then _ else _] => destruct c
           end; vm_compute; tauto.
Qed.

(** *** Skill stagnation *)

Lemma slice_all {A : Type} (n : nat) (xs : list A) :
  (length xs <= n)%nat -> slice 0 n xs = xs.
Proof.
  intros H. unfold slice. rewrite skipn_O, Nat.sub_0_r. now apply firstn_all2.
Qed.

(** With five repositories or fewer the recent languages are all the
    languages, and the stagnation risk is "Low". *)
Theorem assessSkillStagnation_few_repositories (repos : list Repo.t) :
  (length repos <= 5)%nat ->
  assessSkillStagnation repos = Risk.mk "Low" "Good variety in technology exploration".
Proof.
  intros Hfew. unfold assessSkillStagnation. cbv zeta.
  rewrite slice_all by exact Hfew.
  rewrite (proj2 (Qltb_false_iff _ _)); [reflexivity |].
  pose proof (Nq_nonneg (length (newSet String.eqb (languagesOf repos)))). lra.
Qed.

Lemma assessSkillStagnation_few_repositories_witness :
  assessSkillStagnation (orEmptyArray (UserData.repositories sampleUser))
  = Risk.mk "Low" "Good variety in technology exploration".
Proof.
  apply (assessSkillStagnation_few_repositories
           (orEmptyArray (UserData.repositories sampleUser))).
  vm_compute. lia.
Defined.

(** *** The burnout risk, reported twice *)

Lemma assessBurnoutRisk_verdict (rnd : nat -> Q) (tzOffset : Z -> Z)
  (events : list Event.t) (weeklyPattern : list Z) (k1 k2 k1' k2' : nat)
  (risk1 risk2 : BurnoutRisk.t) :
  assessBurnoutRisk rnd tzOffset events weeklyPattern k1 = Ok (risk1, k1') ->
  assessBurnoutRisk rnd tzOffset events weeklyPattern k2 = Ok (risk2, k2') ->
  burnoutVerdict risk1 = burnoutVerdict risk2
  /\ ((20 <= length events)%nat -> risk1 = risk2)
  /\ ((length events < 20)%nat ->
      BurnoutRisk.score risk1 = (rnd k1 * 3 + 1)%Q
      /\ BurnoutRisk.score risk2 = (rnd k2 * 3 + 1)%Q).
Proof.
  destruct (Nat.ltb_spec (length events) 20) as [Hlt | Hge].
  - unfold assessBurnoutRisk.
    rewrite (proj2 (Nat.ltb_lt _ _) Hlt). intros [= <- _] [= <- _].
    split; [reflexivity |]. split; [lia |]. intros _. split; reflexivity.
  - destruct (assessBurnoutRisk_drawFree tzOffset events weeklyPattern
                (proj2 (Nat.ltb_ge _ _) Hge)) as [o Ho].
    rewrite !Ho. unfold lift. destruct o as [risk | e]; simpl; [| discriminate].
    intros [= <- _] [= <- _].
    split; [reflexivity |]. split; [reflexivity |]. lia.
Qed.

(** The engine reports the burnout risk twice, in [workPatterns] and in
    [riskAnalysis].  The two records always carry the same level, advice
    and recommendations; from 20 events on they are equal, and below 20
    events their scores are two separate draws. *)
Theorem generateInsights_burnout_twice
  (rnd : nat -> Q) (now : Z) (tzOffset : Z -> Z) (js_sqrt js_log10 : Q -> Q)
  (userData : UserData.t) (k k' : nat) (insights : Insights.t) :
  generateInsights rnd now tzOffset js_sqrt js_log10 userData k = Ok (insights, k') ->
  burnoutVerdict (WorkPatterns.burnoutRisk (Insights.workPatterns insights))
  = burnoutVerdict (RiskAnalysis.burnoutRisk (Insights.riskAnalysis insights))
  /\ ((20 <= length (orEmptyArray (UserData.events userData)))%nat ->
      WorkPatterns.burnoutRisk (Insights.workPatterns insights)
      = RiskAnalysis.burnoutRisk (Insights.riskAnalysis insights))
  /\ ((length (orEmptyArray (UserData.events userData)) < 20)%nat ->
      exists draw,
        BurnoutRisk.score (WorkPatterns.burnoutRisk (Insights.workPatterns insights))
        = (rnd draw * 3 + 1)%Q
        /\ BurnoutRisk.score (RiskAnalysis.burnoutRisk (Insights.riskAnalysis insights))
           = (rnd (S draw) * 3 + 1)%Q).
Proof.
  unfold generateInsights, bind at 1.
  destruct (analyzePersonalityProfile rnd now tzOffset js_sqrt js_log10 userData k)
    as [[profile k1] | e]; [| discriminate].
  unfold analyzeWorkPatterns, bind at 1. cbv zeta. unfold bind at 1.
  destruct (assessBurnoutRisk rnd tzOffset (orEmptyArray (UserData.events userData))
              (analyzeWeeklyPattern tzOffset (orEmptyArray (UserData.events userData))) k1)
    as [[risk1 k2] | e] eqn:Hwork; [| discriminate].
  unfold ret at 1. unfold bind at 1, lift.
  destruct (generatePredictions userData) as [predictions | e]; [| discriminate].
  cbn [omap]. unfold analyzeRisks, bind at 1. cbv zeta. unfold bind at 1.
  destruct (assessBurnoutRisk rnd tzOffset (orEmptyArray (UserData.events userData))
              (analyzeWeeklyPattern tzOffset (orEmptyArray (UserData.events userData))) k2)
    as [[risk2 k3] | e] eqn:Hrisk; [| discriminate].
  unfold ret. intros [= <- _].
  cbn [Insights.workPatterns Insights.riskAnalysis WorkPatterns.burnoutRisk
       RiskAnalysis.burnoutRisk].
  destruct (assessBurnoutRisk_verdict _ _ _ _ _ _ _ _ _ _ Hwork Hrisk)
    as (Hverdict & Hmany & Hfew).
  split; [exact Hverdict |]. split; [exact Hmany |].
  intros Hlt. exists k1. destruct (Hfew Hlt) as [H1 H2]. split; [exact H1 |].
  rewrite H2. f_equal. f_equal. f_equal.
  unfold assessBurnoutRisk in Hwork.
  rewrite (proj2 (Nat.ltb_lt _ _) Hlt) in Hwork. now injection Hwork.
Qed.

(** The empty input: two records with the level "Low" and two draws. *)
Lemma generateInsights_burnout_twice_witness :
  match generateInsights sampleRnd sampleNow utc sqrtApprox log10Approx emptyUser 0%nat with
  | Ok (insights, _) =>
      burnoutVerdict (WorkPatterns.burnoutRisk (Insights.workPatterns insights))
      = burnoutVerdict (RiskAnalysis.burnoutRisk (Insights.riskAnalysis insights))
  | Throw _ => False
  end.
Proof.
  destruct (generateInsights sampleRnd sampleNow utc sqrtApprox log10Approx emptyUser 0%nat)
    as [[insights k'] | e] eqn:Hrun.
  - apply (proj1 (generateInsights_burnout_twice _ _ _ _ _ _ _ _ _ Hrun)).
  - vm_compute in Hrun. discriminate Hrun.
Defined.

(** ** Progress bars and session length *)

Lemma yields_bind {A B : Type} (P : A -> Prop) (R : B -> Prop) (m : M A)
  (f : A -> M B) (k : nat) :
  yields P m k -> (forall a k', P a -> yields R (f a) k') -> yields R (bind m f) k.
Proof.
  intros (a & k' & Hm & Ha) Hf. destruct (Hf a k' Ha) as (b & k'' & Hb & Hr).
  exists b, k''. unfold bind. rewrite Hm. split; assumption.
Qed.

Lemma barWidth_within (score : Q) :
  (1 <= score <= 10)%Q ->
  (10 <= (if Qeqb score 0 then 5 else score) / 10 * 100 <= 100)%Q.
Proof.
  intros [Hlo Hhi].
  assert (Qeqb score 0 = false) as ->.
  { apply not_true_iff_false. intros H. apply Qeq_bool_iff in H. lra. }
  assert (Heq : (score / 10 * 100 == score * 10)%Q) by field.
  rewrite Heq. lra.
Qed.

(** The five progress bars of the personality card are between 10% and
    100% wide for the scores the engine computes: no score is 0, so the
    panel never replaces one by 5. *)
Theorem renderPersonalityMetrics_widths
  (rnd : nat -> Q) (now : Z) (tzOffset : Z -> Z) (js_sqrt js_log10 : Q -> Q)
  (userData : UserData.t) (k : nat) :
  (forall draw, 0 <= rnd draw < 1)%Q ->
  yields (fun profile =>
            Forall (fun width => 10 <= width <= 100)%Q
              (barWidths (PersonalityProfile.scores profile))
            /\ barWidths (PersonalityProfile.scores profile)
               = map (fun score => score / 10 * 100)%Q
                   [ Scores.innovation (PersonalityProfile.scores profile);
                     Scores.collaboration (PersonalityProfile.scores profile);
                     Scores.consistency (PersonalityProfile.scores profile);
                     Scores.exploration (PersonalityProfile.scores profile);
                     Scores.leadership (PersonalityProfile.scores profile) ])
    (analyzePersonalityProfile rnd now tzOffset js_sqrt js_log10 userData) k.
Proof.
  intros Hrnd. unfold analyzePersonalityProfile. cbv zeta.
  eapply yields_bind; [apply (calculateInnovationScore_within rnd Hrnd) |].
  intros innovation k1 Hi.
  eapply yields_bind; [apply (calculateCollaborationScore_within rnd Hrnd) |].
  intros collaboration k2 Hc.
  eapply yields_bind; [apply (calculateConsistencyScore_within rnd Hrnd) |].
  intros consistency k3 Hs.
  eapply yields_bind; [apply (calculateExplorationScore_within rnd Hrnd) |].
  intros exploration k4 He.
  eapply yields_bind; [apply (calculateLeadershipScore_within rnd Hrnd) |].
  intros leadership k5 Hl.
  eexists; eexists. split; [reflexivity |].
  cbn [PersonalityProfile.scores]. unfold barWidths.
  cbn [Scores.innovation Scores.collaboration Scores.consistency Scores.exploration
       Scores.leadership map].
  split.
  - repeat (apply Forall_cons; [now apply barWidth_within |]). constructor.
  - assert (Hzero : forall score, (1 <= score <= 10)%Q -> Qeqb score 0 = false).
    { intros score Hscore. apply not_true_iff_false. intros H.
      apply Qeq_bool_iff in H. lra. }
    rewrite !Hzero by assumption. reflexivity.
Qed.

Lemma renderPersonalityMetrics_widths_witness :
  yields (fun profile =>
            Forall (fun width => 10 <= width <= 100)%Q
              (barWidths (PersonalityProfile.scores profile))
            /\ barWidths (PersonalityProfile.scores profile)
               = map (fun score => score / 10 * 100)%Q
                   [ Scores.innovation (PersonalityProfile.scores profile);
                     Scores.collaboration (PersonalityProfile.scores profile);
                     Scores.consistency (PersonalityProfile.scores profile);
                     Scores.exploration (PersonalityProfile.scores profile);
                     Scores.leadership (PersonalityProfile.scores profile) ])
    (analyzePersonalityProfile sampleRnd sampleNow utc sqrtApprox log10Approx demoUser)
    0%nat.
Proof.
  apply (renderPersonalityMetrics_widths sampleRnd sampleNow utc sqrtApprox log10Approx
           demoUser 0%nat).
  intros draw. split; [discriminate | reflexivity].
Defined.

(** *** Session length *)

Lemma filter_onDay_lone (tzOffset : Z -> Z) (key : option Z) (events : list Event.t) :
  NoDup (map (dayOf tzOffset) events) ->
  (length (filter (onDay tzOffset key) events) <= 1)%nat.
Proof.
  induction events as [| e events IH]; simpl; [lia |].
  intros Hnd. inversion Hnd as [| ? ? Hnew Hrest]; subst.
  change (onDay tzOffset key e) with (dayKeyEqb key (dayOf tzOffset e)).
  destruct (dayKeyEqb key (dayOf tzOffset e)) eqn:Hkey.
  - apply dayKeyEqb_eq in Hkey. subst key.
    rewrite filter_onDay_absent by exact Hnew. simpl. lia.
  - now apply IH.
Qed.

(** When no two events fall on the same local day no gap between events is
    measured, and the session length is the default "1-2 hours"; with
    fewer than two events it is "Unknown". *)
Theorem estimateSessionLength_lone_events (tzOffset : Z -> Z) (events : list Event.t) :
  NoDup (map (dayOf tzOffset) events) ->
  estimateSessionLength tzOffset events
  = if (length events <? 2)%nat
    then SessionLength.mk "Unknown" "Insufficient data"
    else SessionLength.mk "1-2 hours" "Focused sessions".
Proof.
  intros Hnd. unfold estimateSessionLength.
  destruct (length events <? 2)%nat; [reflexivity |]. cbv zeta.
  rewrite groupEventsByDay_groups.
  assert (Hnone : flat_map
            (fun day : option Z * list Event.t =>
               if (length (snd day) <? 2)%nat then []
               else sessionGaps (sortByDate (snd day)))
            (map (fun key => (key, filter (onDay tzOffset key) events))
               (newSet dayKeyEqb (map (dayOf tzOffset) events))) = []).
  { induction (newSet dayKeyEqb (map (dayOf tzOffset) events)) as [| key keys IH];
      [reflexivity |].
    simpl. rewrite IH.
    pose proof (filter_onDay_lone tzOffset key events Hnd) as Hlone.
    destruct (Nat.ltb_spec (length (filter (onDay tzOffset key) events)) 2);
      [reflexivity | lia]. }
  rewrite Hnone. reflexivity.
Qed.

(** Twelve pushes on twelve days. *)
Lemma estimateSessionLength_lone_events_witness :
  estimateSessionLength utc twelvePushes
  = if (length twelvePushes <? 2)%nat
    then SessionLength.mk "Unknown" "Insufficient data"
    else SessionLength.mk "1-2 hours" "Focused sessions".
Proof.
  apply (estimateSessionLength_lone_events utc twelvePushes).
  vm_compute. repeat constructor; simpl; intuition discriminate.
Defined.

(** ** Coherence of the profile, titles and scores *)

(** *** The type and the strengths *)

Lemma above_8_above_7 (s : Q) : Qgtb s 8 = true -> Qgtb s 7 = true.
Proof. rewrite !Qgtb_true_iff. lra. Qed.

Lemma above_7_not_below_5 (s : Q) : Qgtb s 7 = true -> Qltb s 5 = false.
Proof. rewrite Qgtb_true_iff, Qltb_false_iff. lra. Qed.

Lemma In_identifyStrengths (metrics : Scores.t) :
  (Qgtb (Scores.innovation metrics) 7 = true ->
   In "Innovation & Creativity" (identifyStrengths metrics))
  /\ (Qgtb (Scores.collaboration metrics) 7 = true ->
      In "Team Collaboration" (identifyStrengths metrics))
  /\ (Qgtb (Scores.consistency metrics) 7 = true ->
      In "Reliable Delivery" (identifyStrengths metrics))
  /\ (Qgtb (Scores.exploration metrics) 7 = true ->
      In "Technology Adaptability" (identifyStrengths metrics)).
Proof.
  unfold identifyStrengths. cbv zeta.
  destruct (Qgtb (Scores.innovation metrics) 7), (Qgtb (Scores.collaboration metrics) 7),
    (Qgtb (Scores.consistency metrics) 7), (Qgtb (Scores.exploration metrics) 7),
    (Qgtb (Scores.leadership metrics) 7);
    repeat split; intros H; try discriminate H; simpl; tauto.
Qed.

Lemma notIn_identifyGrowthAreas (metrics : Scores.t) :
  (Qltb (Scores.innovation metrics) 5 = false ->
   ~ In "Experiment with new technologies" (identifyGrowthAreas metrics))
  /\ (Qltb (Scores.collaboration metrics) 5 = false ->
      ~ In "Increase community involvement" (identifyGrowthAreas metrics))
  /\ (Qltb (Scores.consistency metrics) 5 = false ->
      ~ In "Develop regular coding habits" (identifyGrowthAreas metrics))
  /\ (Qltb (Scores.exploration metrics) 5 = false ->
      ~ In "Try diverse programming languages" (identifyGrowthAreas metrics)).
Proof.
  unfold identifyGrowthAreas. cbv zeta.
  destruct (Qltb (Scores.innovation metrics) 5), (Qltb (Scores.collaboration metrics) 5),
    (Qltb (Scores.consistency metrics) 5), (Qltb (Scores.exploration metrics) 5),
    (Qltb (Scores.leadership metrics) 5);
    repeat split; intros H; try discriminate H; simpl; intuition discriminate.
Qed.

(** The profile is coherent: the strengths that go with the scores that
    decided the type are always among the strengths listed, and the growth
    areas that would contradict the type are never listed. *)
Theorem personality_profile_coherent (metrics : Scores.t) :
  Forall (fun strength => In strength (identifyStrengths metrics))
    (definingStrengths (determinePersonalityType metrics))
  /\ Forall (fun area => ~ In area (identifyGrowthAreas metrics))
       (contraryGrowthAreas (determinePersonalityType metrics)).
Proof.
  destruct (In_identifyStrengths metrics) as (Si & Sc & Ss & Se).
  destruct (notIn_identifyGrowthAreas metrics) as (Gi & Gc & Gs & Ge).
  unfold determinePersonalityType. cbv zeta.
  destruct (Qgtb (Scores.innovation metrics) 7) eqn:Hi;
    destruct (Qgtb (Scores.exploration metrics) 7) eqn:He;
    destruct (Qgtb (Scores.collaboration metrics) 7) eqn:Hc;
    destruct (Qgtb (Scores.consistency metrics) 7) eqn:Hs;
    destruct (Qgtb (Scores.consistency metrics) 8) eqn:Hs8;
    destruct (Qgtb (Scores.exploration metrics) 8) eqn:He8;
    cbn [andb];
    try (apply above_8_above_7 in Hs8; congruence);
    try (apply above_8_above_7 in He8; congruence);
    (split; simpl;
     repeat (apply Forall_cons;
             [first [ apply Si; reflexivity | apply Sc; reflexivity
                    | apply Ss; reflexivity | apply Se; reflexivity
                    | apply Gi; now apply above_7_not_below_5
                    | apply Gc; now apply above_7_not_below_5
                    | apply Gs; now apply above_7_not_below_5
                    | apply Ge; now apply above_7_not_below_5 ] |]);
     apply Forall_nil).
Qed.

(** *** No title twice *)

Lemma distinctb_NoDup (xs : list string) : distinctb xs = true -> NoDup xs.
Proof.
  induction xs as [| x xs IH]; simpl; [constructor |].
  intros H. apply andb_true_iff in H. destruct H as [Hx Hrest].
  constructor; [| now apply IH].
  apply negb_true_iff in Hx. now apply (inb_false String.eqb string_eqb_eq).
Qed.

Lemma generateTechRecommendations_titles (insights : BasicPatterns.t) :
  NoDup (titles (generateTechRecommendations insights))
  /\ Forall (fun rec => arrIncludes techTitles (Recommendation.title rec) = true)
       (generateTechRecommendations insights).
Proof.
  unfold generateTechRecommendations. cbv zeta. split;
    [apply distinctb_NoDup; case_by_case; reflexivity
    | apply Forall_slice; each_recommendation; reflexivity].
Qed.

Lemma generateLearningRecommendations_titles (insights : BasicPatterns.t) :
  NoDup (titles (generateLearningRecommendations insights))
  /\ Forall (fun rec => arrIncludes learningTitles (Recommendation.title rec) = true)
       (generateLearningRecommendations insights).
Proof.
  unfold generateLearningRecommendations. cbv zeta. split; [apply distinctb_NoDup; case_by_case; reflexivity |].
  destruct (BasicPatterns.repoCount insights <? 5)%Z;
    [| destruct (BasicPatterns.repoCount insights <? 15)%Z];
    unfold slice; cbn [skipn app firstn Nat.sub];
    repeat first [apply Forall_nil | apply Forall_cons]; reflexivity.
Qed.

Lemma generateProductivityRecommendations_titles (insights : BasicPatterns.t) :
  NoDup (titles (generateProductivityRecommendations insights))
  /\ Forall (fun rec => arrIncludes productivityTitles (Recommendation.title rec) = true)
       (generateProductivityRecommendations insights).
Proof.
  unfold generateProductivityRecommendations. cbv zeta.
  split;
    [apply distinctb_NoDup; case_by_case; reflexivity
    | apply Forall_slice; each_recommendation; reflexivity].
Qed.

Lemma generateCareerRecommendations_titles (insights : BasicPatterns.t) :
  NoDup (titles (generateCareerRecommendations insights))
  /\ Forall (fun rec => arrIncludes careerTitles (Recommendation.title rec) = true)
       (generateCareerRecommendations insights).
Proof.
  unfold generateCareerRecommendations. cbv zeta.
  split;
    [apply distinctb_NoDup; case_by_case; reflexivity
    | apply Forall_slice; each_recommendation; reflexivity].
Qed.

(** Titles drawn from two lists that share no title. *)
Lemma titles_apart (from1 from2 : list string) (recs1 recs2 : list Recommendation.t) :
  forallb (fun title => negb (arrIncludes from2 title)) from1 = true ->
  Forall (fun rec => arrIncludes from1 (Recommendation.title rec) = true) recs1 ->
  Forall (fun rec => arrIncludes from2 (Recommendation.title rec) = true) recs2 ->
  forall title, In title (titles recs1) -> ~ In title (titles recs2).
Proof.
  intros Hapart H1 H2 title Hin1 Hin2.
  unfold titles in *. apply in_map_iff in Hin1, Hin2.
  destruct Hin1 as (r1 & <- & Hr1). destruct Hin2 as (r2 & Heq & Hr2).
  rewrite Forall_forall in H1, H2. specialize (H1 r1 Hr1). specialize (H2 r2 Hr2).
  rewrite Heq in H2. apply (inb_In String.eqb string_eqb_eq) in H1.
  rewrite forallb_forall in Hapart. specialize (Hapart _ H1).
  rewrite H2 in Hapart. discriminate.
Qed.

Lemma Forall_titles_app (from : list string) (more : list string)
  (recs : list Recommendation.t) :
  Forall (fun rec => arrIncludes from (Recommendation.title rec) = true) recs ->
  Forall (fun rec => arrIncludes (from ++ more) (Recommendation.title rec) = true) recs
  /\ Forall (fun rec => arrIncludes (more ++ from) (Recommendation.title rec) = true) recs.
Proof.
  intros H. split; eapply Forall_impl; try exact H; simpl; intros rec Hrec;
    apply (inb_In String.eqb string_eqb_eq); apply in_or_app;
    apply (inb_In String.eqb string_eqb_eq) in Hrec; tauto.
Qed.

(** No title is recommended twice.  (The title "Full-Stack Development" is
    written in two generators; the learning one never returns it.) *)
Theorem generateRecommendations_titles_distinct (userData : UserData.t) :
  NoDup (titles (generateRecommendations userData)).
Proof.
  set (insights := analyzeBasicPatterns userData).
  destruct (generateTechRecommendations_titles insights) as [Nt Ft].
  destruct (generateLearningRecommendations_titles insights) as [Nl Fl].
  destruct (generateProductivityRecommendations_titles insights) as [Np Fp].
  destruct (generateCareerRecommendations_titles insights) as [Nc Fc].
  rewrite generateRecommendations_cut. fold insights.
  set (n := (8 - length (generateTechRecommendations insights)
             - length (generateLearningRecommendations insights)
             - length (generateProductivityRecommendations insights))%nat).
  assert (Nc' : NoDup (titles (firstn n (generateCareerRecommendations insights)))).
  { unfold titles. rewrite <- firstn_map. apply NoDup_firstn. exact Nc. }
  assert (Fc' : Forall (fun rec => arrIncludes careerTitles (Recommendation.title rec) = true)
                  (firstn n (generateCareerRecommendations insights)))
    by (apply Forall_firstn; exact Fc).
  unfold titles in *. rewrite !map_app.
  apply NoDup_app; [exact Nt | |].
  - apply NoDup_app; [exact Nl | |].
    + apply NoDup_app; [exact Np | exact Nc' |].
      apply (titles_apart productivityTitles careerTitles); [reflexivity | exact Fp | exact Fc'].
    + rewrite <- map_app.
      apply (titles_apart learningTitles (productivityTitles ++ careerTitles));
        [reflexivity | exact Fl |].
      apply Forall_app. split.
      * apply (Forall_titles_app productivityTitles careerTitles). exact Fp.
      * apply (Forall_titles_app careerTitles productivityTitles). exact Fc'.
  - rewrite <- !map_app.
    apply (titles_apart techTitles (learningTitles ++ productivityTitles ++ careerTitles));
      [reflexivity | exact Ft |].
    apply Forall_app. split.
    + apply (Forall_titles_app learningTitles (productivityTitles ++ careerTitles)).
      exact Fl.
    + apply Forall_app. split.
      * apply (Forall_titles_app (productivityTitles ++ careerTitles) learningTitles).
        apply (Forall_titles_app productivityTitles careerTitles). exact Fp.
      * apply (Forall_titles_app (productivityTitles ++ careerTitles) learningTitles).
        apply (Forall_titles_app careerTitles productivityTitles). exact Fc'.
Qed.

(** *** Scores through the API module *)

Lemma count_hasOrg_getUserEvents (events : list ApiEvent.t) :
  count hasOrg (getUserEvents events) = 0%nat.
Proof.
  unfold count, getUserEvents. induction events as [| raw events IH]; [reflexivity |].
  simpl. exact IH.
Qed.

Lemma no_share (n c : Q) : (Qmin 2 (Nq 0 / n * c) <= 0)%Q.
Proof.
  eapply Qle_trans; [apply Q.le_min_r |].
  assert (H : (Nq 0 / n * c == 0)%Q) by (change (Nq 0) with 0%Q; unfold Qdiv; ring).
  rewrite H. lra.
Qed.

Lemma clamped_within_1_8 (score : Q) :
  (score <= 8)%Q -> (1 <= Qmin 10 (Qmax 1 score) <= 8)%Q.
Proof.
  intros H. split; [apply clamp_1_10 |].
  eapply Qle_trans; [apply Q.le_min_r |]. apply Q.max_lub; lra.
Qed.

(** The events of the API module carry no organization, so the share of
    organization activity adds nothing to the two scores that count it:
    through the API module the collaboration score and the leadership score
    are at most 8. *)
Theorem scores_of_getUserEvents (rnd : nat -> Q) (js_log10 : Q -> Q)
  (repos : list Repo.t) (events : list ApiEvent.t) (k : nat) :
  (forall draw, 0 <= rnd draw < 1)%Q ->
  scoreWithin 1 8 (calculateCollaborationScore rnd (getUserEvents events)) k
  /\ scoreWithin 1 8 (calculateLeadershipScore rnd js_log10 repos (getUserEvents events)) k.
Proof.
  intros Hrnd. split.
  - unfold calculateCollaborationScore.
    destruct (length (getUserEvents events) =? 0)%nat;
      [apply (placeholder_within rnd Hrnd); lra |].
    cbv zeta. rewrite count_hasOrg_getUserEvents.
    eexists; eexists. split; [reflexivity |]. apply clamped_within_1_8.
    match goal with
    | |- (0 + Qmin 4 ?a + Qmin 2 (Nq 0 / ?n * 8) + Qmin 2 ?c + Qmin 2 ?d <= 8)%Q =>
        pose proof (Q.le_min_l 4 a); pose proof (no_share n 8);
        pose proof (Q.le_min_l 2 c); pose proof (Q.le_min_l 2 d)
    end.
    lra.
  - unfold calculateLeadershipScore.
    destruct ((length repos =? 0)%nat && (length (getUserEvents events) =? 0)%nat);
      [apply (placeholder_within rnd Hrnd); lra |].
    cbv zeta. rewrite count_hasOrg_getUserEvents.
    eexists; eexists. split; [reflexivity |]. apply clamped_within_1_8.
    match goal with
    | |- (0 + Qmin 2 ?a + Qmin 2 ?b + Qmin 2 ?c + Qmin 2 (Nq 0 / ?n * 10) + Qmin 2 ?d
          <= 8)%Q =>
        pose proof (Q.le_min_l 2 a); pose proof (Q.le_min_l 2 b);
        pose proof (Q.le_min_l 2 c); pose proof (no_share n 10);
        pose proof (Q.le_min_l 2 d)
    end.
    lra.
Qed.

Lemma scores_of_getUserEvents_witness :
  scoreWithin 1 8
    (calculateCollaborationScore sampleRnd
       (getUserEvents [ApiEvent.mk "PushEvent" (Some (ValidDate monday))
                         (Some "octocat/hello-world") (Some 3%nat)])) 0%nat
  /\ scoreWithin 1 8
       (calculateLeadershipScore sampleRnd log10Approx
          (orEmptyArray (UserData.repositories sampleUser))
          (getUserEvents [ApiEvent.mk "PushEvent" (Some (ValidDate monday))
                            (Some "octocat/hello-world") (Some 3%nat)])) 0%nat.
Proof.
  apply (scores_of_getUserEvents sampleRnd log10Approx
           (orEmptyArray (UserData.repositories sampleUser))
           [ApiEvent.mk "PushEvent" (Some (ValidDate monday))
              (Some "octocat/hello-world") (Some 3%nat)] 0%nat).
  intros draw. split; [discriminate | reflexivity].
Defined.
